(** * qualia-gtk-theme: the configuration record and the enablement engine

    A shallow embedding of [install.py]: the persistent configuration
    record ([Config.read], [Config.write], [Config.theme_variants],
    [Config.get_enableable]), the rebuild decisions of the component
    installers, and the enablement engine ([Enable.enable_theme]).

    Python values are modelled as follows.
    - [str] is [string]; a character is a code point below 256.
    - A [dict] is an association list kept in insertion order, with unique
      keys ([dict_set] replaces in place or appends at the end), because
      the installer iterates over several of its dictionaries.
    - An exception is a value of [exn]; a function that can raise returns a
      [result].
    - What [CONFIG_FILE] leads to is a [node]: nothing, a regular file
      with its text, or a directory.  The path itself is a [path]: a
      [node] reached without a symbolic link, a special file, or a
      symbolic link.
    - The settings stores (gsettings, xfconf-query) are total maps from a
      pair of identifiers to the stored string; every call made to them is
      recorded in a trace of [event]s. *)

From Stdlib Require Import String Ascii List ZArith Bool Lia DecimalString.
Import ListNotations.
Open Scope string_scope.

Set Implicit Arguments.

(** ** Exceptions and results *)

Inductive exn : Type :=
| KeyError
| IndexError
| TypeError
| ValueError
| AttributeError
| IsADirectoryError
| FileExistsError
| OSError.

Inductive result (A : Type) : Type :=
| Ok (a : A)
| Raise (e : exn).

Arguments Ok {A} a.
Arguments Raise {A} e.

Definition bind {A B : Type} (r : result A) (k : A -> result B) : result B :=
  match r with
  | Ok a => k a
  | Raise e => Raise e
  end.

Notation "x <- r ;; k" := (bind r (fun x => k))
  (at level 61, r at next level, right associativity).

Definition is_ok {A : Type} (r : result A) : bool :=
  match r with Ok _ => true | Raise _ => false end.

(** ** Strings, as Python's [str] methods use them *)

Module Str.

Definition nl : string := String (ascii_of_nat 10) "".

(** [str.isspace] on one code point below 256. *)
Definition is_space (c : ascii) : bool :=
  let n := nat_of_ascii c in
  (((9 <=? n) && (n <=? 13)) || ((28 <=? n) && (n <=? 32))
   || (n =? 133) || (n =? 160))%nat.

Definition is_empty (s : string) : bool :=
  match s with EmptyString => true | String _ _ => false end.

Fixpoint lstrip (s : string) : string :=
  match s with
  | EmptyString => EmptyString
  | String c s' => if is_space c then lstrip s' else s
  end.

Fixpoint rstrip (s : string) : string :=
  match s with
  | EmptyString => EmptyString
  | String c s' =>
      let r := rstrip s' in
      if is_space c && is_empty r then EmptyString else String c r
  end.

(** [s.strip()] *)
Definition strip (s : string) : string := rstrip (lstrip s).

(** [s.startswith(p)] *)
Definition startswith (s p : string) : bool := String.prefix p s.

(** [s.endswith(p)] *)
Fixpoint endswith (s p : string) : bool :=
  (s =? p) ||
  match s with
  | EmptyString => false
  | String _ s' => endswith s' p
  end.

(** [sub in s] for two strings. *)
Fixpoint contains (sub s : string) : bool :=
  String.prefix sub s ||
  match s with
  | EmptyString => false
  | String _ s' => contains sub s'
  end.

(** [s.split(sep)] for a non-empty [sep]: the occurrences of [sep] are
    found from the left and do not overlap.  [skip] counts the characters
    of a separator just found that are still to be passed over; the head
    of the result is the piece being read. *)
Fixpoint split_go (sep : string) (skip : nat) (s : string) : list string :=
  match s with
  | EmptyString => [EmptyString]
  | String c s' =>
      match skip with
      | S k => split_go sep k s'
      | O =>
          if String.prefix sep s
          then EmptyString :: split_go sep (String.length sep - 1) s'
          else match split_go sep 0 s' with
               | p :: ps => String c p :: ps
               | [] => [String c EmptyString]
               end
      end
  end.

Definition split (sep s : string) : list string := split_go sep 0 s.

(** [sep.join(l)] *)
Definition join (sep : string) (l : list string) : string :=
  String.concat sep l.

(** [x in l] for a list of strings. *)
Definition mem (x : string) (l : list string) : bool :=
  existsb (String.eqb x) l.

Definition is_digit (c : ascii) : bool :=
  let n := nat_of_ascii c in ((48 <=? n) && (n <=? 57))%nat.

Definition digit_val (c : ascii) : Z := Z.of_nat (nat_of_ascii c) - 48.

(** The digits of a decimal literal: single underscores may separate
    digits. *)
Fixpoint digits (acc : Z) (after_digit : bool) (s : string) : option Z :=
  match s with
  | EmptyString => if after_digit then Some acc else None
  | String c s' =>
      if is_digit c then digits (10 * acc + digit_val c) true s'
      else if Ascii.eqb c "_" && after_digit then digits acc false s'
      else None
  end.

(** [int(s)] for a string: surrounding white space, an optional sign,
    decimal digits.  [None] stands for [ValueError]. *)
Definition to_int (s : string) : option Z :=
  match strip s with
  | String "-" d => option_map Z.opp (digits 0 false d)
  | String "+" d => digits 0 false d
  | d => digits 0 false d
  end.

(** [str(n)] for an integer. *)
Definition of_int (n : Z) : string := NilZero.string_of_int (Z.to_int n).

(** [f.readlines()] on a text file opened with universal newlines: a
    carriage return, alone or before a line feed, reads as a line feed;
    every line keeps its line feed. *)
Fixpoint readlines (s : string) : list string :=
  match s with
  | EmptyString => []
  | String c s' =>
      if Ascii.eqb c (ascii_of_nat 10) then nl :: readlines s'
      else if Ascii.eqb c (ascii_of_nat 13) then
        match s' with
        | String c' s'' =>
            if Ascii.eqb c' (ascii_of_nat 10) then nl :: readlines s''
            else nl :: readlines s'
        | EmptyString => [nl]
        end
      else match readlines s' with
           | l :: ls => String c l :: ls
           | [] => [String c EmptyString]
           end
  end.

End Str.

(** ** Dictionaries *)

Definition dict (V : Type) : Type := list (string * V).

Fixpoint dict_get {V : Type} (k : string) (d : dict V) : option V :=
  match d with
  | [] => None
  | (k', v) :: d' => if k =? k' then Some v else dict_get k d'
  end.

(** [d[k] = v] *)
Fixpoint dict_set {V : Type} (k : string) (v : V) (d : dict V) : dict V :=
  match d with
  | [] => [(k, v)]
  | (k', v') :: d' =>
      if k =? k' then (k, v) :: d' else (k', v') :: dict_set k v d'
  end.

(** [del d[k]] on a key that is present; no change otherwise. *)
Fixpoint dict_del {V : Type} (k : string) (d : dict V) : dict V :=
  match d with
  | [] => []
  | (k', v') :: d' => if k =? k' then d' else (k', v') :: dict_del k d'
  end.

Definition dict_keys {V : Type} (d : dict V) : list string := map fst d.

(** [k in d] *)
Definition dict_mem {V : Type} (k : string) (d : dict V) : bool :=
  Str.mem k (dict_keys d).

(** [d[k]], raising [KeyError]. *)
Definition dict_lookup {V : Type} (k : string) (d : dict V) : result V :=
  match dict_get k d with
  | Some v => Ok v
  | None => Raise KeyError
  end.

Definition list_index {A : Type} (i : nat) (l : list A) : result A :=
  match nth_error l i with
  | Some a => Ok a
  | None => Raise IndexError
  end.

(** ** The tables of the installer *)

(** [VARIANTS]: every possible configuration, name to pretty name.  The
    terminal colour codes inside the pretty name of ['auto'] are left
    out. *)
Definition VARIANTS_color : dict string :=
  [("orange", "Orange"); ("bark", "Bark"); ("sage", "Sage");
   ("olive", "Olive"); ("viridian", "Viridian");
   ("prussiangreen", "Prussian Green"); ("lightblue", "Light Blue");
   ("blue", "Blue"); ("purple", "Purple"); ("magenta", "Magenta");
   ("pink", "Pink"); ("red", "Red")].

Definition VARIANTS_theme : dict string :=
  [("light", "Light"); ("dark", "Dark");
   ("auto", "Auto  (Only recommended for GNOME or Budgie)")].

Definition VARIANTS_enableable : dict (dict string) :=
  [("dg-adw-gtk3", [("gtk3", "GTK3"); ("gtk4-libadwaita", "Libadwaita")]);
   ("dg-libadwaita", [("gtk4", "GTK4")]);
   ("dg-yaru",
    [("gnome-shell", "GNOME Shell"); ("cinnamon-shell", "Cinnamon Shell");
     ("metacity", "Marco (Metacity)"); ("ubuntu-unity", "Unity");
     ("xfwm4", "Xfwm4"); ("icons", "Icon"); ("cursors", "Cursor");
     ("sounds", "Sound"); ("gtksourceview", "GtkSourceView")]);
   ("dg-firefox-theme", [("firefox", "Firefox"); ("settings_theme", "")]);
   ("dg-vscode-adwaita", [("vscode", "VS Code"); ("default_syntax", "")]);
   ("qualia-gtk-theme-snap", [("snap", "Snap")])].

(** [VARIANTS[key]] as the keys it holds, for [value in VARIANTS[key]]. *)
Definition VARIANTS (key : string) : option (list string) :=
  if key =? "color" then Some (dict_keys VARIANTS_color)
  else if key =? "theme" then Some (dict_keys VARIANTS_theme)
  else if key =? "enableable" then Some (dict_keys VARIANTS_enableable)
  else None.

(** A detected desktop version: an integer, or the float [tenths / 10]
    (Budgie's 10.6 is the only float in [VERSIONS]). *)
Inductive de_version : Type :=
| VerInt (n : Z)
| VerFloat (tenths : Z).

(** [VERSIONS]: the supported versions of every desktop. *)
Definition VERSIONS : dict (list de_version) :=
  [("gnome", [VerInt 42; VerInt 43]); ("cinnamon", [VerInt 4; VerInt 5]);
   ("unity", [VerInt 7]); ("xfce", [VerInt 4]); ("mate", [VerInt 1]);
   ("budgie", [VerFloat 106])].

(** [str(v)] for a desktop version or [None]. *)
Definition str_version (v : option de_version) : string :=
  match v with
  | None => "None"
  | Some (VerInt n) => Str.of_int n
  | Some (VerFloat t) => Str.of_int (t / 10) ++ "." ++ Str.of_int (t mod 10)
  end.

(** [recorded != v], where [recorded] is [None] or an [int]. *)
Definition version_differs (recorded : option Z) (v : option de_version)
  : bool :=
  match recorded, v with
  | None, None => false
  | Some a, Some (VerInt b) => negb (a =? b)%Z
  | Some a, Some (VerFloat t) => negb (10 * a =? t)%Z
  | _, _ => true
  end.

(** ** The configuration dictionary *)

(** A value read from the file: a string, or the list [value.split(' ')]
    when it holds a space. *)
Inductive pyval : Type :=
| VStr (s : string)
| VList (l : list string).

(** [config['enableable']] is the dictionary [get_enableable] builds,
    until a line [enableable: <group>] of the file replaces it by a
    string. *)
Inductive enableable_t : Type :=
| EDict (d : dict string)
| EStr (s : string).

(** The keys of [config].  A key that may be missing is an [option];
    [versions] holds every key that ends in [version]. *)
Record config : Type := mkConfig {
  desktop_versions : dict (option de_version);
  enableable : enableable_t;
  firefox : list string;
  vscode : list string;
  old : dict (dict pyval);
  old_vscode : list string;
  old_firefox : list string;
  versions : dict string;
  enabled : option (list string);
  color : option string;
  theme : option string;
  old_gnome : option (option Z);
  color_scheme : option string
}.


Definition set_enableable (x : enableable_t) (c : config) : config :=
  mkConfig (desktop_versions c) x (firefox c) (vscode c) (old c)
    (old_vscode c) (old_firefox c) (versions c) (enabled c) (color c)
    (theme c) (old_gnome c) (color_scheme c).

Definition set_old (x : dict (dict pyval)) (c : config) : config :=
  mkConfig (desktop_versions c) (enableable c) (firefox c) (vscode c) x
    (old_vscode c) (old_firefox c) (versions c) (enabled c) (color c)
    (theme c) (old_gnome c) (color_scheme c).

Definition set_old_vscode (x : list string) (c : config) : config :=
  mkConfig (desktop_versions c) (enableable c) (firefox c) (vscode c) (old c)
    x (old_firefox c) (versions c) (enabled c) (color c)
    (theme c) (old_gnome c) (color_scheme c).

Definition set_old_firefox (x : list string) (c : config) : config :=
  mkConfig (desktop_versions c) (enableable c) (firefox c) (vscode c) (old c)
    (old_vscode c) x (versions c) (enabled c) (color c)
    (theme c) (old_gnome c) (color_scheme c).

Definition set_versions (x : dict string) (c : config) : config :=
  mkConfig (desktop_versions c) (enableable c) (firefox c) (vscode c) (old c)
    (old_vscode c) (old_firefox c) x (enabled c) (color c)
    (theme c) (old_gnome c) (color_scheme c).

Definition set_enabled (x : option (list string)) (c : config) : config :=
  mkConfig (desktop_versions c) (enableable c) (firefox c) (vscode c) (old c)
    (old_vscode c) (old_firefox c) (versions c) x (color c)
    (theme c) (old_gnome c) (color_scheme c).

Definition set_color (x : option string) (c : config) : config :=
  mkConfig (desktop_versions c) (enableable c) (firefox c) (vscode c) (old c)
    (old_vscode c) (old_firefox c) (versions c) (enabled c) x
    (theme c) (old_gnome c) (color_scheme c).

Definition set_theme (x : option string) (c : config) : config :=
  mkConfig (desktop_versions c) (enableable c) (firefox c) (vscode c) (old c)
    (old_vscode c) (old_firefox c) (versions c) (enabled c) (color c)
    x (old_gnome c) (color_scheme c).

Definition set_old_gnome (x : option (option Z)) (c : config) : config :=
  mkConfig (desktop_versions c) (enableable c) (firefox c) (vscode c) (old c)
    (old_vscode c) (old_firefox c) (versions c) (enabled c) (color c)
    (theme c) x (color_scheme c).

Definition set_color_scheme (x : option string) (c : config) : config :=
  mkConfig (desktop_versions c) (enableable c) (firefox c) (vscode c) (old c)
    (old_vscode c) (old_firefox c) (versions c) (enabled c) (color c)
    (theme c) (old_gnome c) x.

(** What the installer finds on the host: the desktops detected by
    [get_desktops], the Firefox and VS Code variants whose directory
    exists, and the programs [shutil.which] finds. *)
Record host : Type := mkHost {
  h_desktops : dict (option de_version);
  h_firefox : list string;
  h_vscode : list string;
  h_snap : bool
}.

(** What the path [CONFIG_FILE] leads to. *)
Inductive node : Type :=
| Absent
| RegFile (text : string)
| Directory.

(** The path [CONFIG_FILE] itself: a [node] that is reached without a
    symbolic link, a special file (a FIFO, a socket, a device), or a
    symbolic link with what it points to.  [Link (Plain Absent)] is a
    dangling link; a loop of links behaves as one. *)
Inductive path : Type :=
| Plain (n : node)
| Special
| Link (target : path).

(** The global flags of the module. *)
Record flags : Type := mkFlags {
  no_update : bool;
  update_color : bool;
  update_theme : bool;
  update_settings : bool;
  update_syntax : bool;
  force : bool;
  configure_all : bool
}.

(** ** class Config *)

Module Config.

(** The part that [get_enableable] deletes when desktop [i] is absent. *)
Definition desktop_part (i : string) : option string :=
  if i =? "gnome" then Some "gnome-shell"
  else if i =? "cinnamon" then Some "cinnamon-shell"
  else if i =? "unity" then Some "ubuntu-unity"
  else if i =? "mate" then Some "metacity"
  else if i =? "xfce" then Some "xfwm4"
  else None.

Definition all_parts : dict string :=
  fold_left
    (fun acc group =>
       fold_left (fun acc' part => dict_set (fst part) (snd part) acc')
                 (snd group) acc)
    VARIANTS_enableable [].

(** [get_enableable]: the themes that can be enabled on this host. *)
Definition get_enableable (h : host) : dict string :=
  let e := all_parts in
  let e :=
    fold_left
      (fun acc d =>
         match snd d, desktop_part (fst d) with
         | None, Some part => dict_del part acc
         | _, _ => acc
         end)
      (h_desktops h) e in
  let e := if (List.length (h_firefox h) =? 0)%nat
           then dict_del "firefox" e else e in
  let e := if (List.length (h_vscode h) =? 0)%nat
           then dict_del "vscode" e else e in
  if h_snap h then e else dict_del "snap" e.

(** [Config()]: the dictionary before [read].  The keys that [read]
    assigns before it opens the file start out empty here. *)
Definition init (h : host) : config :=
  {| desktop_versions := h_desktops h;
     enableable := EDict (get_enableable h);
     firefox := h_firefox h;
     vscode := h_vscode h;
     old := [];
     old_vscode := [];
     old_firefox := [];
     versions := [];
     enabled := None;
     color := None;
     theme := None;
     old_gnome := None;
     color_scheme := None |}.

(** [value = line[1]], split on a space when it holds one. *)
Definition value_of (v : string) : pyval :=
  if Str.contains " " v then VList (Str.split " " v) else VStr v.

(** [len(value)] *)
Definition len (v : pyval) : nat :=
  match v with
  | VStr s => String.length s
  | VList l => List.length l
  end.

(** [x in config['enableable']]: a key of the dictionary, or a substring
    once a string has replaced it. *)
Definition in_enableable (x : string) (e : enableable_t) : bool :=
  match e with
  | EDict d => dict_mem x d
  | EStr s => Str.contains x s
  end.

(** [b in l] for a [bool] and a list of strings: a [bool] equals no
    string. *)
Definition bool_in (b : bool) (l : list string) : bool := false.

Definition firefox_name (t : string) : string :=
  if Str.startswith t "firefox" then "firefox" else t.

(** [config[prefix + key] = l] for [key] in [enabled], [firefox],
    [vscode]. *)
Definition set_listed (key : string) (l : list string) (c : config)
  : config :=
  if key =? "enabled" then set_enabled (Some l) c
  else if key =? "firefox" then set_old_firefox l c
  else set_old_vscode l c.

(** The loop over a list [value]: the test reads
    [(theme in enableable or key != 'enabled') not in config[prefix + key]]. *)
Definition listed_of_list (key : string) (e : enableable_t)
  (value : list string) : list string :=
  fold_left
    (fun acc t =>
       let t := firefox_name t in
       if negb (bool_in (in_enableable t e || negb (key =? "enabled")) acc)
       then (acc ++ [t])%list else acc)
    value [].

(** The branch for a string [value]: the test reads
    [(value in enableable or prefix + key != 'enabled') and
     value not in config[prefix + key]]. *)
Definition listed_of_str (key : string) (e : enableable_t) (value : string)
  : list string :=
  let v := firefox_name value in
  let acc : list string := [] in
  if (in_enableable v e || negb (key =? "enabled")) && negb (Str.mem v acc)
  then (acc ++ [v])%list else acc.

(** One iteration of the loop of [read] over the lines of the file.
    [Ok] is the dictionary after the line (also after a [continue]). *)
Definition read_line (configured : bool) (c : config) (line : string)
  : result config :=
  if negb (Str.contains ": " line) then Ok c
  else
    let fields := Str.split ": " (Str.strip line) in
    key <- list_index 0 fields ;;
    match nth_error fields 1 with
    | None => Ok c
    | Some v =>
        let value := value_of v in
        c <- (if (key =? "firefox") && (0 <? len value)%nat
              then match enabled c with
                   | Some l => Ok (set_enabled (Some (l ++ [key])%list) c)
                   | None => Raise KeyError
                   end
              else Ok c) ;;
        if negb configured && Str.mem key ["enabled"; "firefox"; "vscode"]
        then
          match value with
          | VList l =>
              Ok (set_listed key (listed_of_list key (enableable c) l) c)
          | VStr s =>
              Ok (set_listed key (listed_of_str key (enableable c) s) c)
          end
        else if Str.startswith key "old" then
          let parts := Str.split "_" key in
          theme <- list_index 1 parts ;;
          desktop <- list_index 2 parts ;;
          if dict_mem desktop VERSIONS
          then Ok (set_old (dict_set theme [(desktop, value)] (old c)) c)
          else Ok c
        else if key =? "gnome" then
          match value with
          | VStr s => Ok (set_old_gnome (Some (Str.to_int s)) c)
          | VList _ => Raise TypeError
          end
        else
          match value with
          | VStr s =>
              match (if negb configured then VARIANTS key else None) with
              | Some allowed =>
                  if Str.mem s allowed then
                    Ok (if key =? "color" then set_color (Some s) c
                        else if key =? "theme" then set_theme (Some s) c
                        else set_enableable (EStr s) c)
                  else if Str.endswith key "version"
                          && (String.length s =? 40)%nat
                  then Ok (set_versions (dict_set key s (versions c)) c)
                  else Ok c
              | None =>
                  if Str.endswith key "version"
                     && (String.length s =? 40)%nat
                  then Ok (set_versions (dict_set key s (versions c)) c)
                  else Ok c
              end
          | VList _ => Ok c
          end
    end.

Fixpoint read_lines (configured : bool) (c : config) (lines : list string)
  : result config :=
  match lines with
  | [] => Ok c
  | line :: rest =>
      c' <- read_line configured c line ;;
      read_lines configured c' rest
  end.

(** The assignments [read] makes before it opens the file. *)
Definition read_reset (c : config) : config :=
  let c := set_old [] c in
  let c := set_old_vscode [] c in
  let c := set_old_firefox [] c in
  fold_left
    (fun acc group =>
       if negb (fst group =? "qualia-gtk-theme-snap")
       then set_versions (dict_set (fst group ++ "_version") "" (versions acc))
                         acc
       else acc)
    VARIANTS_enableable c.

(** [read]: a missing file is [FileNotFoundError], which is caught. *)
Definition read (configured : bool) (file : node) (c : config)
  : result config :=
  let c := read_reset c in
  match file with
  | Absent => Ok c
  | RegFile text => read_lines configured c (Str.readlines text)
  | Directory => Raise IsADirectoryError
  end.

(** The text written so far, and the exception that stopped the
    writing, if any. *)
Definition output : Type := (string * option exn)%type.

Definition emit (s : string) (k : output) : output :=
  (s ++ fst k, snd k).

Definition need {A : Type} (r : result A) (k : A -> output) : output :=
  match r with
  | Ok a => k a
  | Raise e => (EmptyString, Some e)
  end.

Definition get {A : Type} (o : option A) : result A :=
  match o with
  | Some a => Ok a
  | None => Raise KeyError
  end.

(** The loop over [VARIANTS['enableable']]: a missing key is skipped. *)
Fixpoint write_versions (groups : list string) (c : config) (k : output)
  : output :=
  match groups with
  | [] => k
  | g :: rest =>
      let key := g ++ "_version" in
      match dict_get key (versions c) with
      | Some version =>
          emit (key ++ ": " ++ version ++ Str.nl) (write_versions rest c k)
      | None => write_versions rest c k
      end
  end.

(** The inner loop over [config['old'][theme]]. *)
Fixpoint write_desktops (theme : string) (des : dict pyval) (k : output)
  : output :=
  match des with
  | [] => k
  | (de, VStr s) :: rest =>
      if negb (s =? "") && negb (Str.startswith s "qualia")
      then emit ("old_" ++ theme ++ "_" ++ de ++ ": " ++ s ++ Str.nl)
                (write_desktops theme rest k)
      else write_desktops theme rest k
  | (de, VList _) :: rest => (EmptyString, Some AttributeError)
  end.

Fixpoint write_old (o : dict (dict pyval)) (k : output) : output :=
  match o with
  | [] => k
  | (theme, des) :: rest => write_desktops theme des (write_old rest k)
  end.

Definition header : string :=
  "This file is generated and used by the install script." ++ Str.nl.

(** What [write] writes to the file it has just created. *)
Definition write_text (c : config) : output :=
  emit header
  (need (get (color c)) (fun col =>
   emit ("color: " ++ col ++ Str.nl)
  (need (get (theme c)) (fun th =>
   emit ("theme: " ++ th ++ Str.nl)
  (need (get (enabled c)) (fun en =>
   emit ("enabled: " ++ Str.join " " en ++ Str.nl)
  (emit Str.nl
  (need (dict_lookup "gnome" (desktop_versions c)) (fun gnome =>
   emit ("gnome: " ++ str_version gnome ++ Str.nl)
  (emit ("firefox: " ++ Str.join " " (firefox c) ++ Str.nl)
  (emit ("vscode: " ++ Str.join " " (vscode c) ++ Str.nl)
  (emit Str.nl
  (write_versions (dict_keys VARIANTS_enableable) c
  (emit Str.nl
  (write_old (old c) (EmptyString, None)))))))))))))))).

(** What the path leads to once the symbolic links are followed. *)
Fixpoint resolve (p : path) : path :=
  match p with
  | Link target => resolve target
  | other => other
  end.

(** [os.path.isfile], [os.path.isdir]: both follow symbolic links. *)
Definition isfile (p : path) : bool :=
  match resolve p with
  | Plain (RegFile _) => true
  | _ => false
  end.

Definition isdir (p : path) : bool :=
  match resolve p with
  | Plain Directory => true
  | _ => false
  end.

(** [os.path.islink] *)
Definition islink (p : path) : bool :=
  match p with
  | Link _ => true
  | _ => false
  end.

(** [os.path.lexists]: something has the name, be it a dangling link. *)
Definition lexists (p : path) : bool :=
  match p with
  | Plain Absent => false
  | _ => true
  end.

(** [os.remove(path)] on a path for which [isfile] holds: the file, or
    the link that leads to it, is removed. *)
Definition remove (p : path) : result path := Ok (Plain Absent).

(** [shutil.rmtree(path)] on a path for which [isdir] holds: a symbolic
    link is refused with [OSError]. *)
Definition rmtree (p : path) : result path :=
  if islink p then Raise OSError else Ok (Plain Absent).

(** The path after the test on [isfile] and [isdir]. *)
Definition clear_path (p : path) : result path :=
  if isfile p then remove p
  else if isdir p then rmtree p
  else Ok p.

(** [write]: a file or a directory at the path is removed first; then
    the file is created with [open(CONFIG_FILE, 'x')], which raises
    [FileExistsError] when the path still exists, and written. *)
Definition write_at (c : config) (p : path) : path * option exn :=
  match clear_path p with
  | Raise e => (p, Some e)
  | Ok p' =>
      if lexists p' then (p', Some FileExistsError)
      else (Plain (RegFile (fst (write_text c))), snd (write_text c))
  end.

(** [write] on a path that is no symbolic link and no special file. *)
Definition write (c : config) (file : node) : node * option exn :=
  match write_at c (Plain file) with
  | (Plain n, e) => (n, e)
  | (_, e) => (file, e)
  end.

(** The reply of [gsettings get org.gnome.desktop.interface color-scheme]:
    [NoGsettings] is [FileNotFoundError]. *)
Inductive probe : Type :=
| NoGsettings
| Reply (s : string).

(** [theme_variants(pref)]: the returned boolean and the dictionary. *)
Definition theme_variants (p : probe) (pref : string) (c : config)
  : bool * config :=
  if pref =? "auto" then
    let theme_setting :=
      match p with NoGsettings => None | Reply s => Some s end in
    match theme_setting with
    | Some s =>
        if s =? "prefer-dark" then (true, set_color_scheme (Some s) c)
        else if s =? "default" then (true, set_color_scheme (Some s) c)
        else (false, c)
    | None => (false, c)
    end
  else if pref =? "light" then (true, set_color_scheme (Some "default") c)
  else if pref =? "dark" then (true, set_color_scheme (Some "prefer-dark") c)
  else (true, c).

End Config.

(** ** The component installers: when a group is rebuilt *)

Module Install.

(** [self.get_version() != self.config[key]] *)
Definition version_changed (live key : string) (c : config) : result bool :=
  recorded <- dict_lookup key (versions c) ;;
  Ok (negb (live =? recorded)).

(** [InstallDgAdwGtk3._install]: whether the build runs. *)
Definition dg_adw_gtk3 (f : flags) (live : string) (c : config)
  : result bool :=
  changed <- version_changed live "dg-adw-gtk3_version" c ;;
  Ok (changed || configure_all f || force f).

(** [InstallDgYaru._install]: the last operand of the [or] is only
    evaluated when the others are false. *)
Definition dg_yaru (f : flags) (live : string) (c : config) : result bool :=
  changed <- version_changed live "dg-yaru_version" c ;;
  if changed || configure_all f || force f then Ok true
  else
    recorded <- Config.get (old_gnome c) ;;
    gnome <- dict_lookup "gnome" (desktop_versions c) ;;
    Ok (version_differs recorded gnome).

(** [InstallDgLibadwaita._install] *)
Definition dg_libadwaita (f : flags) (live : string) (c : config)
  : result bool :=
  changed <- version_changed live "dg-libadwaita_version" c ;;
  Ok (changed || configure_all f || force f || update_color f
      || update_theme f).

(** [firefox_changed] and [vscode_changed]: a variant found on the host
    that the file did not list. *)
Definition variant_added (found listed : list string) : bool :=
  existsb (fun variant => negb (Str.mem variant listed)) found.

(** [InstallDgFirefoxTheme._install] *)
Definition dg_firefox_theme (f : flags) (live : string) (c : config)
  : result bool :=
  let firefox_changed := variant_added (firefox c) (old_firefox c) in
  changed <- version_changed live "dg-firefox-theme_version" c ;;
  Ok (changed || configure_all f || force f || update_color f
      || update_settings f || firefox_changed).

(** [InstallDgVscodeAdwaita._install] *)
Definition dg_vscode_adwaita (f : flags) (live : string) (c : config)
  : result bool :=
  let vscode_changed := variant_added (vscode c) (old_vscode c) in
  changed <- version_changed live "dg-vscode-adwaita_version" c ;;
  Ok (changed || configure_all f || force f || update_syntax f
      || vscode_changed).

(** The decision of the installer of a group of [VARIANTS['enableable']];
    the snap has no version to compare and is refreshed every time. *)
Definition rebuilds (group : string) (f : flags) (live : string) (c : config)
  : result bool :=
  if group =? "dg-adw-gtk3" then dg_adw_gtk3 f live c
  else if group =? "dg-yaru" then dg_yaru f live c
  else if group =? "dg-libadwaita" then dg_libadwaita f live c
  else if group =? "dg-firefox-theme" then dg_firefox_theme f live c
  else if group =? "dg-vscode-adwaita" then dg_vscode_adwaita f live c
  else Ok true.

(** The global [updated] after the installer of [group] has run:
    [self.updated()] follows the build in every installer but the one of
    Firefox and the one of the snap. *)
Definition updated_after (group : string) (rebuilt updated : bool) : bool :=
  if (group =? "dg-firefox-theme") || (group =? "qualia-gtk-theme-snap")
  then updated
  else updated || rebuilt.

End Install.

(** ** class Enable *)

(** A settings store: [gsettings get schema key], or
    [xfconf-query -c channel -p property]. *)
Definition store : Type := string -> string -> string.

Definition store_set (s : store) (a b v : string) : store :=
  fun a' b' => if (a =? a') && (b =? b') then v else s a' b'.

(** The commands the engine runs. *)
Inductive event : Type :=
| GsettingsGet (schema key : string)
| GsettingsSet (schema key value : string)
| XfconfGet (channel prop : string)
| XfconfSet (channel prop value : string)
| ExtensionEnable.

(** The programs [shutil.which] looks for.  [gnome_extensions] is [None]
    when the program is missing, [Some None] when [gnome-extensions list]
    fails, and its output otherwise. *)
Record tools : Type := mkTools {
  gsettings : bool;
  xfconf_query : bool;
  gnome_extensions : option (option string)
}.

(** What [enable_theme] reads and changes: the dictionary, the two
    stores, the commands run so far, and the global [updated]. *)
Record world : Type := mkWorld {
  w_config : config;
  w_gsettings : store;
  w_xfconf : store;
  w_trace : list event;
  w_updated : bool
}.

Definition with_config (c : config) (w : world) : world :=
  mkWorld c (w_gsettings w) (w_xfconf w) (w_trace w) (w_updated w).

Definition log (e : event) (w : world) : world :=
  mkWorld (w_config w) (w_gsettings w) (w_xfconf w)
          (w_trace w ++ [e])%list (w_updated w).

Definition gsettings_set (schema key v : string) (w : world) : world :=
  log (GsettingsSet schema key v)
      (mkWorld (w_config w) (store_set (w_gsettings w) schema key v)
               (w_xfconf w) (w_trace w) (w_updated w)).

Definition xfconf_set (channel prop v : string) (w : world) : world :=
  log (XfconfSet channel prop v)
      (mkWorld (w_config w) (w_gsettings w)
               (store_set (w_xfconf w) channel prop v)
               (w_trace w) (w_updated w)).

Module Enable.

(** One value of the dictionary [data]. *)
Record entry : Type := mkEntry {
  schemas : dict string;
  key : option string;
  property : option string;
  theme_name : option string;
  channel : option string
}.

(** [self.names] after [__init__]: the inner loop of [__init__] runs over
    the characters of every group name, then the keyword arguments are
    stored. *)
Definition names_of (kwargs : dict (option string)) : dict (option string) :=
  let chars :=
    fold_left
      (fun acc group =>
         fold_left (fun acc' ch => dict_set (String ch "") None acc')
                   (list_ascii_of_string (fst group)) acc)
      VARIANTS_enableable [] in
  fold_left (fun acc kw => dict_set (fst kw) (snd kw) acc) kwargs chars.

Definition interface_schemas : dict string :=
  [("gnome", "org.gnome.desktop.interface");
   ("cinnamon", "org.cinnamon.desktop.interface");
   ("unity", "org.gnome.desktop.interface");
   ("mate", "org.mate.interface");
   ("budgie", "org.gnome.desktop.interface")].

Definition cursor_scemas : dict string :=
  dict_set "mate" "org.mate.peripherals-mouse" interface_schemas.

Definition sound_schemas : dict string :=
  [("gnome", "org.gnome.desktop.sound");
   ("cinnamon", "org.cinnamon.desktop.sound");
   ("unity", "org.gnome.desktop.sound");
   ("mate", "org.mate.sound");
   ("budgie", "org.gnome.desktop.sound")].

(** The entries of [_data], each without its theme name. *)
Definition table : list (string * (option string -> entry)) :=
  [("gtk3", fun n => mkEntry interface_schemas (Some "gtk-theme")
                       (Some "/Net/ThemeName") n (Some "xsettings"));
   ("icons", fun n => mkEntry interface_schemas (Some "icon-theme")
                        (Some "/Net/IconThemeName") n (Some "xsettings"));
   ("cursors", fun n => mkEntry cursor_scemas (Some "cursor-theme")
                          (Some "/Gtk/CursorThemeName") n (Some "xsettings"));
   ("sounds", fun n => mkEntry sound_schemas (Some "theme-name")
                         (Some "/Net/SoundThemeName") n (Some "xsettings"));
   ("gnome-shell",
    fun n => mkEntry [("gnome", "org.gnome.shell.extensions.user-theme")]
               (Some "name") None n None);
   ("cinnamon-shell",
    fun n => mkEntry [("cinnamon", "org.cinnamon.theme")]
               (Some "name") None n None);
   ("metacity",
    fun n => mkEntry [("mate", "org.mate.Marco.general")]
               (Some "theme") None n None);
   ("xfwm4", fun n => mkEntry [] None (Some "/general/theme") n
                        (Some "xfwm4"))].

(** [_data]: an entry whose name is missing from [self.names] raises
    [KeyError] while it is built and is left out. *)
Definition _data (names : dict (option string)) : dict entry :=
  flat_map
    (fun row =>
       match dict_get (fst row) names with
       | Some n => [(fst row, snd row n)]
       | None => []
       end)
    table.

(** The snapshot of the live value [live] for [(theme, de)]. *)
Definition capture (theme de live : string) (o : dict (dict pyval))
  : result (dict (dict pyval)) :=
  match dict_get theme o with
  | None => Ok (dict_set theme [(de, VStr live)] o)
  | Some des =>
      match dict_get de des with
      | Some (VStr s) =>
          if Str.startswith s "qualia"
          then Ok (dict_set theme (dict_set de (VStr live) des) o)
          else Ok o
      | Some (VList _) => Raise AttributeError
      | None => Ok o
      end
  end.

(** [config["enableable"][theme]], for the message printed before a
    change. *)
Definition pretty (theme : string) (c : config) : result string :=
  match enableable c with
  | EDict d => dict_lookup theme d
  | EStr _ => Raise TypeError
  end.

(** An argument of a command must be a string. *)
Definition arg (o : option string) : result string :=
  match o with
  | Some s => Ok s
  | None => Raise TypeError
  end.

(** [old != name] for the output [old] of a command. *)
Definition differs (old : string) (name : option string) : bool :=
  match name with
  | Some n => negb (old =? n)
  | None => true
  end.

(** The body of the loop over the schemas once the desktop is known to
    be installed: read, snapshot, and change when the value differs. *)
Definition gsettings_apply (theme de schema : string) (key name : option string)
  (w : world) : result world :=
  k <- arg key ;;
  let w := log (GsettingsGet schema k) w in
  let live := w_gsettings w schema k in
  o <- capture theme de live (old (w_config w)) ;;
  let w := with_config (set_old o (w_config w)) w in
  if differs live name then
    _ <- pretty theme (w_config w) ;;
    n <- arg name ;;
    Ok (gsettings_set schema k n w)
  else Ok w.

(** The loop over [value['schemas'].items()]; without [gsettings] the
    loop is left at the first desktop that is not filtered out. *)
Fixpoint schemas_loop (t : tools) (desktop : string) (uninstalling : bool)
  (data : dict entry) (theme : string) (value : entry)
  (items : dict string) (w : world) : result world :=
  match items with
  | [] => Ok w
  | (de, schema) :: rest =>
      if negb (desktop =? "all") && negb (desktop =? de)
      then schemas_loop t desktop uninstalling data theme value rest w
      else
        name <- (if (theme =? "icons") && (de =? "unity")
                    && negb uninstalling
                 then gtk3 <- dict_lookup "gtk3" data ;; Ok (theme_name gtk3)
                 else Ok (theme_name value)) ;;
        if gsettings t then
          version <- dict_lookup de (desktop_versions (w_config w)) ;;
          w' <- match version with
                | Some _ => gsettings_apply theme de schema (key value) name w
                | None => Ok w
                end ;;
          schemas_loop t desktop uninstalling data theme value rest w'
        else Ok w
  end.

(** Under [xfconf-query], once Xfce is known to be installed: read,
    snapshot, and change when the value differs. *)
Definition xfconf_pair (theme : string) (channel : option string)
  (prop : string) (name : option string) (w : world) : result world :=
  ch <- arg channel ;;
  let w := log (XfconfGet ch prop) w in
  let live := w_xfconf w ch prop in
  o <- capture theme "xfce" live (old (w_config w)) ;;
  let w := with_config (set_old o (w_config w)) w in
  if differs live name then
    _ <- pretty theme (w_config w) ;;
    n <- arg name ;;
    Ok (xfconf_set ch prop n w)
  else Ok w.

(** The part of the body that goes through [xfconf-query]. *)
Definition xfconf_apply (t : tools) (theme : string) (value : entry)
  (w : world) : result world :=
  let prop := property value in
  if xfconf_query t then
    let name := theme_name value in
    match prop with
    | None => Ok w
    | Some p =>
        xfce <- dict_lookup "xfce" (desktop_versions (w_config w)) ;;
        match xfce with
        | None => Ok w
        | Some _ => xfconf_pair theme (channel value) p name w
        end
    end
  else
    match prop with
    | None => Ok w
    | Some _ =>
        _ <- dict_lookup "xfce" (desktop_versions (w_config w)) ;;
        Ok w
    end.

Definition user_theme : string :=
  "user-theme@gnome-shell-extensions.gcampax.github.com".

(** The check made for [gnome-shell]: [None] is a [continue]. *)
Definition shell_extension (t : tools) (w : world) : option world :=
  match gnome_extensions t with
  | Some (Some listed) =>
      if Str.contains user_theme listed then Some (log ExtensionEnable w)
      else None
  | Some None => None
  | None => None
  end.

(** The body of the loop of [enable_theme] over [data.items()]. *)
Definition enable_one (t : tools) (desktop : string) (uninstalling : bool)
  (data : dict entry) (theme : string) (value : entry) (w : world)
  : result world :=
  en <- Config.get (enabled (w_config w)) ;;
  if Str.mem theme en || uninstalling then
    match theme_name value with
    | None => Ok w
    | Some _ =>
        match (if theme =? "gnome-shell" then shell_extension t w
               else Some w) with
        | None => Ok w
        | Some w =>
            w <- schemas_loop t desktop uninstalling data theme value
                   (schemas value) w ;;
            xfconf_apply t theme value w
        end
    end
  else Ok w.

Fixpoint enable_items (t : tools) (desktop : string) (uninstalling : bool)
  (data : dict entry) (items : dict entry) (w : world) : result world :=
  match items with
  | [] => Ok w
  | (theme, value) :: rest =>
      w' <- enable_one t desktop uninstalling data theme value w ;;
      enable_items t desktop uninstalling data rest w'
  end.

(** [Enable(config, verbose, **kwargs).enable_theme(desktop, uninstalling)] *)
Definition enable_theme (t : tools) (kwargs : dict (option string))
  (desktop : string) (uninstalling : bool) (w : world) : result world :=
  let data := _data (names_of kwargs) in
  enable_items t desktop uninstalling data data w.

End Enable.

(** ** main *)

Module Main.

(** [x is None] for the boolean that [theme_variants] returns. *)
Definition is_None (b : bool) : bool := false.

(** The test "Reconfigure if config file has issues": whether
    [conf.configure()] is called with [configure_all] set, and the
    dictionary after the call of [theme_variants].  A [KeyError] raised by
    a missing key is caught and leads to the same call; the [isinstance]
    tests hold by the types of the fields. *)
Definition reconfigures (p : Config.probe) (c : config) : bool * config :=
  match theme c with
  | None => (true, c)
  | Some th =>
      let (color_scheme, c') := Config.theme_variants p th c in
      match color c' with
      | None => (true, c')
      | Some _ =>
          match enabled c' with
          | None => (true, c')
          | Some en =>
              (is_None color_scheme
               || (List.length en =? 0)%nat, c')
          end
      end
  end.

(** [config['suffix']] *)
Definition suffix (c : config) : result string :=
  cs <- Config.get (color_scheme c) ;;
  Ok (if cs =? "prefer-dark" then "-dark" else "").

(** The keyword arguments [main] passes to [Enable]. *)
Definition kwargs (color suffix : string) : dict (option string) :=
  let theme_name :=
    if color =? "orange" then "qualia" ++ suffix
    else "qualia-" ++ color ++ suffix in
  let icon_name :=
    if color =? "orange" then "qualia-dark"
    else "qualia-" ++ color ++ "-dark" in
  let cursor_name := "qualia" in
  let xfwm4_name := "qualia" ++ suffix in
  [("gtk3", Some theme_name); ("icons", Some icon_name);
   ("cursors", Some cursor_name); ("sounds", Some cursor_name);
   ("gnome-shell", Some theme_name); ("cinnamon-shell", Some theme_name);
   ("metacity", Some xfwm4_name); ("xfwm4", Some xfwm4_name)].

(** The notice printed at the end of [main]. *)
Definition notice (updated : bool) : list string :=
  if updated
  then ["Log out and log back in for everything to be updated."]
  else [].

(** [enable.enable_theme()] followed by [conf.write(config)]: the
    engine with the arguments of [main], then the text of the file. *)
Definition enable_and_write (t : tools) (color suffix : string) (w : world)
  : result (world * Config.output) :=
  w' <- Enable.enable_theme t (kwargs color suffix) "all" false w ;;
  Ok (w', Config.write_text (w_config w')).

End Main.

(** ** The prompts of [Config]: [config_menu], [config_yn], [configure]

    What the user types is a list of lines; [input()] takes the first one
    and raises [EOFError] when none is left. *)

Inductive halt : Type :=
| Exn (e : exn)
| EOFError
| SystemExit
| UnboundLocalError.

Inductive outcome (A : Type) : Type :=
| Done (a : A)
| Halt (h : halt).

Arguments Done {A} a.
Arguments Halt {A} h.

(** The build tools [shutil.which] looks for in [config_yn]. *)
Record build_tools : Type := mkBuildTools {
  meson : bool;
  ninja : bool
}.

Module Prompt.

(** [c.casefold()] for a code point below 256, as far as the result can
    be an ASCII letter: the upper-case ASCII letters are lowered. *)
Definition casefold_char (c : ascii) : ascii :=
  let n := nat_of_ascii c in
  if ((65 <=? n) && (n <=? 90))%nat then ascii_of_nat (n + 32) else c.

Fixpoint casefold (s : string) : string :=
  match s with
  | EmptyString => EmptyString
  | String c s' => String (casefold_char c) (casefold s')
  end.

(** The choice an answer [val] makes in [config_menu], given the choice
    [ret] left by the answers before: [None] is the [continue] of the
    [except] branch; a number out of range assigns nothing. *)
Definition menu_choice (array : list string) (ret : option string)
  (val : string) : option (option string) :=
  match Str.to_int val with
  | Some n =>
      if ((1 <=? n) && (n <=? Z.of_nat (List.length array)))%Z
      then Some (nth_error array (Z.to_nat (n - 1)))
      else Some ret
  | None =>
      if val =? "" then Some (nth_error array 0) else None
  end.

(** [config_menu(message, options)] with the default [1]: the chosen
    name, the dictionary (which [theme_variants] may change) and the
    lines left. *)
Fixpoint config_menu (p : Config.probe) (array : list string)
  (ret : option string) (c : config) (inputs : list string)
  : outcome (string * config * list string) :=
  match inputs with
  | [] => Halt EOFError
  | val :: rest =>
      match menu_choice array ret val with
      | None => config_menu p array ret c rest
      | Some None => Halt UnboundLocalError
      | Some (Some r) =>
          let (ok, c') := Config.theme_variants p r c in
          if ok then Done (r, c', rest)
          else config_menu p array (Some r) c' rest
      end
  end.

(** [name in VARIANTS['enableable'][group]] *)
Definition in_group (name group : string) : bool :=
  match dict_get group VARIANTS_enableable with
  | Some parts => dict_mem name parts
  | None => false
  end.

(** [config_yn(name, pretty, default)]: the answer and the lines left. *)
Fixpoint config_yn (b : build_tools) (name default : string)
  (inputs : list string) : outcome (bool * list string) :=
  match inputs with
  | [] => Halt EOFError
  | val :: rest =>
      if (casefold val =? casefold "y") || ((default =? "y") && (val =? ""))
      then
        if in_group name "dg-yaru" || in_group name "dg-adw-gtk3" then
          if negb (meson b) then config_yn b name default rest
          else if negb (ninja b) then config_yn b name default rest
          else Done (true, rest)
        else Done (true, rest)
      else if (casefold val =? casefold "n")
              || ((default =? "n") && (val =? ""))
      then Done (false, rest)
      else config_yn b name default rest
  end.

(** [l.remove(x)] for an [x] that is in [l]. *)
Fixpoint remove_first (x : string) (l : list string) : list string :=
  match l with
  | [] => []
  | y :: l' => if x =? y then l' else y :: remove_first x l'
  end.

(** The branch of [configure] for [settings_theme] and [default_syntax]:
    the question is asked when [parent] is enabled; without it the script
    exits if the question was asked for on the command line. *)
Definition ask_option (b : build_tools) (key parent default : string)
  (asked_for : bool) (en : list string) (inputs : list string)
  : outcome (list string * list string) :=
  if Str.mem parent en then
    match config_yn b key default inputs with
    | Done (true, rest) =>
        Done (if negb (Str.mem key en) then (en ++ [key])%list else en, rest)
    | Done (false, rest) =>
        Done (if Str.mem key en then remove_first key en else en, rest)
    | Halt h => Halt h
    end
  else if asked_for then Halt SystemExit
  else Done (en, inputs).

(** The body of the loop of [configure] over
    [config['enableable'].items()]. *)
Definition configure_one (b : build_tools) (f : flags) (key : string)
  (en : option (list string)) (inputs : list string)
  : outcome (option (list string) * list string) :=
  if (key =? "settings_theme") && (update_settings f || configure_all f) then
    match en with
    | None => Halt (Exn KeyError)
    | Some l =>
        match ask_option b key "firefox" "y" (update_settings f) l inputs with
        | Done (l', rest) => Done (Some l', rest)
        | Halt h => Halt h
        end
    end
  else if (key =? "default_syntax") && (update_syntax f || configure_all f)
  then
    match en with
    | None => Halt (Exn KeyError)
    | Some l =>
        match ask_option b key "vscode" "n" (update_syntax f) l inputs with
        | Done (l', rest) => Done (Some l', rest)
        | Halt h => Halt h
        end
    end
  else if configure_all f then
    match config_yn b key "y" inputs with
    | Done (true, rest) =>
        match en with
        | Some l => Done (Some (l ++ [key])%list, rest)
        | None => Halt (Exn KeyError)
        end
    | Done (false, rest) => Done (en, rest)
    | Halt h => Halt h
    end
  else Done (en, inputs).

Fixpoint configure_loop (b : build_tools) (f : flags) (keys : list string)
  (en : option (list string)) (inputs : list string)
  : outcome (option (list string) * list string) :=
  match keys with
  | [] => Done (en, inputs)
  | key :: rest_keys =>
      match configure_one b f key en inputs with
      | Done (en', rest) => configure_loop b f rest_keys en' rest
      | Halt h => Halt h
      end
  end.

(** [configure()]: the dictionary and the lines left.  Afterwards the
    global [configured] is set. *)
Definition configure (p : Config.probe) (b : build_tools) (f : flags)
  (c : config) (inputs : list string) : outcome (config * list string) :=
  match (if configure_all f || update_color f
         then match config_menu p (dict_keys VARIANTS_color) None c inputs with
              | Done (col, c', rest) => Done (set_color (Some col) c', rest)
              | Halt h => Halt h
              end
         else Done (c, inputs)) with
  | Halt h => Halt h
  | Done (c, inputs) =>
      match (if configure_all f || update_theme f
             then match config_menu p (dict_keys VARIANTS_theme) None c
                                    inputs with
                  | Done (th, c', rest) => Done (set_theme (Some th) c', rest)
                  | Halt h => Halt h
                  end
             else Done (c, inputs)) with
      | Halt h => Halt h
      | Done (c, inputs) =>
          let c := if configure_all f then set_enabled (Some []) c else c in
          match enableable c with
          | EStr _ => Halt (Exn AttributeError)
          | EDict d =>
              match configure_loop b f (dict_keys d) (enabled c) inputs with
              | Done (en, rest) => Done (set_enabled en c, rest)
              | Halt h => Halt h
              end
          end
      end
  end.

End Prompt.

(** ** [Config.get_desktops]

    The version [check_de_version] finds for each desktop is taken as
    given ([None] when the desktop is absent or its version is not
    supported); Xfce is found through [xfce4-session]. *)

Record probes : Type := mkProbes {
  gnome_shell : option de_version;
  cinnamon : option de_version;
  unity : option de_version;
  mate_session : option de_version;
  budgie_desktop : option de_version;
  xfce4_session : bool
}.

Definition get_desktops (p : probes) : dict (option de_version) :=
  let d := dict_set "gnome" (gnome_shell p) [] in
  let d := dict_set "cinnamon" (cinnamon p) d in
  let d := dict_set "unity" (unity p) d in
  let d := dict_set "mate" (mate_session p) d in
  let d := dict_set "budgie" (budgie_desktop p) d in
  dict_set "xfce"
    (if xfce4_session p then nth_error [VerInt 4] 0 else None) d.

(** [l.append(x)] *)
Definition push {A : Type} (l : list A) (x : A) : list A := (l ++ [x])%list.

(** ** The build options of the installers *)

Module Options.

(** The loop of [main] that sorts the parts of [dg-yaru] into the
    enabled and the disabled ones. *)
Definition yaru_parts (en : list string) : list string * list string :=
  fold_left
    (fun acc part =>
       if Str.mem (fst part) en
       then (push (fst acc) (fst part), snd acc)
       else (fst acc, push (snd acc) (fst part)))
    (match dict_get "dg-yaru" VARIANTS_enableable with
     | Some parts => parts
     | None => []
     end)
    ([], []).

(** The options [InstallDgYaru._install] passes to meson. *)
Definition dg_yaru (parts : list string) (dv : dict (option de_version))
  : result (list string) :=
  let options := map (fun p => "-D" ++ p ++ "=true") parts in
  let options :=
    fold_left
      (fun acc part =>
         if negb (Str.mem (fst part) parts)
         then push acc ("-D" ++ fst part ++ "=false") else acc)
      (match dict_get "dg-yaru" VARIANTS_enableable with
       | Some ps => ps
       | None => []
       end)
      options in
  let options :=
    if dict_mem "unity" dv || dict_mem "mate" dv
    then push options "-Dpanel-icons=true"
    else push options "-Dpanel-icons=false" in
  gnome_version <- dict_lookup "gnome" dv ;;
  Ok (match gnome_version with
      | Some _ =>
          push options ("-Dgnome-shell-version=" ++ str_version gnome_version)
      | None => options
      end).

(** The options [InstallDgAdwGtk3._install] passes to meson, after the
    prefix. *)
Definition dg_adw_gtk3 (en : list string) : list string :=
  if Str.mem "gtk4-libadwaita" en && Str.mem "gtk3" en
  then ["-Dgtk4=true"; "-Dgtk3=true"]
  else if Str.mem "gtk3" en then ["-Dgtk4=false"; "-Dgtk3=true"]
  else ["-Dgtk4=true"; "-Dgtk3=false"].

(** The test of [main] before [InstallDgAdwGtk3] is run. *)
Definition installs_dg_adw_gtk3 (en : list string) : bool :=
  Str.mem "gtk3" en || Str.mem "gtk4-libadwaita" en.

End Options.

(** ** [check_path] of [main] *)

(** An element of [paths[name]]: a path or a list of paths. *)
Inductive path_item : Type :=
| One (path : string)
| Many (paths : list string).

Module Paths.

(** [x in paths['cursors']] for a string [x]: a list never equals it. *)
Definition listed (x : string) (items : list path_item) : bool :=
  existsb (fun i => match i with One p => x =? p | Many _ => false end) items.

(** One assignment to [exists], or none for an icon path that is also a
    cursor path. *)
Definition visit (fs : string -> bool) (name : string)
  (cursors : list path_item) (exist : bool) (path : string) : bool :=
  if (name =? "icons") && listed path cursors then exist else fs path.

(** [check_path(name, paths)]: the value returned; [fs] is
    [os.path.exists]. *)
Definition check_path (fs : string -> bool) (name : string)
  (paths : dict (list path_item)) : result bool :=
  items <- dict_lookup name paths ;;
  fold_left
    (fun acc i =>
       exist <- acc ;;
       match i with
       | Many l =>
           fold_left
             (fun acc' path =>
                exist' <- acc' ;;
                if name =? "icons"
                then cursors <- dict_lookup "cursors" paths ;;
                     Ok (visit fs name cursors exist' path)
                else Ok (fs path))
             l (Ok exist)
       | One path =>
           if name =? "icons"
           then cursors <- dict_lookup "cursors" paths ;;
                Ok (visit fs name cursors exist path)
           else Ok (fs path)
       end)
    items (Ok false).

End Paths.

(** ** Hosts and records used in the examples *)

Module Sample.

Definition token : string := "0123456789abcdef0123456789abcdef01234567".

(** GNOME 43 alone, no Firefox profile. *)
Definition gnome_host : host :=
  mkHost [("gnome", Some (VerInt 43)); ("cinnamon", None); ("unity", None);
          ("mate", None); ("budgie", None); ("xfce", None)]
         [] ["code"] false.

(** GNOME 43 with a Firefox profile. *)
Definition firefox_host : host :=
  mkHost [("gnome", Some (VerInt 43)); ("cinnamon", None); ("unity", None);
          ("mate", None); ("budgie", None); ("xfce", None)]
         ["standard"] [] false.

(** GNOME 43 and Xfce. *)
Definition gnome_xfce_host : host :=
  mkHost [("gnome", Some (VerInt 43)); ("cinnamon", None); ("unity", None);
          ("mate", None); ("budgie", None); ("xfce", Some (VerInt 4))]
         [] [] false.

(** GNOME 43 and Unity 7. *)
Definition gnome_unity_host : host :=
  mkHost [("gnome", Some (VerInt 43)); ("cinnamon", None);
          ("unity", Some (VerInt 7)); ("mate", None); ("budgie", None);
          ("xfce", None)]
         [] [] false.

(** The dictionary of a run on host [h] once it is configured. *)
Definition configured (h : host) (col th : string) (en : list string)
  : config :=
  set_enabled (Some en)
    (set_theme (Some th)
       (set_color (Some col) (Config.read_reset (Config.init h)))).

Definition blue_dark : config :=
  set_versions
    (dict_set "dg-yaru_version" token
       (versions (configured gnome_host "blue" "dark" ["gtk3"; "icons"])))
    (set_old [("gtk3", [("gnome", VStr "Adwaita")]);
              ("icons", [("gnome", VStr "Yaru")])]
       (configured gnome_host "blue" "dark" ["gtk3"; "icons"])).

Definition no_flags : flags := mkFlags false false false false false false false.

Definition adwaita : store := fun _ _ => "Adwaita".

Definition all_tools : tools := mkTools true true None.

Definition fresh (c : config) : world := mkWorld c adwaita adwaita [] false.

End Sample.

(** ** The sections of the file in closed form *)

(** The lines [<group>_version: <token>], in the order of
    [VARIANTS['enableable']]. *)
Definition version_lines (c : config) : string :=
  String.concat ""
    (flat_map
       (fun g =>
          match dict_get (g ++ "_version") (versions c) with
          | Some v => [g ++ "_version: " ++ v ++ Str.nl]
          | None => []
          end)
       (dict_keys VARIANTS_enableable)).

(** A snapshot that [write] keeps: not empty and not a name of the
    theme itself. *)
Definition genuine (s : string) : bool :=
  negb (s =? "") && negb (Str.startswith s "qualia").

Definition snapshot_line (theme de s : string) : string :=
  "old_" ++ theme ++ "_" ++ de ++ ": " ++ s ++ Str.nl.

Definition snapshot_lines (o : dict (dict pyval)) : string :=
  String.concat ""
    (flat_map
       (fun td =>
          flat_map
            (fun dv =>
               match snd dv with
               | VStr s =>
                   if genuine s then [snapshot_line (fst td) (fst dv) s]
                   else []
               | VList _ => []
               end)
            (snd td))
       o).

(** Every snapshot is a string. *)
Definition all_strings (o : dict (dict pyval)) : bool :=
  forallb
    (fun td =>
       forallb (fun dv => match snd dv with VStr _ => true | VList _ => false end)
               (snd td))
    o.

(** The snapshot recorded for [(theme, de)]. *)
Definition snapshot (theme de : string) (o : dict (dict pyval))
  : option pyval :=
  match dict_get theme o with
  | Some des => dict_get de des
  | None => None
  end.


(** The text of the file in closed form, section after section. *)
Definition file_text (c : config) (col th : string) (en : list string)
  (gnome : option de_version) : string :=
  Config.header
  ++ "color: " ++ col ++ Str.nl
  ++ "theme: " ++ th ++ Str.nl
  ++ "enabled: " ++ Str.join " " en ++ Str.nl
  ++ Str.nl
  ++ "gnome: " ++ str_version gnome ++ Str.nl
  ++ "firefox: " ++ Str.join " " (firefox c) ++ Str.nl
  ++ "vscode: " ++ Str.join " " (vscode c) ++ Str.nl
  ++ Str.nl
  ++ version_lines c
  ++ Str.nl
  ++ snapshot_lines (old c).

(** [write] on a directory as the specification words it: the write
    reports a failure and the directory stays. *)
Definition directory_is_refused (c : config) : Prop :=
  fst (Config.write c Directory) = Directory /\
  snd (Config.write c Directory) <> None.

(** ** The enablement engine as a list of actions

    Which pairs [enable_theme] visits depends on the tools, the desktop
    argument, the enabled list and the detected desktops, none of which
    the engine changes.  [Plan.of_theme] lists the visits in order;
    [Plan.run] carries them out with the functions of [Enable]
    ([Enable.gsettings_apply], [Enable.xfconf_pair]).  A [Fail] is a
    point where the engine raises. *)

Module Plan.

Inductive action : Type :=
| Fail (e : exn)
| Extension
| Gs (theme de schema : string) (key name : option string)
| Xf (theme : string) (channel : option string) (prop : string)
     (name : option string).

Definition run_action (a : action) (w : world) : result world :=
  match a with
  | Fail e => Raise e
  | Extension => Ok (log ExtensionEnable w)
  | Gs theme de schema key name =>
      Enable.gsettings_apply theme de schema key name w
  | Xf theme channel prop name => Enable.xfconf_pair theme channel prop name w
  end.

Fixpoint run (l : list action) (w : world) : result world :=
  match l with
  | [] => Ok w
  | a :: rest => w' <- run_action a w ;; run rest w'
  end.

Section Static.

Variables (t : tools) (desktop : string) (uninstalling : bool)
          (data : dict Enable.entry)
          (dv : dict (option de_version)) (en : option (list string)).

(** The name wanted for [(theme, de)]: under Unity the icons take the
    name of the GTK theme. *)
Definition name_for (theme de : string) (value : Enable.entry)
  : result (option string) :=
  if (theme =? "icons") && (de =? "unity") && negb uninstalling
  then gtk3 <- dict_lookup "gtk3" data ;; Ok (Enable.theme_name gtk3)
  else Ok (Enable.theme_name value).

Fixpoint of_schemas (theme : string) (value : Enable.entry)
  (items : dict string) : list action :=
  match items with
  | [] => []
  | (de, schema) :: rest =>
      if negb (desktop =? "all") && negb (desktop =? de)
      then of_schemas theme value rest
      else
        match name_for theme de value with
        | Raise e => [Fail e]
        | Ok name =>
            if gsettings t then
              match dict_lookup de dv with
              | Raise e => [Fail e]
              | Ok (Some _) =>
                  Gs theme de schema (Enable.key value) name
                  :: of_schemas theme value rest
              | Ok None => of_schemas theme value rest
              end
            else []
        end
  end.

Definition of_xfconf (theme : string) (value : Enable.entry) : list action :=
  match Enable.property value with
  | None => []
  | Some p =>
      match dict_lookup "xfce" dv with
      | Raise e => [Fail e]
      | Ok (Some _) =>
          if xfconf_query t
          then [Xf theme (Enable.channel value) p (Enable.theme_name value)]
          else []
      | Ok None => []
      end
  end.

Definition of_one (theme : string) (value : Enable.entry) : list action :=
  match en with
  | None => [Fail KeyError]
  | Some enabled =>
      if Str.mem theme enabled || uninstalling then
        match Enable.theme_name value with
        | None => []
        | Some _ =>
            let body :=
              (of_schemas theme value (Enable.schemas value)
               ++ of_xfconf theme value)%list in
            if theme =? "gnome-shell" then
              match gnome_extensions t with
              | Some (Some listed) =>
                  if Str.contains Enable.user_theme listed
                  then Extension :: body else []
              | _ => []
              end
            else body
        end
      else []
  end.

Definition of_items (items : dict Enable.entry) : list action :=
  flat_map (fun item => of_one (fst item) (snd item)) items.

End Static.

Definition of_theme (t : tools) (kwargs : dict (option string))
  (desktop : string) (uninstalling : bool) (c : config) : list action :=
  let data := Enable._data (Enable.names_of kwargs) in
  of_items t desktop uninstalling data (desktop_versions c) (enabled c) data.

(** One action carried out, case by case. *)
Inductive step : action -> world -> world -> Prop :=
| step_extension w :
    step Extension w (log ExtensionEnable w)
| step_gs_same theme de schema k w o :
    Enable.capture theme de (w_gsettings w schema k) (old (w_config w))
    = Ok o ->
    step (Gs theme de schema (Some k) (Some (w_gsettings w schema k))) w
         (mkWorld (set_old o (w_config w)) (w_gsettings w) (w_xfconf w)
                  (w_trace w ++ [GsettingsGet schema k]) (w_updated w))
| step_gs_change theme de schema k n w o d :
    Enable.capture theme de (w_gsettings w schema k) (old (w_config w))
    = Ok o ->
    w_gsettings w schema k <> n ->
    enableable (w_config w) = EDict d ->
    dict_get theme d <> None ->
    step (Gs theme de schema (Some k) (Some n)) w
         (mkWorld (set_old o (w_config w))
                  (store_set (w_gsettings w) schema k n) (w_xfconf w)
                  ((w_trace w ++ [GsettingsGet schema k])
                   ++ [GsettingsSet schema k n])
                  (w_updated w))
| step_xf_same theme ch p w o :
    Enable.capture theme "xfce" (w_xfconf w ch p) (old (w_config w)) = Ok o ->
    step (Xf theme (Some ch) p (Some (w_xfconf w ch p))) w
         (mkWorld (set_old o (w_config w)) (w_gsettings w) (w_xfconf w)
                  (w_trace w ++ [XfconfGet ch p]) (w_updated w))
| step_xf_change theme ch p n w o d :
    Enable.capture theme "xfce" (w_xfconf w ch p) (old (w_config w)) = Ok o ->
    w_xfconf w ch p <> n ->
    enableable (w_config w) = EDict d ->
    dict_get theme d <> None ->
    step (Xf theme (Some ch) p (Some n)) w
         (mkWorld (set_old o (w_config w)) (w_gsettings w)
                  (store_set (w_xfconf w) ch p n)
                  ((w_trace w ++ [XfconfGet ch p]) ++ [XfconfSet ch p n])
                  (w_updated w)).

(** The commands of a trace that change a setting. *)
Definition is_set (e : event) : bool :=
  match e with
  | GsettingsSet _ _ _ => true
  | XfconfSet _ _ _ => true
  | _ => false
  end.

End Plan.

(** The next call of the engine: the same dictionary and stores, an
    empty trace. *)
Definition again (w : world) : world :=
  mkWorld (w_config w) (w_gsettings w) (w_xfconf w) [] (w_updated w).

(** A snapshot that is not a list (a missing one included). *)
Definition not_list (v : option pyval) : Prop :=
  match v with
  | Some (VList _) => False
  | _ => True
  end.

(** A change of a setting as the specification words it: whenever the
    engine has changed a setting, the global [updated] is set, so that the
    notice is printed. *)
Definition change_is_recorded (w : world) : Prop :=
  existsb Plan.is_set (w_trace w) = true -> w_updated w = true.

(** The world after a call of the engine ([w] itself if it raises). *)
Definition after (r : result world) (w : world) : world :=
  match r with
  | Ok w' => w'
  | Raise _ => w
  end.

(** ** The value each setting is meant to have *)

Definition opt_eqb (a b : option string) : bool :=
  match a, b with
  | Some x, Some y => x =? y
  | None, None => true
  | _, _ => false
  end.

(** [self.names[theme]], [None] also when the key is missing. *)
Definition wanted (names : dict (option string)) (theme : string)
  : option string :=
  match dict_get theme names with
  | Some n => n
  | None => None
  end.

(** The theme whose entry of [_data] uses the gsettings key [k] of
    [schema], and the one that uses the xfconf property [p] of channel
    [ch]. *)
Definition theme_of_gsettings (schema k : string) : option string :=
  option_map fst
    (find (fun row =>
             let e := snd row None in
             opt_eqb (Enable.key e) (Some k)
             && existsb (fun ds => snd ds =? schema) (Enable.schemas e))
          Enable.table).

Definition theme_of_xfconf (ch p : string) : option string :=
  option_map fst
    (find (fun row =>
             let e := snd row None in
             opt_eqb (Enable.channel e) (Some ch)
             && opt_eqb (Enable.property e) (Some p))
          Enable.table).

(** The loop over the schemas reaches the body for desktop [de]. *)
Definition visited (t : tools) (desktop : string) (c : config) (de : string)
  : bool :=
  gsettings t
  && ((desktop =? "all") || (desktop =? de))
  && match dict_get de (desktop_versions c) with
     | Some (Some _) => true
     | _ => false
     end.

(** Under Unity the icons are given the name of the GTK theme, and that
    name is another one than the name of the icons. *)
Definition unity_icons (t : tools) (names : dict (option string))
  (desktop : string) (uninstalling : bool) (c : config) : bool :=
  negb uninstalling
  && visited t desktop c "unity"
  && negb (opt_eqb (wanted names "gtk3") (wanted names "icons")).

(** Two desktops that share the key [icon-theme] of
    [org.gnome.desktop.interface] are given different icon names: Unity
    on one side, GNOME or Budgie on the other. *)
Definition icon_clash (t : tools) (names : dict (option string))
  (desktop : string) (uninstalling : bool) (c : config) : bool :=
  match enabled c with
  | Some en =>
      Str.mem "icons" en
      && unity_icons t names desktop uninstalling c
      && (visited t desktop c "gnome" || visited t desktop c "budgie")
  | None => false
  end.

Section Want.

Variables (unity : bool) (names : dict (option string)).

Definition want_gsettings (schema k : string) : option string :=
  if unity && (schema =? "org.gnome.desktop.interface")
     && (k =? "icon-theme")
  then wanted names "gtk3"
  else match theme_of_gsettings schema k with
       | Some theme => wanted names theme
       | None => None
       end.

Definition want_xfconf (ch p : string) : option string :=
  match theme_of_xfconf ch p with
  | Some theme => wanted names theme
  | None => None
  end.

(** The action asks for the value its setting is meant to have. *)
Definition agrees (a : Plan.action) : Prop :=
  match a with
  | Plan.Gs _ _ schema (Some k) name => name = want_gsettings schema k
  | Plan.Xf _ (Some ch) p name => name = want_xfconf ch p
  | _ => True
  end.

End Want.

(** The setting of the action holds the wanted name and the snapshot of
    its pair is not a list. *)
Definition settled (w : world) (a : Plan.action) : Prop :=
  match a with
  | Plan.Gs theme de schema (Some k) (Some n) =>
      w_gsettings w schema k = n /\
      not_list (snapshot theme de (old (w_config w)))
  | Plan.Xf theme (Some ch) p (Some n) =>
      w_xfconf w ch p = n /\
      not_list (snapshot theme "xfce" (old (w_config w)))
  | Plan.Extension => True
  | _ => False
  end.

Definition qualia_named (a : Plan.action) : Prop :=
  match a with
  | Plan.Gs _ _ _ _ (Some n) => Str.startswith n "qualia" = true
  | Plan.Xf _ _ _ (Some n) => Str.startswith n "qualia" = true
  | _ => True
  end.

(** Every name given to [Enable] is a string that starts with
    [qualia]. *)
Definition qualia_names (kwargs : dict (option string)) : bool :=
  forallb
    (fun kw =>
       match snd kw with
       | Some n => Str.startswith n "qualia"
       | None => false
       end)
    kwargs.

(** ** Where a command of the trace comes from *)

(** The action that runs the command [ev]. *)
Definition origin (a : Plan.action) (ev : event) : Prop :=
  match ev with
  | GsettingsGet schema k =>
      exists theme de name, a = Plan.Gs theme de schema (Some k) name
  | GsettingsSet schema k v =>
      exists theme de, a = Plan.Gs theme de schema (Some k) (Some v)
  | XfconfGet ch p =>
      exists theme name, a = Plan.Xf theme (Some ch) p name
  | XfconfSet ch p v =>
      exists theme, a = Plan.Xf theme (Some ch) p (Some v)
  | ExtensionEnable => a = Plan.Extension
  end.

(** The check made for [gnome-shell] lets the theme through. *)
Definition shell_ready (t : tools) (theme : string) : bool :=
  negb (theme =? "gnome-shell")
  || match gnome_extensions t with
     | Some (Some listed) => Str.contains Enable.user_theme listed
     | _ => false
     end.

(** ** Eligibility *)

(** No string occurs twice. *)
Fixpoint uniq (l : list string) : bool :=
  match l with
  | [] => true
  | x :: l' => negb (Str.mem x l') && uniq l'
  end.

(** What [get_enableable] takes away on host [h]: the part of a desktop
    that is not detected, [firefox] and [vscode] without a directory,
    [snap] without the program. *)
Definition removed (h : host) (x : string) : bool :=
  existsb
    (fun d =>
       match snd d with
       | None => opt_eqb (Config.desktop_part (fst d)) (Some x)
       | Some _ => false
       end)
    (h_desktops h)
  || ((x =? "firefox") && (List.length (h_firefox h) =? 0)%nat)
  || ((x =? "vscode") && (List.length (h_vscode h) =? 0)%nat)
  || ((x =? "snap") && negb (h_snap h)).

(** The paths of [paths[name]] in the order [check_path] visits them. *)
Definition flatten (items : list path_item) : list string :=
  flat_map (fun i => match i with One p => [p] | Many l => l end) items.

(** ** After [configure] *)

(** A colour scheme that [theme_variants] has resolved. *)
Definition resolved (c : config) : bool :=
  match color_scheme c with
  | Some s => (s =? "default") || (s =? "prefer-dark")
  | None => false
  end.

(** A part that is built with meson and ninja. *)
Definition needs_meson (part : string) : bool :=
  Prompt.in_group part "dg-yaru" || Prompt.in_group part "dg-adw-gtk3".

(** [configure] with [configure_all] alone. *)
Definition all_flags : flags :=
  mkFlags false false false false false false true.

(** What holds of the enabled list while [configure] builds it. *)
Definition built (b : build_tools) (seen en : list string) : Prop :=
  (forall x, In x en -> In x seen) /\
  NoDup en /\
  (In "settings_theme" en -> In "firefox" en) /\
  (In "default_syntax" en -> In "vscode" en) /\
  (meson b && ninja b = false ->
   forall x, In x en -> needs_meson x = false).


(** The dictionary and the lines left when [configure] is done (the
    arguments themselves if it halts). *)
Definition configured_as (o : outcome (config * list string)) (c : config)
  : config :=
  match o with
  | Done (c', _) => c'
  | Halt _ => c
  end.

Definition lines_left (o : outcome (config * list string))
  : list string :=
  match o with
  | Done (_, rest) => rest
  | Halt _ => []
  end.

(** A session on a GNOME host: blue, dark, and an answer to every
    question. *)
Definition session : list string :=
  ["8"; "2"; "y"; "n"; ""; "Y"; "y"; "x"; "n"; "y"; "y"; "y"; "n"].

(** A session on the same host without meson: the [y] for GTK3 is
    refused, and the question is asked again. *)
Definition session_without_meson : list string :=
  ["8"; "2"; "y"; "n"; "n"; "y"; "n"; "n"; "n"; "n"; "n"; "y"; "n"].

(** ** What [read] can put into the dictionary *)

(** A recorded version: empty, or the 40 characters of a commit id. *)
Definition version_shaped (s : string) : bool :=
  (s =? "") || (String.length s =? 40)%nat.

Definition versions_shaped (c : config) : bool :=
  forallb (fun kv => version_shaped (snd kv)) (versions c).

(** The snapshot of a theme holds one desktop, and [VERSIONS] knows it. *)
Definition one_known_desktop (des : dict pyval) : bool :=
  match des with
  | [(de, _)] => dict_mem de VERSIONS
  | _ => false
  end.

Definition snapshots_single (c : config) : bool :=
  forallb (fun td => one_known_desktop (snd td)) (old c).

(** The value is the one from before, or one of the [allowed] names. *)
Definition kept_or_among (allowed : list string) (before now : option string)
  : Prop :=
  now = before \/ exists s, now = Some s /\ In s allowed.

(** The keys that only the detection of the host sets. *)
Definition detected (c : config)
  : dict (option de_version) * list string * list string :=
  (desktop_versions c, firefox c, vscode c).

(** The keys that [configure] sets, and the eligible parts. *)
Definition choices (c : config)
  : option string * option string * enableable_t :=
  (color c, theme c, enableable c).

(** [write] finds every key it reads. *)
Definition keys_present (c : config) : bool :=
  match color c, theme c, enabled c with
  | Some _, Some _, Some _ => dict_mem "gnome" (desktop_versions c)
  | _, _, _ => false
  end.

(** [write] finds every key it reads, and every snapshot is a string. *)
Definition writable (c : config) : bool :=
  keys_present c && all_strings (old c).

(** The dictionary after a [read] that has returned. *)
Definition read_to (r : result config) (c : config) : config :=
  match r with
  | Ok c' => c'
  | Raise _ => c
  end.

(** The file that [write] leaves for the sample configuration. *)
Definition written_file : node := fst (Config.write Sample.blue_dark Absent).

(** ** Strings that pass through the file unchanged *)

(** Every character of the string satisfies [q]. *)
Fixpoint all_chars (q : ascii -> bool) (s : string) : bool :=
  match s with
  | EmptyString => true
  | String c s' => q c && all_chars q s'
  end.

(** Neither a line feed nor a carriage return. *)
Definition inline (c : ascii) : bool :=
  negb (Ascii.eqb c (ascii_of_nat 10)) && negb (Ascii.eqb c (ascii_of_nat 13)).

(** Neither white space nor a colon. *)
Definition plain_char (c : ascii) : bool :=
  negb (Str.is_space c) && negb (Ascii.eqb c ":").

Definition is_not (x c : ascii) : bool := negb (Ascii.eqb c x).

(** A non-empty string without white space and without a colon. *)
Definition word (s : string) : bool :=
  negb (Str.is_empty s) && all_chars plain_char s.

(** A word without an underscore. *)
Definition simple_name (s : string) : bool :=
  word s && all_chars (is_not "_") s.

(** ** A dictionary whose file reads back *)

(** A version as [write] finds it: empty, or a commit id. *)
Definition version_word (v : string) : bool :=
  (v =? "") || (word v && (String.length v =? 40)%nat).

Definition versions_plain (c : config) : bool :=
  forallb
    (fun g =>
       match dict_get (g ++ "_version") (versions c) with
       | Some v => version_word v
       | None => true
       end)
    (dict_keys VARIANTS_enableable).

(** The snapshots of a theme: the theme is a simple name, every desktop
    is one of [VERSIONS], every value that [write] keeps is a word. *)
Definition snapshot_plain (td : string * dict pyval) : bool :=
  simple_name (fst td)
  && forallb
       (fun dv =>
          dict_mem (fst dv) VERSIONS
          && match snd dv with
             | VStr s => negb (genuine s) || word s
             | VList _ => false
             end)
       (snd td).

(** The version [check_de_version] can return for desktop [de]: [None],
    or a version of [VERSIONS]. *)
Definition detectable (de : string) (v : option de_version) : Prop :=
  match v with
  | None => True
  | Some x => exists l, dict_get de VERSIONS = Some l /\ In x l
  end.

(** [int(str(v))], with [None] for the [ValueError]. *)
Definition int_version (v : option de_version) : option Z :=
  match v with
  | Some (VerInt n) => Some n
  | _ => None
  end.

(** The dictionary after the line [firefox: ...] of the file of [c]. *)
Definition reread_firefox (c : config) (en : list string) (acc : config)
  : config :=
  match firefox c with
  | [] => acc
  | _ => set_old_firefox (map Config.firefox_name (firefox c))
           (set_enabled (Some (en ++ ["firefox"])%list) acc)
  end.

(** The dictionary after the line [vscode: ...] of the file of [c]. *)
Definition reread_vscode (c : config) (acc : config) : config :=
  match vscode c with
  | [] => acc
  | _ => set_old_vscode (map Config.firefox_name (vscode c)) acc
  end.

(** The dictionary after the version lines of the file of [c]. *)
Definition reread_versions (c : config) (groups : list string)
  (acc : config) : config :=
  fold_left
    (fun acc g =>
       match dict_get (g ++ "_version") (versions c) with
       | Some v =>
           if v =? "" then acc
           else set_versions (dict_set (g ++ "_version") v (versions acc)) acc
       | None => acc
       end)
    groups acc.

(** The dictionary after the snapshot lines of the file of [c]. *)
Definition reread_desktops (theme : string) (des : dict pyval)
  (acc : config) : config :=
  fold_left
    (fun acc dv =>
       match snd dv with
       | VStr s =>
           if genuine s
           then set_old (dict_set theme [(fst dv, VStr s)] (old acc)) acc
           else acc
       | VList _ => acc
       end)
    des acc.

Definition reread_old (o : dict (dict pyval)) (acc : config) : config :=
  fold_left (fun acc td => reread_desktops (fst td) (snd td) acc) o acc.

(** The dictionary that [read] builds on host [h] from the file that
    [write] has written for [c]. *)
Definition reread (h : host) (c : config) (col th : string)
  (en : list string) (g : option de_version) : config :=
  reread_old (old c)
    (reread_versions c (dict_keys VARIANTS_enableable)
       (reread_vscode c
          (reread_firefox c en
             (set_old_gnome (Some (int_version g))
                (set_enabled (Some en)
                   (set_theme (Some th)
                      (set_color (Some col)
                         (Config.read_reset (Config.init h))))))))).

(** What is asked of a dictionary [c] for its file to be read back on
    host [h]: the keys that [write] reads are there; the colour and the
    variant are names of [VARIANTS]; the enabled list is not empty and
    holds parts that are eligible on [h]; the GNOME version is one that
    [check_de_version] returns; the names of the Firefox and VS Code
    variants are words; the versions are empty or commit ids; the
    snapshots are plain. *)
Definition reads_back (h : host) (c : config) (col th : string)
  (en : list string) (g : option de_version) : Prop :=
  color c = Some col /\ theme c = Some th /\ enabled c = Some en /\
  dict_get "gnome" (desktop_versions c) = Some g /\
  In col (dict_keys VARIANTS_color) /\ In th (dict_keys VARIANTS_theme) /\
  en <> [] /\
  forallb (fun x => dict_mem x (Config.get_enableable h)) en = true /\
  detectable "gnome" g /\
  forallb word (firefox c) = true /\ forallb word (vscode c) = true /\
  versions_plain c = true /\ forallb snapshot_plain (old c) = true.

(** The version recorded for group [g], empty when there is none. *)
Definition recorded (g : string) (c : config) : string :=
  match dict_get (g ++ "_version") (versions c) with
  | Some v => v
  | None => ""
  end.

(** The snapshot of the theme is one that [write] writes. *)
Definition written_snapshot (td : string * dict pyval) : bool :=
  match snd td with
  | [(_, VStr s)] => genuine s
  | _ => false
  end.

(** A dictionary written on a host with a Firefox directory. *)
Definition with_firefox : config :=
  Sample.configured Sample.firefox_host "blue" "dark" ["gtk3"].

(** No flag of the command line asks for a rebuild. *)
Definition quiet (f : flags) : bool :=
  negb (configure_all f || force f || update_color f || update_theme f
        || update_settings f || update_syntax f).

(** The host is the one the dictionary was made on, and [read] leaves
    the names of its Firefox and VS Code variants as they are. *)
Definition same_host (h : host) (c : config) : Prop :=
  detected c = detected (Config.init h) /\
  map Config.firefox_name (firefox c) = firefox c /\
  map Config.firefox_name (vscode c) = vscode c.

(** * Lemmas *)

(** ** Strings *)

Lemma append_nil_r (s : string) : s ++ "" = s.
Proof. induction s as [|c s IH]; simpl; [reflexivity | now rewrite IH]. Qed.

Lemma append_assoc (a b c : string) : (a ++ b) ++ c = a ++ (b ++ c).
Proof. induction a as [|x a IH]; simpl; [reflexivity | now rewrite IH]. Qed.

Lemma length_append (a b : string) :
  String.length (a ++ b) = String.length a + String.length b.
Proof. induction a as [|x a IH]; simpl; [reflexivity | now rewrite IH]. Qed.

Lemma concat_nil_app (l1 l2 : list string) :
  String.concat "" (l1 ++ l2) = String.concat "" l1 ++ String.concat "" l2.
Proof.
  induction l1 as [|x l1 IH]; simpl; [reflexivity |].
  destruct l1 as [|y l1].
  - simpl. destruct l2; simpl; [now rewrite append_nil_r | reflexivity].
  - change ((y :: l1) ++ l2)%list with (y :: (l1 ++ l2))%list in *.
    cbn [String.concat] in *. rewrite IH. now rewrite !append_assoc.
Qed.

Lemma concat_nil_cons (x : string) (l : list string) :
  String.concat "" (x :: l) = x ++ String.concat "" l.
Proof. apply (concat_nil_app [x] l). Qed.

(** ** Dictionaries *)

Section Dict.

Variable V : Type.
Implicit Types (d : dict V) (k : string) (v : V).

Lemma dict_get_set_same k v d : dict_get k (dict_set k v d) = Some v.
Proof.
  induction d as [|[k' v'] d IH]; simpl.
  - now rewrite String.eqb_refl.
  - destruct (k =? k') eqn:E; simpl.
    + now rewrite String.eqb_refl.
    + now rewrite E.
Qed.

Lemma dict_get_set_other k k' v d :
  k' <> k -> dict_get k' (dict_set k v d) = dict_get k' d.
Proof.
  intros Hne. induction d as [|[k0 v0] d IH]; simpl.
  - destruct (String.eqb_spec k' k); [contradiction | reflexivity].
  - destruct (String.eqb_spec k k0) as [->|Hk]; simpl.
    + destruct (String.eqb_spec k' k0); [contradiction | reflexivity].
    + destruct (k' =? k0); [reflexivity | exact IH].
Qed.

Lemma dict_set_absent k v d :
  dict_get k d = None -> dict_set k v d = (d ++ [(k, v)])%list.
Proof.
  induction d as [|[k0 v0] d IH]; simpl; [reflexivity |].
  destruct (k =? k0); [discriminate |].
  intros H. now rewrite IH.
Qed.

Lemma dict_mem_get k d : dict_mem k d = true <-> dict_get k d <> None.
Proof.
  unfold dict_mem, dict_keys, Str.mem.
  induction d as [|[k0 v0] d IH]; simpl.
  - split; [discriminate | congruence].
  - destruct (k =? k0); simpl; [split; [discriminate | reflexivity] | exact IH].
Qed.

End Dict.

Lemma mem_In (x : string) (l : list string) : Str.mem x l = true <-> In x l.
Proof.
  unfold Str.mem. rewrite existsb_exists. split.
  - intros [y [Hy E]]. apply String.eqb_eq in E. now subst.
  - intros H. exists x. split; [exact H | apply String.eqb_refl].
Qed.

(** ** Writing *)

Lemma write_versions_text (groups : list string) (c : config)
  (k : Config.output) :
  Config.write_versions groups c k
  = (String.concat ""
       (flat_map
          (fun g =>
             match dict_get (g ++ "_version") (versions c) with
             | Some v => [g ++ "_version: " ++ v ++ Str.nl]
             | None => []
             end)
          groups) ++ fst k, snd k).
Proof.
  induction groups as [|g groups IH]; simpl.
  - now destruct k.
  - destruct (dict_get (g ++ "_version") (versions c)) as [v|].
    + rewrite IH. unfold Config.emit. cbn [fst snd app].
      rewrite concat_nil_cons. now rewrite !append_assoc.
    + exact IH.
Qed.

Lemma write_desktops_text (theme : string) (des : dict pyval)
  (k : Config.output) :
  forallb (fun dv => match snd dv with VStr _ => true | VList _ => false end)
          des = true ->
  Config.write_desktops theme des k
  = (String.concat ""
       (flat_map
          (fun dv =>
             match snd dv with
             | VStr s => if genuine s then [snapshot_line theme (fst dv) s]
                         else []
             | VList _ => []
             end)
          des) ++ fst k, snd k).
Proof.
  induction des as [|[de v] des IH]; simpl; intros H.
  - now destruct k.
  - destruct v as [s|l]; [|discriminate]. simpl in H.
    fold (genuine s). destruct (genuine s).
    + rewrite (IH H). unfold Config.emit. cbn [fst snd app].
      rewrite concat_nil_cons. unfold snapshot_line.
      rewrite append_assoc. reflexivity.
    + exact (IH H).
Qed.

Lemma write_old_text (o : dict (dict pyval)) (k : Config.output) :
  all_strings o = true ->
  Config.write_old o k = (snapshot_lines o ++ fst k, snd k).
Proof.
  unfold snapshot_lines, all_strings.
  induction o as [|[theme des] o IH]; simpl; intros H.
  - now destruct k.
  - apply andb_true_iff in H. destruct H as [H1 H2].
    rewrite (IH H2). rewrite (write_desktops_text _ _ _ H1).
    cbn [fst snd]. rewrite concat_nil_app. now rewrite append_assoc.
Qed.

(** On a path that is no symbolic link and no special file, [write]
    removes what is there and writes the file. *)
Lemma write_plain (c : config) (file : node) :
  Config.write c file
  = (RegFile (fst (Config.write_text c)), snd (Config.write_text c)).
Proof. destruct file; reflexivity. Qed.

(** ** The engine and its plan *)

Lemma pretty_ok (theme : string) (c : config) (d : dict string) :
  enableable c = EDict d -> dict_get theme d <> None ->
  exists s, Enable.pretty theme c = Ok s.
Proof.
  intros He Hd. unfold Enable.pretty, dict_lookup. rewrite He.
  destruct (dict_get theme d) as [s|]; [now exists s | contradiction].
Qed.

Lemma pretty_inv (theme : string) (c : config) (s : string) :
  Enable.pretty theme c = Ok s ->
  exists d, enableable c = EDict d /\ dict_get theme d <> None.
Proof.
  unfold Enable.pretty, dict_lookup. destruct (enableable c) as [d|];
    [|discriminate].
  destruct (dict_get theme d) eqn:E; [|discriminate].
  intros _. exists d. split; [reflexivity | congruence].
Qed.

Lemma run_action_step (a : Plan.action) (w w' : world) :
  Plan.run_action a w = Ok w' -> Plan.step a w w'.
Proof.
  destruct a as [e| |theme de schema key name|theme ch p name]; cbn.
  - discriminate.
  - intros H. injection H as <-. constructor.
  - unfold Enable.gsettings_apply. destruct key as [k|]; [|discriminate].
    cbn. destruct (Enable.capture _ _ _ _) as [o|] eqn:Hc; [|discriminate].
    cbn. destruct name as [n|]; cbn.
    + destruct (String.eqb_spec (w_gsettings w schema k) n) as [<-|Hne]; cbn.
      * intros H. injection H as <-. exact (@Plan.step_gs_same theme de schema k w o Hc).
      * destruct (Enable.pretty theme _) as [s|] eqn:Hp; [|discriminate].
        cbn. intros H. injection H as <-.
        apply pretty_inv in Hp. destruct Hp as [d [Hd Hin]].
        exact (@Plan.step_gs_change theme de schema k n w o d Hc Hne Hd Hin).
    + destruct (Enable.pretty theme _); discriminate.
  - unfold Enable.xfconf_pair. destruct ch as [ch|]; [|discriminate].
    cbn. destruct (Enable.capture _ _ _ _) as [o|] eqn:Hc; [|discriminate].
    cbn. destruct name as [n|]; cbn.
    + destruct (String.eqb_spec (w_xfconf w ch p) n) as [<-|Hne]; cbn.
      * intros H. injection H as <-. exact (@Plan.step_xf_same theme ch p w o Hc).
      * destruct (Enable.pretty theme _) as [s|] eqn:Hp; [|discriminate].
        cbn. intros H. injection H as <-.
        apply pretty_inv in Hp. destruct Hp as [d [Hd Hin]].
        exact (@Plan.step_xf_change theme ch p n w o d Hc Hne Hd Hin).
    + destruct (Enable.pretty theme _); discriminate.
Qed.

Lemma step_run_action (a : Plan.action) (w w' : world) :
  Plan.step a w w' -> Plan.run_action a w = Ok w'.
Proof.
  intros H.
  destruct H as [w|theme de schema k w o Hc|theme de schema k n w o d Hc Hne Hd Hin
                |theme ch p w o Hc|theme ch p n w o d Hc Hne Hd Hin]; cbn.
  - reflexivity.
  - unfold Enable.gsettings_apply. cbn. rewrite Hc. cbn.
    now rewrite String.eqb_refl.
  - unfold Enable.gsettings_apply. cbn. rewrite Hc. cbn.
    destruct (String.eqb_spec (w_gsettings w schema k) n); [contradiction |].
    cbn.
    destruct (@pretty_ok theme (set_old o (w_config w)) d Hd Hin) as [s Hs].
    cbn in Hs |- *. rewrite Hs. reflexivity.
  - unfold Enable.xfconf_pair. cbn. rewrite Hc. cbn.
    now rewrite String.eqb_refl.
  - unfold Enable.xfconf_pair. cbn. rewrite Hc. cbn.
    destruct (String.eqb_spec (w_xfconf w ch p) n); [contradiction |].
    cbn.
    destruct (@pretty_ok theme (set_old o (w_config w)) d Hd Hin) as [s Hs].
    cbn in Hs |- *. rewrite Hs. reflexivity.
Qed.

Lemma run_app (l1 l2 : list Plan.action) (w : world) :
  Plan.run (l1 ++ l2) w = (w' <- Plan.run l1 w ;; Plan.run l2 w').
Proof.
  revert w. induction l1 as [|a l1 IH]; intros w; cbn; [reflexivity |].
  destruct (Plan.run_action a w) as [w1|e]; cbn; [apply IH | reflexivity].
Qed.

(** What no action changes. *)
Definition same_static (w w' : world) : Prop :=
  desktop_versions (w_config w') = desktop_versions (w_config w) /\
  enabled (w_config w') = enabled (w_config w) /\
  enableable (w_config w') = enableable (w_config w) /\
  w_updated w' = w_updated w.

Lemma step_static (a : Plan.action) (w w' : world) :
  Plan.step a w w' -> same_static w w'.
Proof. intros H. destruct H; repeat split. Qed.

Lemma same_static_refl (w : world) : same_static w w.
Proof. repeat split. Qed.

Lemma same_static_trans (w1 w2 w3 : world) :
  same_static w1 w2 -> same_static w2 w3 -> same_static w1 w3.
Proof.
  unfold same_static. intros (A & B & C & D) (A' & B' & C' & D').
  repeat split; congruence.
Qed.

Lemma run_static (l : list Plan.action) (w w' : world) :
  Plan.run l w = Ok w' -> same_static w w'.
Proof.
  revert w. induction l as [|a l IH]; intros w; cbn.
  - intros H. injection H as <-. apply same_static_refl.
  - destruct (Plan.run_action a w) as [w1|e] eqn:E; cbn; [|discriminate].
    intros H. apply same_static_trans with w1.
    + apply step_static with a. now apply run_action_step.
    + now apply IH.
Qed.

Section Equivalence.

Variables (t : tools) (desktop : string) (uninstalling : bool)
          (data : dict Enable.entry).

Lemma schemas_loop_plan (theme : string) (value : Enable.entry)
  (items : dict string) (w : world) :
  Enable.schemas_loop t desktop uninstalling data theme value items w
  = Plan.run
      (Plan.of_schemas t desktop uninstalling data
         (desktop_versions (w_config w)) theme value items) w.
Proof.
  revert w. induction items as [|[de schema] items IH]; intros w; cbn;
    [reflexivity |].
  destruct (negb (desktop =? "all") && negb (desktop =? de)); [apply IH |].
  unfold Plan.name_for.
  destruct (if (theme =? "icons") && (de =? "unity") && negb uninstalling
            then _ else _) as [name|e]; cbn; [|reflexivity].
  destruct (gsettings t); [|reflexivity].
  destruct (dict_lookup de (desktop_versions (w_config w))) as [[v|]|e];
    cbn; [| apply IH | reflexivity].
  destruct (Enable.gsettings_apply theme de schema (Enable.key value) name w)
    as [w1|e] eqn:E; cbn; [|reflexivity].
  rewrite IH.
  assert (Hs : same_static w w1).
  { apply step_static with (Plan.Gs theme de schema (Enable.key value) name).
    now apply run_action_step. }
  destruct Hs as [-> _]. reflexivity.
Qed.

Lemma xfconf_apply_plan (theme : string) (value : Enable.entry) (w : world) :
  Enable.xfconf_apply t theme value w
  = Plan.run
      (Plan.of_xfconf t (desktop_versions (w_config w)) theme value) w.
Proof.
  unfold Enable.xfconf_apply, Plan.of_xfconf.
  destruct (xfconf_query t), (Enable.property value) as [p|];
    try reflexivity;
    destruct (dict_lookup "xfce" (desktop_versions (w_config w)))
      as [[v|]|e]; cbn; try reflexivity.
  now destruct (Enable.xfconf_pair _ _ _ _ _).
Qed.

Lemma enable_one_plan (theme : string) (value : Enable.entry) (w : world) :
  Enable.enable_one t desktop uninstalling data theme value w
  = Plan.run
      (Plan.of_one t desktop uninstalling data
         (desktop_versions (w_config w)) (enabled (w_config w)) theme value)
      w.
Proof.
  unfold Enable.enable_one, Plan.of_one.
  destruct (enabled (w_config w)) as [en|]; cbn; [|reflexivity].
  destruct (Str.mem theme en || uninstalling); [|reflexivity].
  destruct (Enable.theme_name value) as [n|]; [|reflexivity].
  assert (Body : forall w0,
    desktop_versions (w_config w0) = desktop_versions (w_config w) ->
    (w1 <- Enable.schemas_loop t desktop uninstalling data theme value
             (Enable.schemas value) w0 ;;
     Enable.xfconf_apply t theme value w1)
    = Plan.run
        (Plan.of_schemas t desktop uninstalling data
           (desktop_versions (w_config w)) theme value (Enable.schemas value)
         ++ Plan.of_xfconf t (desktop_versions (w_config w)) theme value)
        w0).
  { intros w0 H0. rewrite run_app, schemas_loop_plan, H0.
    destruct (Plan.run _ w0) as [w1|e] eqn:E; cbn; [|reflexivity].
    rewrite xfconf_apply_plan.
    apply run_static in E. destruct E as [E _]. now rewrite E, H0. }
  destruct (theme =? "gnome-shell").
  - unfold Enable.shell_extension.
    destruct (gnome_extensions t) as [[listed|]|]; try reflexivity.
    destruct (Str.contains Enable.user_theme listed); [|reflexivity].
    cbn [Plan.run Plan.run_action bind]. now apply Body.
  - now apply Body.
Qed.

Lemma enable_items_plan (items : dict Enable.entry) (w : world) :
  Enable.enable_items t desktop uninstalling data items w
  = Plan.run
      (Plan.of_items t desktop uninstalling data
         (desktop_versions (w_config w)) (enabled (w_config w)) items) w.
Proof.
  revert w. induction items as [|[theme value] items IH]; intros w; cbn;
    [reflexivity |].
  rewrite run_app, enable_one_plan.
  destruct (Plan.run _ w) as [w1|e] eqn:E; cbn; [|reflexivity].
  rewrite IH. apply run_static in E. destruct E as (-> & -> & _).
  reflexivity.
Qed.

End Equivalence.

Lemma enable_theme_plan (t : tools) (kwargs : dict (option string))
  (desktop : string) (uninstalling : bool) (w : world) :
  Enable.enable_theme t kwargs desktop uninstalling w
  = Plan.run (Plan.of_theme t kwargs desktop uninstalling (w_config w)) w.
Proof. apply enable_items_plan. Qed.

(** ** Snapshots *)

Lemma snapshot_set_same (theme de : string) (des : dict pyval)
  (o : dict (dict pyval)) :
  snapshot theme de (dict_set theme des o) = dict_get de des.
Proof. unfold snapshot. now rewrite dict_get_set_same. Qed.

Lemma snapshot_set_other (theme theme' de : string) (des : dict pyval)
  (o : dict (dict pyval)) :
  theme' <> theme ->
  snapshot theme' de (dict_set theme des o) = snapshot theme' de o.
Proof. intros H. unfold snapshot. now rewrite dict_get_set_other. Qed.

(** The three outcomes of [capture]. *)
Lemma capture_cases (theme de live : string) (o o' : dict (dict pyval)) :
  Enable.capture theme de live o = Ok o' ->
  (dict_get theme o = None /\ o' = dict_set theme [(de, VStr live)] o) \/
  (exists des s,
      dict_get theme o = Some des /\ dict_get de des = Some (VStr s) /\
      Str.startswith s "qualia" = true /\
      o' = dict_set theme (dict_set de (VStr live) des) o) \/
  (dict_get theme o <> None /\ not_list (snapshot theme de o) /\ o' = o /\
   forall s, snapshot theme de o = Some (VStr s) ->
             Str.startswith s "qualia" = false).
Proof.
  unfold Enable.capture, snapshot.
  destruct (dict_get theme o) as [des|] eqn:Ht.
  - destruct (dict_get de des) as [[s|l]|] eqn:Hd.
    + destruct (Str.startswith s "qualia") eqn:Hq; intros H;
        injection H as <-.
      * right. left. now exists des, s.
      * right. right. repeat split; try easy.
        intros s' E. now injection E as <-.
    + discriminate.
    + intros H. injection H as <-. right. right. repeat split; easy.
  - intros H. injection H as <-. now left.
Qed.

Lemma capture_ok (theme de live : string) (o : dict (dict pyval)) :
  not_list (snapshot theme de o) ->
  exists o', Enable.capture theme de live o = Ok o'.
Proof.
  unfold Enable.capture, snapshot, not_list.
  destruct (dict_get theme o) as [des|]; [|now eexists].
  destruct (dict_get de des) as [[s|l]|]; [| easy | now eexists].
  destruct (Str.startswith s "qualia"); now eexists.
Qed.

(** A snapshot that does not start with [qualia] survives every
    capture. *)
Lemma capture_keeps_genuine (theme de live : string)
  (o o' : dict (dict pyval)) (theme' de' s : string) :
  Enable.capture theme de live o = Ok o' ->
  snapshot theme' de' o = Some (VStr s) ->
  Str.startswith s "qualia" = false ->
  snapshot theme' de' o' = Some (VStr s).
Proof.
  intros Hc Hs Hq.
  destruct (capture_cases _ _ _ _ Hc)
    as [[Hn ->]|[(des & s0 & Ht & Hd & Hq0 & ->)|(_ & _ & -> & _)]];
    [| |exact Hs].
  - destruct (String.eqb_spec theme' theme) as [->|Hne].
    + unfold snapshot in Hs. now rewrite Hn in Hs.
    + now rewrite snapshot_set_other.
  - destruct (String.eqb_spec theme' theme) as [->|Hne].
    + rewrite snapshot_set_same. unfold snapshot in Hs. rewrite Ht in Hs.
      destruct (String.eqb_spec de' de) as [->|Hde].
      * rewrite Hd in Hs. injection Hs as ->. congruence.
      * now rewrite dict_get_set_other.
    + now rewrite snapshot_set_other.
Qed.

(** [capture] stores strings only. *)
Lemma capture_not_list (theme de live : string) (o o' : dict (dict pyval))
  (theme' de' : string) :
  Enable.capture theme de live o = Ok o' ->
  not_list (snapshot theme' de' o) ->
  not_list (snapshot theme' de' o').
Proof.
  intros Hc Hs.
  destruct (capture_cases _ _ _ _ Hc)
    as [[Hn ->]|[(des & s0 & Ht & Hd & Hq0 & ->)|(_ & _ & -> & _)]];
    [| |exact Hs].
  - destruct (String.eqb_spec theme' theme) as [->|Hne].
    + rewrite snapshot_set_same. cbn.
      destruct (de' =? de); exact I.
    + now rewrite snapshot_set_other.
  - destruct (String.eqb_spec theme' theme) as [->|Hne].
    + rewrite snapshot_set_same. unfold snapshot in Hs. rewrite Ht in Hs.
      destruct (String.eqb_spec de' de) as [->|Hde].
      * now rewrite dict_get_set_same.
      * now rewrite dict_get_set_other.
    + now rewrite snapshot_set_other.
Qed.

Lemma capture_not_list_here (theme de live : string)
  (o o' : dict (dict pyval)) :
  Enable.capture theme de live o = Ok o' ->
  not_list (snapshot theme de o').
Proof.
  intros Hc.
  destruct (capture_cases _ _ _ _ Hc)
    as [[Hn ->]|[(des & s0 & Ht & Hd & Hq0 & ->)|(_ & H & -> & _)]];
    [| |exact H].
  - rewrite snapshot_set_same. cbn. now rewrite String.eqb_refl.
  - rewrite snapshot_set_same. now rewrite dict_get_set_same.
Qed.

(** Capturing a value that starts with [qualia] leaves the text of the
    file as it is. *)
Lemma write_old_app (o1 o2 : dict (dict pyval)) (k : Config.output) :
  Config.write_old (o1 ++ o2)%list k
  = Config.write_old o1 (Config.write_old o2 k).
Proof.
  induction o1 as [|[theme des] o1 IH]; cbn; [reflexivity | now rewrite IH].
Qed.

Lemma write_desktops_set (theme de live s : string) (des : dict pyval)
  (k : Config.output) :
  dict_get de des = Some (VStr s) ->
  Str.startswith s "qualia" = true ->
  Str.startswith live "qualia" = true ->
  Config.write_desktops theme (dict_set de (VStr live) des) k
  = Config.write_desktops theme des k.
Proof.
  intros Hd Hs Hl. induction des as [|[de0 v0] des IH]; cbn in *;
    [discriminate |].
  destruct (de =? de0) eqn:E.
  - injection Hd as ->. cbn. rewrite Hs, Hl.
    now rewrite !andb_false_r.
  - cbn. destruct v0 as [s0|l0]; [|reflexivity].
    rewrite (IH Hd). reflexivity.
Qed.

Lemma write_old_set (theme : string) (des des' : dict pyval)
  (o : dict (dict pyval)) (k : Config.output) :
  dict_get theme o = Some des ->
  (forall k', Config.write_desktops theme des' k'
              = Config.write_desktops theme des k') ->
  Config.write_old (dict_set theme des' o) k = Config.write_old o k.
Proof.
  intros Hd Hw. induction o as [|[theme0 des0] o IH]; cbn in *;
    [discriminate |].
  destruct (String.eqb_spec theme theme0) as [->|Hne].
  - injection Hd as ->. cbn. apply Hw.
  - cbn. now rewrite (IH Hd).
Qed.

Lemma capture_quiet (theme de live : string) (o o' : dict (dict pyval))
  (k : Config.output) :
  Str.startswith live "qualia" = true ->
  Enable.capture theme de live o = Ok o' ->
  Config.write_old o' k = Config.write_old o k.
Proof.
  intros Hl Hc.
  destruct (capture_cases _ _ _ _ Hc)
    as [[Hn ->]|[(des & s0 & Ht & Hd & Hq0 & ->)|(_ & _ & -> & _)]];
    [| |reflexivity].
  - rewrite (dict_set_absent _ _ _ Hn), write_old_app. cbn.
    now rewrite Hl, andb_false_r.
  - apply write_old_set with (des := des); [exact Ht |].
    intros k'. now apply write_desktops_set with (s := s0).
Qed.

(** ** Runs *)

Lemma run_cons_inv (a : Plan.action) (l : list Plan.action) (w w' : world) :
  Plan.run (a :: l) w = Ok w' ->
  exists w1, Plan.step a w w1 /\ Plan.run l w1 = Ok w'.
Proof.
  cbn. destruct (Plan.run_action a w) as [w1|e] eqn:E; cbn; [|discriminate].
  intros H. exists w1. split; [now apply run_action_step | exact H].
Qed.

Lemma step_genuine (a : Plan.action) (w w' : world) (theme de s : string) :
  Plan.step a w w' ->
  snapshot theme de (old (w_config w)) = Some (VStr s) ->
  Str.startswith s "qualia" = false ->
  snapshot theme de (old (w_config w')) = Some (VStr s).
Proof.
  intros H Hs Hq.
  destruct H; cbn; try exact Hs;
    eapply capture_keeps_genuine; eassumption.
Qed.

Lemma run_genuine (l : list Plan.action) (w w' : world) (theme de s : string) :
  Plan.run l w = Ok w' ->
  snapshot theme de (old (w_config w)) = Some (VStr s) ->
  Str.startswith s "qualia" = false ->
  snapshot theme de (old (w_config w')) = Some (VStr s).
Proof.
  revert w. induction l as [|a l IH]; intros w H Hs Hq.
  - injection H as <-. exact Hs.
  - apply run_cons_inv in H. destruct H as (w1 & H1 & H2).
    apply (IH w1 H2); [|exact Hq].
    now apply step_genuine with a w.
Qed.

(** Snapshot monotonicity: a genuine snapshot survives every call of the
    engine, whatever the tools, the names, the desktop argument and the
    stores are. *)
Lemma genuine_snapshot_survives (t : tools) (kwargs : dict (option string))
  (desktop : string) (uninstalling : bool) (w w' : world)
  (theme de s : string) :
  Enable.enable_theme t kwargs desktop uninstalling w = Ok w' ->
  snapshot theme de (old (w_config w)) = Some (VStr s) ->
  Str.startswith s "qualia" = false ->
  snapshot theme de (old (w_config w')) = Some (VStr s).
Proof. rewrite enable_theme_plan. apply run_genuine. Qed.

Lemma step_trace (a : Plan.action) (w w' : world) :
  Plan.step a w w' -> exists evs, w_trace w' = (w_trace w ++ evs)%list.
Proof.
  intros H. destruct H; cbn; try (now eexists).
  - eexists. now rewrite <- app_assoc.
  - eexists. now rewrite <- app_assoc.
Qed.

Lemma run_trace (l : list Plan.action) (w w' : world) :
  Plan.run l w = Ok w' -> exists evs, w_trace w' = (w_trace w ++ evs)%list.
Proof.
  revert w. induction l as [|a l IH]; intros w H.
  - injection H as <-. exists []. now rewrite app_nil_r.
  - apply run_cons_inv in H. destruct H as (w1 & H1 & H2).
    destruct (step_trace H1) as [e1 E1]. destruct (IH _ H2) as [e2 E2].
    exists (e1 ++ e2)%list. now rewrite E2, E1, app_assoc.
Qed.

Lemma set_old_id (c : config) : set_old (old c) c = c.
Proof. now destruct c. Qed.

Lemma step_config (a : Plan.action) (w w' : world) :
  Plan.step a w w' -> exists o, w_config w' = set_old o (w_config w).
Proof.
  intros H. destruct H; cbn; try (now eexists).
  exists (old (w_config w)). now rewrite set_old_id.
Qed.

Lemma run_config (l : list Plan.action) (w w' : world) :
  Plan.run l w = Ok w' -> exists o, w_config w' = set_old o (w_config w).
Proof.
  revert w. induction l as [|a l IH]; intros w H.
  - injection H as <-. exists (old (w_config w)). now rewrite set_old_id.
  - apply run_cons_inv in H. destruct H as (w1 & H1 & H2).
    destruct (step_config H1) as [o1 E1]. destruct (IH _ H2) as [o2 E2].
    exists o2. now rewrite E2, E1.
Qed.

Lemma step_not_list (a : Plan.action) (w w' : world) (theme de : string) :
  Plan.step a w w' ->
  not_list (snapshot theme de (old (w_config w))) ->
  not_list (snapshot theme de (old (w_config w'))).
Proof.
  intros H Hs. destruct H; cbn; try exact Hs;
    eapply capture_not_list; eassumption.
Qed.

Section Settling.

Variables (unity : bool) (names : dict (option string)).

Let agrees := agrees unity names.

Lemma step_keeps_wanted_gsettings (a : Plan.action) (w w' : world)
  (schema k : string) :
  agrees a -> Plan.step a w w' ->
  Some (w_gsettings w schema k) = want_gsettings unity names schema k ->
  Some (w_gsettings w' schema k) = want_gsettings unity names schema k.
Proof.
  intros Ha H Hw. destruct H; cbn; try exact Hw.
  unfold store_set.
  destruct (String.eqb_spec schema0 schema) as [->|]; [|exact Hw].
  destruct (String.eqb_spec k0 k) as [->|]; [|exact Hw].
  cbn. exact Ha.
Qed.

Lemma step_keeps_wanted_xfconf (a : Plan.action) (w w' : world)
  (ch p : string) :
  agrees a -> Plan.step a w w' ->
  Some (w_xfconf w ch p) = want_xfconf names ch p ->
  Some (w_xfconf w' ch p) = want_xfconf names ch p.
Proof.
  intros Ha H Hw. destruct H; cbn; try exact Hw.
  unfold store_set.
  destruct (String.eqb_spec ch0 ch) as [->|]; [|exact Hw].
  destruct (String.eqb_spec p0 p) as [->|]; [|exact Hw].
  cbn. exact Ha.
Qed.

Lemma step_settles (a : Plan.action) (w w' : world) :
  Plan.step a w w' -> settled w' a.
Proof.
  intros H. destruct H; cbn.
  - exact I.
  - split; [reflexivity |]. eapply capture_not_list_here; eassumption.
  - split; [unfold store_set; now rewrite !String.eqb_refl |].
    eapply capture_not_list_here; eassumption.
  - split; [reflexivity |]. eapply capture_not_list_here; eassumption.
  - split; [unfold store_set; now rewrite !String.eqb_refl |].
    eapply capture_not_list_here; eassumption.
Qed.

Lemma step_keeps_settled (a b : Plan.action) (w w' : world) :
  agrees a -> agrees b -> Plan.step b w w' -> settled w a -> settled w' a.
Proof.
  intros Ha Hb H Hs.
  destruct a as [e| |theme de schema [k|] [n|]|theme [ch|] p [n|]];
    cbn in Hs |- *; try exact Hs; destruct Hs as [Hv Hl].
  - split; [|now apply step_not_list with b w].
    assert (E : Some (w_gsettings w' schema k)
                = want_gsettings unity names schema k).
    { apply step_keeps_wanted_gsettings with b w; try assumption.
      rewrite Hv. exact Ha. }
    cbn in Ha. rewrite <- Ha in E. now injection E.
  - split; [|now apply step_not_list with b w].
    assert (E : Some (w_xfconf w' ch p) = want_xfconf names ch p).
    { apply step_keeps_wanted_xfconf with b w; try assumption.
      rewrite Hv. exact Ha. }
    cbn in Ha. rewrite <- Ha in E. now injection E.
Qed.

Lemma run_keeps_settled (a : Plan.action) (l : list Plan.action)
  (w w' : world) :
  agrees a -> Forall agrees l -> Plan.run l w = Ok w' ->
  settled w a -> settled w' a.
Proof.
  intros Ha Hl. revert w. induction Hl as [|b l Hb Hl IH]; intros w H Hs.
  - now injection H as <-.
  - apply run_cons_inv in H. destruct H as (w1 & H1 & H2).
    apply (IH w1 H2). now apply step_keeps_settled with b w.
Qed.

(** After a call that went through, every setting the call has visited
    holds the wanted name. *)
Lemma run_settles (l : list Plan.action) (w w' : world) :
  Forall agrees l -> Plan.run l w = Ok w' -> Forall (settled w') l.
Proof.
  intros Hl. revert w. induction Hl as [|a l Ha Hl IH]; intros w H.
  - constructor.
  - apply run_cons_inv in H. destruct H as (w1 & H1 & H2).
    constructor; [|now apply IH with w1].
    apply run_keeps_settled with l w1; try assumption.
    now apply step_settles with w.
Qed.

End Settling.

(** A call on settled settings: nothing is written, and the text of the
    file stays the same. *)
Lemma run_quiet (l : list Plan.action) (w : world) :
  Forall (settled w) l -> Forall qualia_named l ->
  exists w',
    Plan.run l w = Ok w' /\
    w_gsettings w' = w_gsettings w /\
    w_xfconf w' = w_xfconf w /\
    (exists evs, w_trace w' = (w_trace w ++ evs)%list /\
                 existsb Plan.is_set evs = false) /\
    (exists o, w_config w' = set_old o (w_config w)) /\
    (forall k, Config.write_old (old (w_config w')) k
               = Config.write_old (old (w_config w)) k).
Proof.
  revert w. induction l as [|a l IH]; intros w Hs Hq.
  - exists w. repeat split; try reflexivity.
    + exists []. now rewrite app_nil_r.
    + exists (old (w_config w)). now rewrite set_old_id.
  - inversion Hs as [|? ? Ha Hs']; subst. inversion Hq as [|? ? Qa Hq']; subst.
    assert (Step : exists w1 e1,
               Plan.step a w w1 /\
               w_gsettings w1 = w_gsettings w /\
               w_xfconf w1 = w_xfconf w /\
               w_trace w1 = (w_trace w ++ e1)%list /\
               existsb Plan.is_set e1 = false /\
               (forall k, Config.write_old (old (w_config w1)) k
                          = Config.write_old (old (w_config w)) k)).
    { destruct a as [e| |theme de schema [k|] [n|]|theme [ch|] p [n|]];
        cbn in Ha, Qa; try contradiction.
      - exists (log ExtensionEnable w), [ExtensionEnable].
        repeat split. constructor.
      - destruct Ha as [Hv Hl].
        destruct (capture_ok theme de (w_gsettings w schema k) _ Hl)
          as [o Ho].
        eexists. exists [GsettingsGet schema k]. split.
        + rewrite <- Hv.
          exact (@Plan.step_gs_same theme de schema k w o Ho).
        + repeat split. intros k0. cbn.
          apply capture_quiet with theme de (w_gsettings w schema k);
            [now rewrite Hv | exact Ho].
      - destruct Ha as [Hv Hl].
        destruct (capture_ok theme "xfce" (w_xfconf w ch p) _ Hl) as [o Ho].
        eexists. exists [XfconfGet ch p]. split.
        + rewrite <- Hv. exact (@Plan.step_xf_same theme ch p w o Ho).
        + repeat split. intros k0. cbn.
          apply capture_quiet with theme "xfce" (w_xfconf w ch p);
            [now rewrite Hv | exact Ho]. }
    destruct Step as (w1 & e1 & S1 & G1 & X1 & T1 & N1 & O1).
    assert (Hs1 : Forall (settled w1) l).
    { rewrite Forall_forall in Hs' |- *. intros b Hb.
      specialize (Hs' b Hb).
      destruct b as [e| |theme de schema [k|] [n|]|theme [ch|] p [n|]];
        cbn in Hs' |- *; try exact Hs'; destruct Hs' as [Hv Hl].
      - rewrite G1. split; [exact Hv | now apply step_not_list with a w].
      - rewrite X1. split; [exact Hv | now apply step_not_list with a w]. }
    destruct (IH w1 Hs1 Hq')
      as (w' & R & G & X & (e2 & T2 & N2) & (o2 & C2) & O2).
    exists w'. repeat split.
    + cbn. rewrite (step_run_action S1). exact R.
    + now rewrite G.
    + now rewrite X.
    + exists (e1 ++ e2)%list. split.
      * now rewrite T2, T1, app_assoc.
      * rewrite existsb_app, N1, N2. reflexivity.
    + destruct (step_config S1) as [o1 C1].
      exists o2. now rewrite C2, C1.
    + intros k. now rewrite O2, O1.
Qed.

(** ** What the plan holds *)

Lemma dict_get_In (V : Type) (k : string) (v : V) (d : dict V) :
  dict_get k d = Some v -> In (k, v) d.
Proof.
  induction d as [|[k0 v0] d IH]; cbn; [discriminate |].
  destruct (String.eqb_spec k k0) as [->|].
  - intros H. injection H as ->. now left.
  - intros H. right. now apply IH.
Qed.

Lemma data_rows (names : dict (option string)) (theme : string)
  (value : Enable.entry) :
  In (theme, value) (Enable._data names) ->
  exists mk n,
    In (theme, mk) Enable.table /\ dict_get theme names = Some n /\
    value = mk n.
Proof.
  unfold Enable._data. rewrite in_flat_map.
  intros [[th mk] [Hrow Hin]]. cbn in Hin.
  destruct (dict_get th names) as [n|] eqn:E; [|contradiction].
  destruct Hin as [Hin|[]]. injection Hin as <- <-.
  now exists mk, n.
Qed.

Lemma data_gtk3 (names : dict (option string)) (gtk3 : Enable.entry) :
  dict_lookup "gtk3" (Enable._data names) = Ok gtk3 ->
  Enable.theme_name gtk3 = wanted names "gtk3".
Proof.
  unfold dict_lookup.
  destruct (dict_get "gtk3" (Enable._data names)) as [v|] eqn:E;
    [|discriminate].
  intros H. injection H as <-.
  apply dict_get_In, data_rows in E. destruct E as (mk & n & Hrow & Hn & ->).
  unfold wanted. rewrite Hn.
  cbn in Hrow.
  repeat (destruct Hrow as [Hrow|Hrow];
          [injection Hrow as <-; try discriminate; reflexivity |]).
  contradiction.
Qed.

Section Contents.

Variables (t : tools) (desktop : string) (uninstalling : bool)
          (data : dict Enable.entry)
          (dv : dict (option de_version)) (en : option (list string)).

Lemma in_of_schemas (theme : string) (value : Enable.entry)
  (items : dict string) (a : Plan.action) :
  In a (Plan.of_schemas t desktop uninstalling data dv theme value items) ->
  (exists e, a = Plan.Fail e) \/
  (exists de schema name v,
      In (de, schema) items /\
      a = Plan.Gs theme de schema (Enable.key value) name /\
      Plan.name_for uninstalling data theme de value = Ok name /\
      gsettings t = true /\
      ((desktop =? "all") || (desktop =? de)) = true /\
      dict_get de dv = Some (Some v)).
Proof.
  induction items as [|[de schema] items IH]; cbn; [contradiction |].
  assert (Rest :
    In a (Plan.of_schemas t desktop uninstalling data dv theme value items) ->
    (exists e, a = Plan.Fail e) \/
    (exists de0 schema0 name v,
        ((de, schema) = (de0, schema0) \/ In (de0, schema0) items) /\
        a = Plan.Gs theme de0 schema0 (Enable.key value) name /\
        Plan.name_for uninstalling data theme de0 value = Ok name /\
        gsettings t = true /\
        ((desktop =? "all") || (desktop =? de0)) = true /\
        dict_get de0 dv = Some (Some v))).
  { intros H. destruct (IH H) as [F|(de0 & s0 & n0 & v0 & Hin & R)];
      [now left | right].
    exists de0, s0, n0, v0. split; [now right | exact R]. }
  destruct (negb (desktop =? "all") && negb (desktop =? de)) eqn:Hf;
    [exact Rest |].
  destruct (Plan.name_for uninstalling data theme de value) as [name|e] eqn:Hn.
  - destruct (gsettings t) eqn:Hg; [|contradiction].
    unfold dict_lookup.
    destruct (dict_get de dv) as [[v|]|] eqn:Hd; cbn.
    + intros [<-|H]; [|now apply Rest].
      right. exists de, schema, name, v. repeat split; try easy.
      * now left.
      * destruct (desktop =? "all"), (desktop =? de); easy.
    + exact Rest.
    + intros [<-|[]]. left. now eexists.
  - intros [<-|[]]. left. now eexists.
Qed.

Lemma in_of_xfconf (theme : string) (value : Enable.entry) (a : Plan.action) :
  In a (Plan.of_xfconf t dv theme value) ->
  (exists e, a = Plan.Fail e) \/
  (exists p,
      Enable.property value = Some p /\
      a = Plan.Xf theme (Enable.channel value) p (Enable.theme_name value)).
Proof.
  unfold Plan.of_xfconf, dict_lookup.
  destruct (Enable.property value) as [p|]; [|contradiction].
  destruct (dict_get "xfce" dv) as [[v|]|]; cbn.
  - destruct (xfconf_query t); [|contradiction].
    intros [<-|[]]. right. now exists p.
  - contradiction.
  - intros [<-|[]]. left. now eexists.
Qed.

Lemma in_of_one (theme : string) (value : Enable.entry) (a : Plan.action) :
  In a (Plan.of_one t desktop uninstalling data dv en theme value) ->
  (exists e, a = Plan.Fail e) \/ a = Plan.Extension \/
  (exists enabled,
      en = Some enabled /\
      (Str.mem theme enabled || uninstalling) = true /\
      (In a (Plan.of_schemas t desktop uninstalling data dv theme value
               (Enable.schemas value)) \/
       In a (Plan.of_xfconf t dv theme value))).
Proof.
  unfold Plan.of_one.
  destruct en as [enabled|]; [|intros [<-|[]]; left; now eexists].
  destruct (Str.mem theme enabled || uninstalling) eqn:Hm; [|contradiction].
  destruct (Enable.theme_name value) as [n|]; [|contradiction].
  assert (Body :
    In a (Plan.of_schemas t desktop uninstalling data dv theme value
            (Enable.schemas value)
          ++ Plan.of_xfconf t dv theme value) ->
    (exists e, a = Plan.Fail e) \/ a = Plan.Extension \/
    (exists enabled0,
        Some enabled = Some enabled0 /\
        (Str.mem theme enabled0 || uninstalling) = true /\
        (In a (Plan.of_schemas t desktop uninstalling data dv theme value
                 (Enable.schemas value)) \/
         In a (Plan.of_xfconf t dv theme value)))).
  { intros H. apply in_app_or in H. right. right. now exists enabled. }
  destruct (theme =? "gnome-shell"); [|exact Body].
  destruct (gnome_extensions t) as [[listed|]|]; try contradiction.
  destruct (Str.contains Enable.user_theme listed); [|contradiction].
  intros [<-|H]; [right; now left | now apply Body].
Qed.

Lemma in_of_items (items : dict Enable.entry) (a : Plan.action) :
  In a (Plan.of_items t desktop uninstalling data dv en items) ->
  exists theme value,
    In (theme, value) items /\
    In a (Plan.of_one t desktop uninstalling data dv en theme value).
Proof.
  unfold Plan.of_items. rewrite in_flat_map.
  intros [[theme value] [H1 H2]]. now exists theme, value.
Qed.

End Contents.

Lemma opt_eqb_eq (a b : option string) : opt_eqb a b = true -> a = b.
Proof.
  destruct a as [x|], b as [y|]; cbn; try discriminate; try reflexivity.
  intros H. apply String.eqb_eq in H. now subst.
Qed.
Lemma plan_agrees (t : tools) (kwargs : dict (option string))
  (desktop : string) (uninstalling : bool) (c : config) :
  let names := Enable.names_of kwargs in
  icon_clash t names desktop uninstalling c = false ->
  Forall (agrees (unity_icons t names desktop uninstalling c) names)
         (Plan.of_theme t kwargs desktop uninstalling c).
Proof.
  intros names Hclash. rewrite Forall_forall. intros a Ha.
  unfold Plan.of_theme in Ha. fold names in Ha.
  apply in_of_items in Ha. destruct Ha as (theme & value & Hd & Ha).
  apply data_rows in Hd. destruct Hd as (mk & n & Hrow & Hn & ->).
  apply in_of_one in Ha.
  destruct Ha as [[e ->]|[->|(enabled & He & Hm & [Hs|Hx])]];
    [exact I | exact I | |].
  - apply in_of_schemas in Hs.
    destruct Hs as [[e ->]|(de & schema & name & v & Hin & -> & Hname & Hg & Hf & Hdv)];
      [exact I |].
    assert (Hvis : visited t desktop c de = true).
    { unfold visited. now rewrite Hg, Hf, Hdv. }
    clear Hg Hf Hdv.
    cbn in Hrow.
    repeat (destruct Hrow as [Hrow|Hrow]; [|try contradiction]);
      try contradiction;
      injection Hrow as <- <-;
      cbn in Hin;
      repeat (destruct Hin as [Hin|Hin]; [|try contradiction]);
      try contradiction;
      injection Hin as <- <-;
      cbn in Hname |- *;
      try (injection Hname as <-;
           unfold want_gsettings, wanted;
           destruct (unity_icons t names desktop uninstalling c) eqn:Hu;
           cbn; rewrite ?Hn; try reflexivity).
    + exfalso. unfold icon_clash in Hclash. rewrite He, Hu, Hvis in Hclash.
      unfold unity_icons in Hu. destruct uninstalling; [discriminate |].
      rewrite orb_false_r in Hm. now rewrite Hm in Hclash.
    + destruct uninstalling; cbn in Hname.
      * injection Hname as <-. unfold want_gsettings, unity_icons, wanted.
        cbn. now rewrite Hn.
      * destruct (dict_lookup "gtk3" _) as [gtk3|e] eqn:Hg3; [|discriminate].
        cbn in Hname. injection Hname as <-.
        rewrite (data_gtk3 _ Hg3). unfold want_gsettings.
        destruct (unity_icons t names desktop false c) eqn:Hu; cbn;
          [reflexivity |].
        unfold unity_icons in Hu. rewrite Hvis in Hu. cbn in Hu.
        apply negb_false_iff, opt_eqb_eq in Hu. rewrite Hu.
        unfold wanted. now rewrite Hn.
    + exfalso. unfold icon_clash in Hclash. rewrite He, Hu, Hvis in Hclash.
      unfold unity_icons in Hu. destruct uninstalling; [discriminate |].
      rewrite orb_false_r in Hm. rewrite Hm in Hclash.
      now rewrite orb_true_r in Hclash.
  - apply in_of_xfconf in Hx. destruct Hx as [[e ->]|(p & Hp & ->)];
      [exact I |].
    cbn in Hrow.
    repeat (destruct Hrow as [Hrow|Hrow]; [|try contradiction]);
      try contradiction;
      injection Hrow as <- <-; cbn in Hp |- *; try exact I;
      injection Hp as <-; unfold want_xfconf, wanted; cbn;
      now rewrite Hn.
Qed.


(** Every name in the plan starts with [qualia] when the names given to
    [Enable] do. *)
Definition qualia_or_none (x : option string) : bool :=
  match x with
  | Some s => Str.startswith s "qualia"
  | None => true
  end.

Lemma dict_set_forallb (V : Type) (q : V -> bool) (k : string) (v : V)
  (d : dict V) :
  forallb (fun kv => q (snd kv)) d = true -> q v = true ->
  forallb (fun kv => q (snd kv)) (dict_set k v d) = true.
Proof.
  intros Hd Hv. induction d as [|[k0 v0] d IH]; cbn in *.
  - now rewrite Hv.
  - apply andb_true_iff in Hd. destruct Hd as [H0 Hd].
    destruct (k =? k0); cbn.
    + now rewrite Hv, Hd.
    + now rewrite H0, IH.
Qed.

Lemma dict_get_forallb (V : Type) (q : V -> bool) (k : string) (v : V)
  (d : dict V) :
  forallb (fun kv => q (snd kv)) d = true -> dict_get k d = Some v ->
  q v = true.
Proof.
  intros Hd Hg. apply dict_get_In in Hg.
  rewrite forallb_forall in Hd. exact (Hd _ Hg).
Qed.

Lemma names_of_qualia (kwargs : dict (option string)) (k : string)
  (x : option string) :
  qualia_names kwargs = true ->
  dict_get k (Enable.names_of kwargs) = Some x ->
  qualia_or_none x = true.
Proof.
  intros Hq. apply dict_get_forallb. unfold Enable.names_of.
  match goal with
  | |- context [fold_left _ kwargs ?init] =>
      assert (Hinit : forallb (fun kv => qualia_or_none (snd kv)) init = true)
        by reflexivity;
      generalize dependent init
  end.
  unfold qualia_names in Hq.
  induction kwargs as [|[k0 v0] kwargs IH]; intros init Hinit; cbn;
    [exact Hinit |].
  cbn in Hq. apply andb_true_iff in Hq. destruct Hq as [H0 Hq].
  apply (IH Hq). apply dict_set_forallb; [exact Hinit |].
  destruct v0; [exact H0 | reflexivity].
Qed.

Lemma wanted_qualia (kwargs : dict (option string)) (theme : string) :
  qualia_names kwargs = true ->
  qualia_or_none (wanted (Enable.names_of kwargs) theme) = true.
Proof.
  intros Hq. unfold wanted.
  destruct (dict_get theme (Enable.names_of kwargs)) as [x|] eqn:E;
    [|reflexivity].
  now apply names_of_qualia with kwargs theme.
Qed.

Lemma plan_qualia (t : tools) (kwargs : dict (option string))
  (desktop : string) (uninstalling : bool) (c : config) :
  qualia_names kwargs = true ->
  Forall qualia_named (Plan.of_theme t kwargs desktop uninstalling c).
Proof.
  intros Hq. rewrite Forall_forall. intros a Ha.
  unfold Plan.of_theme in Ha.
  apply in_of_items in Ha. destruct Ha as (theme & value & Hd & Ha).
  apply data_rows in Hd. destruct Hd as (mk & n & Hrow & Hn & ->).
  assert (Hv : Enable.theme_name (mk n) = n).
  { cbn in Hrow.
    repeat (destruct Hrow as [Hrow|Hrow]; [|try contradiction]);
      try contradiction; now injection Hrow as <- <-. }
  assert (Hqn : qualia_or_none n = true)
    by now apply names_of_qualia with kwargs theme.
  apply in_of_one in Ha.
  destruct Ha as [[e ->]|[->|(enabled & He & Hm & [Hs|Hx])]];
    [exact I | exact I | |].
  - apply in_of_schemas in Hs.
    destruct Hs as [[e ->]|(de & schema & name & v & _ & -> & Hname & _)];
      [exact I |].
    unfold Plan.name_for in Hname.
    destruct ((theme =? "icons") && (de =? "unity") && negb uninstalling).
    + destruct (dict_lookup "gtk3" _) as [gtk3|e] eqn:Hg3; [|discriminate].
      cbn in Hname. injection Hname as <-. rewrite (data_gtk3 _ Hg3).
      pose proof (@wanted_qualia kwargs "gtk3" Hq) as Hw.
      now destruct (wanted (Enable.names_of kwargs) "gtk3").
    + injection Hname as <-. rewrite Hv. now destruct n.
  - apply in_of_xfconf in Hx. destruct Hx as [[e ->]|(p & Hp & ->)];
      [exact I |].
    cbn. rewrite Hv. now destruct n.
Qed.

Lemma write_text_old (c : config) (o : dict (dict pyval)) :
  (forall k, Config.write_old o k = Config.write_old (old c) k) ->
  Config.write_text (set_old o c) = Config.write_text c.
Proof.
  intros H.
  assert (E : forall groups k,
             Config.write_versions groups (set_old o c) k
             = Config.write_versions groups c k).
  { induction groups as [|g groups IH]; intros k; cbn; [reflexivity |].
    destruct (dict_get (g ++ "_version") (versions c));
      now rewrite IH. }
  unfold Config.write_text.
  cbn [set_old color theme enabled desktop_versions firefox vscode old].
  rewrite E, H. reflexivity.
Qed.

(** ** Reads and writes through xfconf-query *)

Lemma step_xfconf_events (a : Plan.action) (w w' : world) :
  Plan.step a w w' ->
  exists evs,
    w_trace w' = (w_trace w ++ evs)%list /\
    (forall ch p,
        w_xfconf w' ch p = w_xfconf w ch p \/
        In (XfconfSet ch p (w_xfconf w' ch p)) evs) /\
    (forall theme ch p n,
        a = Plan.Xf theme (Some ch) p (Some n) ->
        In (XfconfGet ch p) evs /\
        (w_xfconf w ch p <> n -> In (XfconfSet ch p n) evs)).
Proof.
  intros H.
  destruct H as [w|theme de schema k w o Hc|theme de schema k n w o d Hc Hne Hd Hin
                |theme ch p w o Hc|theme ch p n w o d Hc Hne Hd Hin]; cbn.
  - exists [ExtensionEnable]. repeat split; try (now left); discriminate.
  - exists [GsettingsGet schema k]. repeat split; try (now left);
      discriminate.
  - exists [GsettingsGet schema k; GsettingsSet schema k n].
    rewrite <- app_assoc. repeat split; try (now left); discriminate.
  - exists [XfconfGet ch p]. repeat split; try (now left).
    + injection H as _ <- <- _. now left.
    + injection H as _ <- <- <-. intros E. now contradiction E.
  - exists [XfconfGet ch p; XfconfSet ch p n].
    rewrite <- app_assoc. repeat split.
    + intros ch0 p0. unfold store_set.
      destruct (String.eqb_spec ch ch0) as [->|]; [|now left].
      destruct (String.eqb_spec p p0) as [->|]; [|now left].
      right. cbn. now right; left.
    + injection H as _ <- <- _. now left.
    + injection H as _ <- <- <-. intros _. now right; left.
Qed.

Lemma run_xfconf_events (l : list Plan.action) (w w' : world)
  (theme ch p n : string) :
  Plan.run l w = Ok w' ->
  In (Plan.Xf theme (Some ch) p (Some n)) l ->
  exists evs,
    w_trace w' = (w_trace w ++ evs)%list /\
    In (XfconfGet ch p) evs /\
    (w_xfconf w ch p <> n -> In (XfconfSet ch p n) evs).
Proof.
  revert w. induction l as [|a l IH]; intros w H Hin; [contradiction |].
  apply run_cons_inv in H. destruct H as (w1 & H1 & H2).
  destruct (step_xfconf_events H1) as (e1 & T1 & S1 & A1).
  destruct Hin as [->|Hin].
  - destruct (run_trace _ _ H2) as [e2 T2].
    destruct (A1 theme ch p n eq_refl) as [G W].
    exists (e1 ++ e2)%list. rewrite T2, T1, app_assoc.
    repeat split.
    + apply in_or_app. now left.
    + intros Hne. apply in_or_app. left. now apply W.
  - destruct (IH w1 H2 Hin) as (e2 & T2 & G2 & W2).
    exists (e1 ++ e2)%list. rewrite T2, T1, app_assoc.
    repeat split.
    + apply in_or_app. now right.
    + intros Hne. apply in_or_app.
      destruct (string_dec (w_xfconf w1 ch p) n) as [E|E].
      * left. destruct (S1 ch p) as [Hsame|Hset]; [congruence |].
        now rewrite E in Hset.
      * right. now apply W2.
Qed.

Lemma xfconf_in_plan (t : tools) (desktop : string) (uninstalling : bool)
  (names : dict (option string)) (dv : dict (option de_version))
  (en : list string) (theme : string) (value : Enable.entry)
  (n p : string) (v : de_version) :
  In (theme, value) (Enable._data names) ->
  (Str.mem theme en || uninstalling) = true ->
  Enable.theme_name value = Some n ->
  Enable.property value = Some p ->
  xfconf_query t = true ->
  dict_get "xfce" dv = Some (Some v) ->
  exists ch,
    Enable.channel value = Some ch /\
    In (Plan.Xf theme (Some ch) p (Some n))
       (Plan.of_items t desktop uninstalling (Enable._data names) dv
                      (Some en) (Enable._data names)).
Proof.
  intros Hd Hm Hn Hp Hx Hv.
  assert (Hrow : exists ch, Enable.channel value = Some ch /\
                            (theme =? "gnome-shell") = false).
  { destruct (data_rows _ _ _ Hd) as (mk & n0 & Hrow & _ & ->).
    cbn in Hrow.
    repeat (destruct Hrow as [Hrow|Hrow]; [|try contradiction]);
      try contradiction; injection Hrow as <- <-; cbn in Hp |- *;
      try discriminate; now eexists. }
  destruct Hrow as (ch & Hc & Hg). exists ch. split; [exact Hc |].
  unfold Plan.of_items. rewrite in_flat_map.
  exists (theme, value). split; [exact Hd |].
  cbn. unfold Plan.of_one. rewrite Hm, Hn, Hg.
  apply in_or_app. right.
  unfold Plan.of_xfconf, dict_lookup. rewrite Hp, Hv, Hx, Hc, Hn.
  now left.
Qed.

(** * The claims *)

(** ** Reading the file *)

(** C7 (fails on the code).  [Config.read] raises on a file that holds a
    lone [firefox] line: on every host, a file whose only key line is
    [firefox: standard] makes [read] raise [KeyError], because the line
    appends to [config['enabled']], which no earlier line has created. *)
Theorem read_raises_on_lone_firefox_line (h : host) :
  Config.read false (RegFile ("firefox: standard" ++ Str.nl)) (Config.init h)
  = Raise KeyError.
Proof. reflexivity. Qed.

(** The installer writes such a file itself: a record with nothing
    enabled on a host with a Firefox profile. *)
Example read_raises_on_own_file :
  let c := Sample.configured Sample.firefox_host "blue" "dark" [] in
  snd (Config.write c Absent) = None /\
  Config.read false (fst (Config.write c Absent))
              (Config.init Sample.firefox_host)
  = Raise KeyError.
Proof. split; reflexivity. Qed.

(** Two more lines that [read] does not survive. *)
Example read_raises_on_short_old_key (h : host) :
  Config.read false (RegFile ("old: Adwaita" ++ Str.nl)) (Config.init h)
  = Raise IndexError.
Proof. reflexivity. Qed.

Example read_raises_on_gnome_list (h : host) :
  Config.read false (RegFile ("gnome: 4 3" ++ Str.nl)) (Config.init h)
  = Raise TypeError.
Proof. reflexivity. Qed.

(** C6 (fails on the code).  After [read], the enabled list can hold a
    part that is not eligible: on a host without Cinnamon the line
    [enabled: gtk3 cinnamon-shell] is read as it stands, and
    [cinnamon-shell] is not in [config['enableable']]. *)
Theorem read_keeps_ineligible_part :
  exists c,
    Config.read false (RegFile ("enabled: gtk3 cinnamon-shell" ++ Str.nl))
                (Config.init Sample.gnome_host) = Ok c /\
    enabled c = Some ["gtk3"; "cinnamon-shell"] /\
    Config.in_enableable "cinnamon-shell" (enableable c) = false.
Proof. eexists. repeat split. Qed.

(** The branch for a single name does filter. *)
Example read_drops_ineligible_single_part :
  exists c,
    Config.read false (RegFile ("enabled: cinnamon-shell" ++ Str.nl))
                (Config.init Sample.gnome_host) = Ok c /\
    enabled c = Some [].
Proof. eexists. repeat split. Qed.

(** ** The check of the record in [main] *)

(** C5 (fails on the code).  A record whose variant is [auto] does not
    force a reconfiguration when the colour scheme cannot be detected:
    [theme_variants] returns [False], the test looks for [None], and
    [config['color_scheme']] stays unset, so that the next statement of
    [main] that reads it raises [KeyError]. *)
Theorem unresolved_auto_is_not_reconfigured (h : host) (col part : string)
  (parts : list string) :
  let c := Sample.configured h col "auto" (part :: parts) in
  Main.reconfigures Config.NoGsettings c = (false, c) /\
  Main.reconfigures (Config.Reply "") c = (false, c) /\
  Main.suffix c = Raise KeyError.
Proof. repeat split. Qed.

(** The other defects of a record do lead to [configure]. *)
Example missing_or_empty_is_reconfigured (h : host) (p : Config.probe) :
  fst (Main.reconfigures p (Config.read_reset (Config.init h))) = true /\
  fst (Main.reconfigures p (Sample.configured h "blue" "dark" [])) = true.
Proof. split; reflexivity. Qed.

(** ** Writing the file *)

Lemma write_text_closed (c : config) (col th : string) (en : list string)
  (gnome : option de_version) :
  color c = Some col ->
  theme c = Some th ->
  enabled c = Some en ->
  dict_get "gnome" (desktop_versions c) = Some gnome ->
  all_strings (old c) = true ->
  Config.write_text c = (file_text c col th en gnome, None).
Proof.
  intros Hc Ht He Hg Hs.
  unfold Config.write_text, file_text, dict_lookup.
  rewrite Hc, Ht, He, Hg.
  cbn [Config.get Config.need].
  rewrite write_versions_text.
  unfold Config.emit at 11.
  rewrite (write_old_text _ _ Hs).
  unfold Config.emit. cbn [fst snd].
  fold (version_lines c).
  rewrite !append_assoc. rewrite append_nil_r. reflexivity.
Qed.

(** C9 (as stated, fails).  A directory at the path of the file is not
    refused: [write] removes it and writes the file. *)
Lemma write_removes_a_directory : ~ directory_is_refused Sample.blue_dark.
Proof. intros [H _]. discriminate H. Qed.

(** C9 (amended).  For a dictionary that can be written: a regular
    file at the path (or a symbolic link to one) and a directory that is
    not a symbolic link are removed without any report, and then, as
    when nothing is at the path, the file holds the sections in a fixed
    order: the header, colour, variant and enabled list; the GNOME
    version and the Firefox and VS Code variants; the version of every
    group; the genuine snapshots.  A symbolic link to a directory stops
    [write] with the [OSError] of [shutil.rmtree]; anything else at the
    path (a dangling link, a special file) stops it with the
    [FileExistsError] of [open]; in both cases the path stays as it
    is. *)
Theorem write_at_every_path (c : config) (p : path)
  (col th : string) (en : list string) (gnome : option de_version) :
  color c = Some col ->
  theme c = Some th ->
  enabled c = Some en ->
  dict_get "gnome" (desktop_versions c) = Some gnome ->
  all_strings (old c) = true ->
  Config.write_at c p
  = if Config.isfile p
       || (Config.isdir p && negb (Config.islink p))
       || negb (Config.lexists p)
    then (Plain (RegFile (file_text c col th en gnome)), None)
    else if Config.isdir p then (p, Some OSError)
    else (p, Some FileExistsError).
Proof.
  intros Hc Ht He Hg Hs.
  unfold Config.write_at, Config.clear_path, Config.remove, Config.rmtree.
  rewrite (write_text_closed c Hc Ht He Hg Hs). cbn [fst snd].
  destruct (Config.isfile p) eqn:F; [reflexivity |].
  destruct (Config.isdir p) eqn:D.
  - destruct (Config.islink p) eqn:L; [|reflexivity].
    destruct p as [n| |target]; try discriminate L. reflexivity.
  - cbn [orb andb]. destruct (Config.lexists p); reflexivity.
Qed.

Lemma write_at_every_path_witness :
  Config.write_at Sample.blue_dark (Plain Directory)
  = (Plain (RegFile (file_text Sample.blue_dark "blue" "dark"
                               ["gtk3"; "icons"] (Some (VerInt 43)))),
     None).
Proof.
  apply (@write_at_every_path Sample.blue_dark (Plain Directory)
           "blue" "dark" ["gtk3"; "icons"] (Some (VerInt 43)));
    reflexivity.
Defined.

(** The paths that stop [write]: a symbolic link to a directory, a
    dangling link, a special file; and a symbolic link to a file, which
    does not. *)
Example write_at_other_paths :
  let c := Sample.blue_dark in
  Config.write_at c (Link (Plain Directory))
  = (Link (Plain Directory), Some OSError) /\
  Config.write_at c (Link (Plain Absent))
  = (Link (Plain Absent), Some FileExistsError) /\
  Config.write_at c Special = (Special, Some FileExistsError) /\
  Config.write_at c (Link (Plain (RegFile "")))
  = Config.write_at c (Plain Absent).
Proof. repeat split. Qed.

(** ** Rebuilds *)




(** ** The enablement engine: snapshots *)

(** C1 (fails on the code).  The live value of a pair that has no
    snapshot yet is not always captured: with GNOME and Xfce both
    installed, the GTK theme of GNOME is captured first, and the GTK theme
    of Xfce then finds an entry for [gtk3] without [xfce] in it, a case
    that [enable_theme] passes over; the Xfce setting is changed all the
    same and its former value is lost. *)
Theorem second_desktop_is_not_captured :
  exists w,
    Enable.enable_theme Sample.all_tools (Main.kwargs "blue" "-dark") "all"
      false
      (Sample.fresh
         (Sample.configured Sample.gnome_xfce_host "blue" "dark" ["gtk3"]))
    = Ok w /\
    snapshot "gtk3" "gnome" (old (w_config w)) = Some (VStr "Adwaita") /\
    snapshot "gtk3" "xfce" (old (w_config w)) = None /\
    w_trace w
    = [GsettingsGet "org.gnome.desktop.interface" "gtk-theme";
       GsettingsSet "org.gnome.desktop.interface" "gtk-theme"
                    "qualia-blue-dark";
       XfconfGet "xsettings" "/Net/ThemeName";
       XfconfSet "xsettings" "/Net/ThemeName" "qualia-blue-dark"].
Proof. eexists. split; [vm_compute; reflexivity | repeat split]. Qed.

(** The same case on [capture] alone. *)
Example capture_passes_over_second_desktop (live : string) :
  Enable.capture "gtk3" "xfce" live [("gtk3", [("gnome", VStr "Adwaita")])]
  = Ok [("gtk3", [("gnome", VStr "Adwaita")])].
Proof. reflexivity. Qed.

(** ** The enablement engine: changes *)

(** C8 (as stated, fails).  The engine changes a setting and records
    nothing: [updated] is still unset after the call, and no notice is
    printed. *)
Lemma change_is_not_recorded :
  exists w,
    Enable.enable_theme Sample.all_tools (Main.kwargs "blue" "-dark") "all"
      false
      (Sample.fresh
         (Sample.configured Sample.gnome_host "blue" "dark" ["gtk3"]))
    = Ok w /\
    ~ change_is_recorded w /\
    Main.notice (w_updated w) = [].
Proof.
  eexists. split; [vm_compute; reflexivity |]. split; [|reflexivity].
  intros H. specialize (H eq_refl). discriminate H.
Qed.

(** C8 (amended).  For a pair whose snapshot is not a list and whose
    theme is a key of [config['enableable']], the Apply step reads the
    live value and writes the desired value exactly when the two differ,
    after which the store holds the desired value; this holds for
    gsettings and for xfconf-query.  The engine itself never records a
    change: [updated], which drives the notice, is the same after
    [enable_theme] as before (it is set by the installers, when they
    rebuild). *)
Theorem apply_writes_exactly_when_differs :
  (forall theme de schema k n w d,
      not_list (snapshot theme de (old (w_config w))) ->
      enableable (w_config w) = EDict d ->
      dict_get theme d <> None ->
      exists w',
        Enable.gsettings_apply theme de schema (Some k) (Some n) w = Ok w' /\
        w_trace w'
        = (w_trace w
           ++ GsettingsGet schema k
              :: (if w_gsettings w schema k =? n then []
                  else [GsettingsSet schema k n]))%list /\
        w_gsettings w' schema k = n /\
        w_updated w' = w_updated w) /\
  (forall theme ch p n w d,
      not_list (snapshot theme "xfce" (old (w_config w))) ->
      enableable (w_config w) = EDict d ->
      dict_get theme d <> None ->
      exists w',
        Enable.xfconf_pair theme (Some ch) p (Some n) w = Ok w' /\
        w_trace w'
        = (w_trace w
           ++ XfconfGet ch p
              :: (if w_xfconf w ch p =? n then []
                  else [XfconfSet ch p n]))%list /\
        w_xfconf w' ch p = n /\
        w_updated w' = w_updated w) /\
  (forall t kwargs desktop uninstalling w w',
      Enable.enable_theme t kwargs desktop uninstalling w = Ok w' ->
      w_updated w' = w_updated w /\
      Main.notice (w_updated w') = Main.notice (w_updated w)).
Proof.
  split; [|split].
  - intros theme de schema k n w d Hs He Hd.
    destruct (capture_ok theme de (w_gsettings w schema k) _ Hs) as [o Ho].
    destruct (String.eqb_spec (w_gsettings w schema k) n) as [E|E].
    + eexists. split.
      * apply (step_run_action (a := Plan.Gs theme de schema (Some k) (Some n))).
        rewrite <- E. exact (@Plan.step_gs_same theme de schema k w o Ho).
      * cbn. now rewrite E.
    + eexists. split.
      * apply (step_run_action (a := Plan.Gs theme de schema (Some k) (Some n))).
        exact (@Plan.step_gs_change theme de schema k n w o d Ho E He Hd).
      * cbn. unfold store_set. rewrite !String.eqb_refl. cbn.
        now rewrite <- app_assoc.
  - intros theme ch p n w d Hs He Hd.
    destruct (capture_ok theme "xfce" (w_xfconf w ch p) _ Hs) as [o Ho].
    destruct (String.eqb_spec (w_xfconf w ch p) n) as [E|E].
    + eexists. split.
      * apply (step_run_action (a := Plan.Xf theme (Some ch) p (Some n))).
        rewrite <- E. exact (@Plan.step_xf_same theme ch p w o Ho).
      * cbn. now rewrite E.
    + eexists. split.
      * apply (step_run_action (a := Plan.Xf theme (Some ch) p (Some n))).
        exact (@Plan.step_xf_change theme ch p n w o d Ho E He Hd).
      * cbn. unfold store_set. rewrite !String.eqb_refl. cbn.
        now rewrite <- app_assoc.
  - intros t kwargs desktop uninstalling w w' H.
    rewrite enable_theme_plan in H. apply run_static in H.
    destruct H as (_ & _ & _ & ->). now split.
Qed.

Lemma apply_writes_exactly_when_differs_witness :
  let c := Sample.configured Sample.gnome_host "blue" "dark" ["gtk3"] in
  let w := Sample.fresh c in
  let run :=
    Enable.enable_theme Sample.all_tools (Main.kwargs "blue" "-dark") "all"
                        false w in
  (exists w',
      Enable.gsettings_apply "gtk3" "gnome" "org.gnome.desktop.interface"
        (Some "gtk-theme") (Some "qualia-blue-dark") w = Ok w' /\
      w_trace w'
      = [GsettingsGet "org.gnome.desktop.interface" "gtk-theme";
         GsettingsSet "org.gnome.desktop.interface" "gtk-theme"
                      "qualia-blue-dark"] /\
      w_gsettings w' "org.gnome.desktop.interface" "gtk-theme"
      = "qualia-blue-dark" /\
      w_updated w' = false) /\
  w_updated (after run w) = false /\
  Main.notice (w_updated (after run w)) = [].
Proof.
  intros c w run. split.
  - exact (proj1 apply_writes_exactly_when_differs
             "gtk3" "gnome" "org.gnome.desktop.interface" "gtk-theme"
             "qualia-blue-dark" w (Config.get_enableable Sample.gnome_host)
             I eq_refl ltac:(discriminate)).
  - assert (E : run = Ok (after run w)) by (vm_compute; reflexivity).
    exact (proj2 (proj2 apply_writes_exactly_when_differs)
             Sample.all_tools (Main.kwargs "blue" "-dark") "all" false
             w (after run w) E).
Defined.

(** ** The enablement engine: a second pass *)

(** C3 (as stated, fails).  With GNOME and Unity both installed and the
    light variant, the icons of GNOME are to be [qualia-blue-dark] and the
    icons of Unity [qualia-blue], in one and the same key of
    [org.gnome.desktop.interface]; every pass writes the key twice, the
    second pass included. *)
Lemma second_pass_writes_shared_icon_key :
  exists w1 w2,
    Enable.enable_theme Sample.all_tools (Main.kwargs "blue" "") "all" false
      (Sample.fresh
         (Sample.configured Sample.gnome_unity_host "blue" "light" ["icons"]))
    = Ok w1 /\
    Enable.enable_theme Sample.all_tools (Main.kwargs "blue" "") "all" false
      (again w1)
    = Ok w2 /\
    w_trace w2
    = [GsettingsGet "org.gnome.desktop.interface" "icon-theme";
       GsettingsSet "org.gnome.desktop.interface" "icon-theme"
                    "qualia-blue-dark";
       GsettingsGet "org.gnome.desktop.interface" "icon-theme";
       GsettingsSet "org.gnome.desktop.interface" "icon-theme"
                    "qualia-blue"].
Proof.
  do 2 eexists. split; [vm_compute; reflexivity |].
  split; [vm_compute; reflexivity | reflexivity].
Qed.

(** C3 (amended).  When every name given to the engine starts with
    [qualia] (as the names of [main] do) and no two visited desktops that
    share the icon key of [org.gnome.desktop.interface] are given
    different icon names, a pass that went through is followed, on the
    same dictionary and the same stores, by a pass that goes through,
    writes no setting, leaves both stores as they are, and leaves the file
    that [write] produces byte for byte the same. *)
Theorem second_pass_changes_nothing (t : tools)
  (kwargs : dict (option string)) (desktop : string) (uninstalling : bool)
  (w w1 : world) :
  qualia_names kwargs = true ->
  icon_clash t (Enable.names_of kwargs) desktop uninstalling (w_config w)
  = false ->
  Enable.enable_theme t kwargs desktop uninstalling w = Ok w1 ->
  exists w2,
    Enable.enable_theme t kwargs desktop uninstalling (again w1) = Ok w2 /\
    existsb Plan.is_set (w_trace w2) = false /\
    w_gsettings w2 = w_gsettings w1 /\
    w_xfconf w2 = w_xfconf w1 /\
    forall file,
      Config.write (w_config w2) file = Config.write (w_config w1) file.
Proof.
  intros Hq Hclash H1. rewrite enable_theme_plan in H1.
  pose proof (plan_agrees t kwargs desktop uninstalling (w_config w) Hclash)
    as Hagree.
  cbv zeta in Hagree.
  pose proof (@run_settles _ _ _ w w1 Hagree H1) as Hs.
  pose proof (@run_static _ w w1 H1) as (Hdv & Hen & _).
  assert (Hplan :
    Plan.of_theme t kwargs desktop uninstalling (w_config (again w1))
    = Plan.of_theme t kwargs desktop uninstalling (w_config w)).
  { unfold Plan.of_theme. cbn. now rewrite Hdv, Hen. }
  destruct (@run_quiet
              (Plan.of_theme t kwargs desktop uninstalling (w_config w))
              (again w1))
    as (w2 & R & G & X & (evs & T & N) & (o & C) & O).
  - revert Hs. apply Forall_impl. intros a.
    destruct a as [e| |theme de schema [k|] [n|]|theme [ch|] p [n|]];
      cbn; trivial.
  - now apply plan_qualia.
  - exists w2. rewrite enable_theme_plan, Hplan. repeat split.
    + exact R.
    + cbn in T. now rewrite T.
    + exact G.
    + exact X.
    + intros file. rewrite !write_plain. cbn in C, O.
      rewrite C in O |- *. cbn in O.
      now rewrite (@write_text_old (w_config w1) o O).
Qed.

Lemma second_pass_changes_nothing_witness :
  let w :=
    Sample.fresh
      (Sample.configured Sample.gnome_xfce_host "blue" "dark"
                         ["gtk3"; "icons"; "xfwm4"]) in
  let first :=
    Enable.enable_theme Sample.all_tools (Main.kwargs "blue" "-dark") "all"
                        false w in
  exists w2,
    Enable.enable_theme Sample.all_tools (Main.kwargs "blue" "-dark") "all"
                        false (again (after first w)) = Ok w2 /\
    existsb Plan.is_set (w_trace w2) = false /\
    w_gsettings w2 = w_gsettings (after first w) /\
    w_xfconf w2 = w_xfconf (after first w) /\
    forall file,
      Config.write (w_config w2) file
      = Config.write (w_config (after first w)) file.
Proof.
  intros w first.
  assert (E : first = Ok (after first w)) by (vm_compute; reflexivity).
  assert (C : icon_clash Sample.all_tools
                (Enable.names_of (Main.kwargs "blue" "-dark")) "all" false
                (w_config w) = false) by (vm_compute; reflexivity).
  exact (@second_pass_changes_nothing Sample.all_tools
           (Main.kwargs "blue" "-dark") "all" false w (after first w)
           eq_refl C E).
Defined.

(** The names [main] gives to the engine all start with [qualia]. *)
Lemma main_names_are_qualia (col sfx : string) :
  qualia_names (Main.kwargs col sfx) = true.
Proof.
  unfold Main.kwargs. destruct sfx; destruct (col =? "orange"); reflexivity.
Qed.

(** ** The enablement engine: the desktop argument *)

(** Every [xfconf-query] action of the plan asks for the name of the
    theme that owns the property. *)
Lemma plan_xfconf_wanted (t : tools) (kwargs : dict (option string))
  (desktop : string) (uninstalling : bool) (c : config)
  (theme ch p : string) (name : option string) :
  In (Plan.Xf theme (Some ch) p name)
     (Plan.of_theme t kwargs desktop uninstalling c) ->
  name = want_xfconf (Enable.names_of kwargs) ch p.
Proof.
  intros Ha. unfold Plan.of_theme in Ha.
  apply in_of_items in Ha. destruct Ha as (theme0 & value & Hd & Ha).
  apply data_rows in Hd. destruct Hd as (mk & n & Hrow & Hn & ->).
  apply in_of_one in Ha.
  destruct Ha as [[e E]|[E|(enabled & He & Hm & [Hs|Hx])]];
    try discriminate E.
  - apply in_of_schemas in Hs.
    destruct Hs as [[e E]|(de & schema & name0 & v & _ & E & _)];
      discriminate E.
  - apply in_of_xfconf in Hx. destruct Hx as [[e E]|(p0 & Hp & E)];
      [discriminate E |].
    injection E as <- Hch <- ->.
    cbn in Hrow.
    repeat (destruct Hrow as [Hrow|Hrow]; [|try contradiction]);
      try contradiction;
      injection Hrow as <- <-; cbn in Hp, Hch |- *; try discriminate Hp;
      injection Hp as <-; injection Hch as ->;
      unfold want_xfconf, wanted; cbn; now rewrite Hn.
Qed.

(** One property of xfconf along a pass in which every action on it
    asks for the name [n]: it is written with [n] only, and only when it
    held another value at the start; at the end it holds [n], unless no
    action of the pass is on it. *)
Lemma run_xfconf_pair (l : list Plan.action) (w w' : world)
  (ch p n : string) :
  Plan.run l w = Ok w' ->
  (forall theme name,
      In (Plan.Xf theme (Some ch) p name) l -> name = Some n) ->
  exists evs,
    w_trace w' = (w_trace w ++ evs)%list /\
    (forall x, In (XfconfSet ch p x) evs ->
               x = n /\ w_xfconf w ch p <> n) /\
    (w_xfconf w' ch p = n \/
     (w_xfconf w' ch p = w_xfconf w ch p /\
      forall theme name, ~ In (Plan.Xf theme (Some ch) p name) l)).
Proof.
  revert w. induction l as [|b l IH]; intros w H U.
  - injection H as <-. exists []. rewrite app_nil_r.
    split; [reflexivity |]. split; [intros x [] |].
    right. split; [reflexivity |]. intros theme name [].
  - apply run_cons_inv in H. destruct H as (w1 & H1 & H2).
    assert (U' : forall theme name,
               In (Plan.Xf theme (Some ch) p name) l -> name = Some n)
      by (intros theme name Hin; apply (U theme name); now right).
    destruct (IH w1 H2 U') as (e2 & T2 & S2 & D2). clear IH.
    assert (Other : forall e1,
               w_trace w1 = (w_trace w ++ e1)%list ->
               w_xfconf w1 ch p = w_xfconf w ch p ->
               (forall x, ~ In (XfconfSet ch p x) e1) ->
               (forall theme name, b <> Plan.Xf theme (Some ch) p name) ->
               exists evs,
                 w_trace w' = (w_trace w ++ evs)%list /\
                 (forall x, In (XfconfSet ch p x) evs ->
                            x = n /\ w_xfconf w ch p <> n) /\
                 (w_xfconf w' ch p = n \/
                  (w_xfconf w' ch p = w_xfconf w ch p /\
                   forall theme name,
                     ~ In (Plan.Xf theme (Some ch) p name) (b :: l)))).
    { intros e1 T1 X1 N1 B. exists (e1 ++ e2)%list.
      rewrite T2, T1, app_assoc.
      split; [reflexivity |]. split.
      - intros x Hin. apply in_app_or in Hin.
        destruct Hin as [Hin|Hin]; [now apply N1 in Hin |].
        rewrite <- X1. now apply S2.
      - destruct D2 as [D2|[D2 F2]]; [now left |]. right.
        split; [now rewrite D2 |].
        intros theme name [E|Hin]; [now apply (B theme name) |].
        now apply (F2 theme name). }
    assert (Here : forall e1,
               w_trace w1 = (w_trace w ++ e1)%list ->
               w_xfconf w1 ch p = n ->
               (forall x, In (XfconfSet ch p x) e1 ->
                          x = n /\ w_xfconf w ch p <> n) ->
               exists evs,
                 w_trace w' = (w_trace w ++ evs)%list /\
                 (forall x, In (XfconfSet ch p x) evs ->
                            x = n /\ w_xfconf w ch p <> n) /\
                 (w_xfconf w' ch p = n \/
                  (w_xfconf w' ch p = w_xfconf w ch p /\
                   forall theme name,
                     ~ In (Plan.Xf theme (Some ch) p name) (b :: l)))).
    { intros e1 T1 X1 N1. exists (e1 ++ e2)%list.
      rewrite T2, T1, app_assoc.
      split; [reflexivity |]. split.
      - intros x Hin. apply in_app_or in Hin.
        destruct Hin as [Hin|Hin]; [now apply N1 in Hin |].
        apply S2 in Hin. destruct Hin as [_ Hne]. contradiction.
      - left. destruct D2 as [D2|[D2 _]]; [exact D2 | now rewrite D2]. }
    destruct H1 as [w|theme de schema k w o Hc
                   |theme de schema k n0 w o d Hc Hne Hd Hin
                   |theme ch0 p0 w o Hc|theme ch0 p0 n0 w o d Hc Hne Hd Hin].
    + apply (Other [ExtensionEnable]); try reflexivity.
      * intros x [E|[]]. discriminate E.
      * discriminate.
    + apply (Other [GsettingsGet schema k]); try reflexivity.
      * intros x [E|[]]. discriminate E.
      * discriminate.
    + apply (Other [GsettingsGet schema k; GsettingsSet schema k n0]).
      * cbn. now rewrite <- app_assoc.
      * reflexivity.
      * intros x [E|[E|[]]]; discriminate E.
      * discriminate.
    + destruct (string_dec ch0 ch) as [->|Nc];
        [destruct (string_dec p0 p) as [->|Np] |].
      * apply (Here [XfconfGet ch p]); try reflexivity.
        -- cbn.
           assert (E := U theme (Some (w_xfconf w ch p)) (or_introl eq_refl)).
           now injection E.
        -- intros x [E|[]]. discriminate E.
      * apply (Other [XfconfGet ch p0]); try reflexivity.
        -- intros x [E|[]]. discriminate E.
        -- intros theme' name E. injection E as _ E _. congruence.
      * apply (Other [XfconfGet ch0 p0]); try reflexivity.
        -- intros x [E|[]]. discriminate E.
        -- intros theme' name E. injection E as _ E _ _. congruence.
    + destruct (string_dec ch0 ch) as [->|Nc];
        [destruct (string_dec p0 p) as [->|Np] |].
      * assert (E := U theme (Some n0) (or_introl eq_refl)).
        injection E as ->.
        apply (Here [XfconfGet ch p; XfconfSet ch p n]).
        -- cbn. now rewrite <- app_assoc.
        -- cbn. unfold store_set. now rewrite !String.eqb_refl.
        -- intros x [E|[E|[]]]; [discriminate E |].
           injection E as <-. split; [reflexivity | exact Hne].
      * apply (Other [XfconfGet ch p0; XfconfSet ch p0 n0]).
        -- cbn. now rewrite <- app_assoc.
        -- cbn. unfold store_set. rewrite String.eqb_refl.
           destruct (String.eqb_spec p0 p); [contradiction | reflexivity].
        -- intros x [E|[E|[]]]; [discriminate E |].
           injection E as E _. contradiction.
        -- intros theme' name E. injection E as _ E _. congruence.
      * apply (Other [XfconfGet ch0 p0; XfconfSet ch0 p0 n0]).
        -- cbn. now rewrite <- app_assoc.
        -- cbn. unfold store_set.
           destruct (String.eqb_spec ch0 ch); [contradiction | reflexivity].
        -- intros x [E|[E|[]]]; [discriminate E |].
           injection E as E _ _. contradiction.
        -- intros theme' name E. injection E as _ E _ _. congruence.
Qed.

(** C10.  Whatever the desktop argument is, [all] or the name of any
    desktop, a pass that goes through reads the xfconf property of every
    enabled theme that has one, provided [xfconf-query] is found and Xfce
    is installed; it writes the property exactly when the value found at
    the start of the pass differs from the name of the theme, and with
    that name; after the pass the store holds the name. *)
Theorem xfconf_ignores_desktop_argument (t : tools)
  (kwargs : dict (option string)) (desktop : string) (uninstalling : bool)
  (w w' : world) (theme : string) (value : Enable.entry)
  (en : list string) (n p : string) (v : de_version) :
  Enable.enable_theme t kwargs desktop uninstalling w = Ok w' ->
  In (theme, value) (Enable._data (Enable.names_of kwargs)) ->
  enabled (w_config w) = Some en ->
  (Str.mem theme en || uninstalling) = true ->
  Enable.theme_name value = Some n ->
  Enable.property value = Some p ->
  xfconf_query t = true ->
  dict_get "xfce" (desktop_versions (w_config w)) = Some (Some v) ->
  exists ch evs,
    Enable.channel value = Some ch /\
    w_trace w' = (w_trace w ++ evs)%list /\
    In (XfconfGet ch p) evs /\
    (w_xfconf w ch p <> n -> In (XfconfSet ch p n) evs) /\
    (forall x, In (XfconfSet ch p x) evs ->
               x = n /\ w_xfconf w ch p <> n) /\
    w_xfconf w' ch p = n.
Proof.
  intros H Hd He Hm Hn Hp Hx Hv. rewrite enable_theme_plan in H.
  destruct (@xfconf_in_plan t desktop uninstalling (Enable.names_of kwargs)
              (desktop_versions (w_config w)) en theme value n p v
              Hd Hm Hn Hp Hx Hv) as (ch & Hc & Hin).
  assert (Hplan : In (Plan.Xf theme (Some ch) p (Some n))
                     (Plan.of_theme t kwargs desktop uninstalling
                                    (w_config w)))
    by (unfold Plan.of_theme; now rewrite He).
  destruct (@run_xfconf_events _ w w' theme ch p n H Hplan)
    as (evs & T & G & W).
  assert (U : forall theme0 name,
             In (Plan.Xf theme0 (Some ch) p name)
                (Plan.of_theme t kwargs desktop uninstalling (w_config w)) ->
             name = Some n).
  { intros theme0 name Hin0.
    rewrite (plan_xfconf_wanted _ _ _ _ _ _ _ _ _ Hin0).
    symmetry. exact (plan_xfconf_wanted _ _ _ _ _ _ _ _ _ Hplan). }
  destruct (@run_xfconf_pair _ w w' ch p n H U) as (evs' & T' & S & D).
  assert (E : evs' = evs)
    by (apply (app_inv_head (w_trace w)); now rewrite <- T, <- T').
  subst evs'. exists ch, evs.
  split; [exact Hc |]. split; [exact T |]. split; [exact G |].
  split; [exact W |]. split; [exact S |].
  destruct D as [D|[_ F]]; [exact D |].
  exfalso. exact (F theme (Some n) Hplan).
Qed.

Lemma xfconf_ignores_desktop_argument_witness :
  let w :=
    Sample.fresh
      (Sample.configured Sample.gnome_xfce_host "blue" "dark" ["gtk3"]) in
  let run :=
    Enable.enable_theme Sample.all_tools (Main.kwargs "blue" "-dark") "gnome"
                        false w in
  exists ch evs,
    Some "xsettings" = Some ch /\
    w_trace (after run w) = (w_trace w ++ evs)%list /\
    In (XfconfGet ch "/Net/ThemeName") evs /\
    (w_xfconf w ch "/Net/ThemeName" <> "qualia-blue-dark" ->
     In (XfconfSet ch "/Net/ThemeName" "qualia-blue-dark") evs) /\
    (forall x, In (XfconfSet ch "/Net/ThemeName" x) evs ->
               x = "qualia-blue-dark" /\
               w_xfconf w ch "/Net/ThemeName" <> "qualia-blue-dark") /\
    w_xfconf (after run w) ch "/Net/ThemeName" = "qualia-blue-dark".
Proof.
  intros w run.
  assert (E : run = Ok (after run w)) by (vm_compute; reflexivity).
  refine (@xfconf_ignores_desktop_argument Sample.all_tools
            (Main.kwargs "blue" "-dark") "gnome" false w (after run w)
            "gtk3"
            (Enable.mkEntry Enable.interface_schemas (Some "gtk-theme")
               (Some "/Net/ThemeName") (Some "qualia-blue-dark")
               (Some "xsettings"))
            ["gtk3"] "qualia-blue-dark" "/Net/ThemeName" (VerInt 4)
            E _ eq_refl eq_refl eq_refl eq_refl eq_refl eq_refl).
  vm_compute. now left.
Defined.

(** * Further properties of the code *)

(** ** The enablement engine *)

(** [enable_theme] changes no key of the dictionary but [old]. *)
Theorem enable_theme_changes_snapshots_only (t : tools)
  (kwargs : dict (option string)) (desktop : string) (uninstalling : bool)
  (w w' : world) :
  Enable.enable_theme t kwargs desktop uninstalling w = Ok w' ->
  exists o, w_config w' = set_old o (w_config w).
Proof. rewrite enable_theme_plan. apply run_config. Qed.

Lemma enable_theme_changes_snapshots_only_witness :
  let w :=
    Sample.fresh
      (Sample.configured Sample.gnome_xfce_host "blue" "dark" ["gtk3"]) in
  let run :=
    Enable.enable_theme Sample.all_tools (Main.kwargs "blue" "-dark") "all"
                        false w in
  exists o, w_config (after run w) = set_old o (w_config w).
Proof.
  intros w run.
  assert (E : run = Ok (after run w)) by (vm_compute; reflexivity).
  exact (@enable_theme_changes_snapshots_only Sample.all_tools
           (Main.kwargs "blue" "-dark") "all" false w (after run w) E).
Defined.




(** Every command in the trace is run by an action of the plan. *)
Lemma step_origin (a : Plan.action) (w w' : world) :
  Plan.step a w w' ->
  exists evs, w_trace w' = (w_trace w ++ evs)%list /\
              forall ev, In ev evs -> origin a ev.
Proof.
  intros H.
  destruct H as [w|theme de schema k w o Hc|theme de schema k n w o d Hc Hne Hd Hin
                |theme ch p w o Hc|theme ch p n w o d Hc Hne Hd Hin]; cbn.
  - exists [ExtensionEnable]. split; [reflexivity |].
    intros ev [<-|[]]. reflexivity.
  - exists [GsettingsGet schema k]. split; [reflexivity |].
    intros ev [<-|[]]. cbn. now do 3 eexists.
  - exists [GsettingsGet schema k; GsettingsSet schema k n].
    split; [now rewrite <- app_assoc |].
    intros ev [<-|[<-|[]]]; cbn; [now do 3 eexists | now do 2 eexists].
  - exists [XfconfGet ch p]. split; [reflexivity |].
    intros ev [<-|[]]. cbn. now do 2 eexists.
  - exists [XfconfGet ch p; XfconfSet ch p n].
    split; [now rewrite <- app_assoc |].
    intros ev [<-|[<-|[]]]; cbn; [now do 2 eexists | now eexists].
Qed.

Lemma run_origin (l : list Plan.action) (w w' : world) :
  Plan.run l w = Ok w' ->
  exists evs, w_trace w' = (w_trace w ++ evs)%list /\
              forall ev, In ev evs -> exists a, In a l /\ origin a ev.
Proof.
  revert w. induction l as [|a l IH]; intros w H.
  - injection H as <-. exists []. split; [now rewrite app_nil_r |].
    intros ev [].
  - apply run_cons_inv in H. destruct H as (w1 & H1 & H2).
    destruct (step_origin H1) as (e1 & T1 & O1).
    destruct (IH _ H2) as (e2 & T2 & O2).
    exists (e1 ++ e2)%list. split; [now rewrite T2, T1, app_assoc |].
    intros ev Hev. apply in_app_or in Hev. destruct Hev as [Hev|Hev].
    + exists a. split; [now left | now apply O1].
    + destruct (O2 _ Hev) as (b & Hb & Ob). exists b. split;
        [now right | exact Ob].
Qed.

(** The Skip rule for gsettings: every [gsettings] command of a call
    that goes through is on the schema and key that an entry of [_data]
    gives for a desktop which is detected and passes the desktop
    argument, for a theme that is enabled (or any theme when
    uninstalling). *)
Theorem gsettings_commands_are_for_visited_pairs (t : tools)
  (kwargs : dict (option string)) (desktop : string) (uninstalling : bool)
  (w w' : world) :
  Enable.enable_theme t kwargs desktop uninstalling w = Ok w' ->
  exists evs,
    w_trace w' = (w_trace w ++ evs)%list /\
    forall schema k,
      In (GsettingsGet schema k) evs \/
      (exists v, In (GsettingsSet schema k v) evs) ->
      gsettings t = true /\
      exists theme value de ver en,
        In (theme, value) (Enable._data (Enable.names_of kwargs)) /\
        enabled (w_config w) = Some en /\
        (Str.mem theme en || uninstalling) = true /\
        In (de, schema) (Enable.schemas value) /\
        Enable.key value = Some k /\
        dict_get de (desktop_versions (w_config w)) = Some (Some ver) /\
        ((desktop =? "all") || (desktop =? de)) = true.
Proof.
  intros H. rewrite enable_theme_plan in H.
  destruct (run_origin _ _ H) as (evs & T & O).
  exists evs. split; [exact T |].
  intros schema k Hev.
  assert (Ha : exists theme de name,
             In (Plan.Gs theme de schema (Some k) name)
                (Plan.of_theme t kwargs desktop uninstalling (w_config w))).
  { destruct Hev as [Hev|[v Hev]]; destruct (O _ Hev) as (a & Hin & Oa);
      cbn in Oa.
    - destruct Oa as (theme & de & name & ->). now exists theme, de, name.
    - destruct Oa as (theme & de & ->). now exists theme, de, (Some v). }
  destruct Ha as (theme & de & name & Ha).
  unfold Plan.of_theme in Ha. apply in_of_items in Ha.
  destruct Ha as (theme' & value & Hd & Ha). apply in_of_one in Ha.
  destruct Ha as [[e Ha]|[Ha|(en & He & Hm & [Hs|Hx])]]; try discriminate.
  - apply in_of_schemas in Hs.
    destruct Hs as [[e Hs]|(de' & schema' & name' & ver & Hin & Hs & _ & Hg & Hf & Hv)];
      [discriminate |].
    injection Hs as <- <- <- Hk <-. split; [exact Hg |].
    exists theme, value, de, ver, en. now repeat split.
  - apply in_of_xfconf in Hx. destruct Hx as [[e Hx]|(p & _ & Hx)];
      discriminate.
Qed.

Lemma gsettings_commands_are_for_visited_pairs_witness :
  let w :=
    Sample.fresh
      (Sample.configured Sample.gnome_xfce_host "blue" "dark" ["gtk3"]) in
  let run :=
    Enable.enable_theme Sample.all_tools (Main.kwargs "blue" "-dark") "all"
                        false w in
  exists evs,
    w_trace (after run w) = (w_trace w ++ evs)%list /\
    forall schema k,
      In (GsettingsGet schema k) evs \/
      (exists v, In (GsettingsSet schema k v) evs) ->
      gsettings Sample.all_tools = true /\
      exists theme value de ver en,
        In (theme, value)
           (Enable._data (Enable.names_of (Main.kwargs "blue" "-dark"))) /\
        enabled (w_config w) = Some en /\
        (Str.mem theme en || false) = true /\
        In (de, schema) (Enable.schemas value) /\
        Enable.key value = Some k /\
        dict_get de (desktop_versions (w_config w)) = Some (Some ver) /\
        (("all" =? "all") || ("all" =? de)) = true.
Proof.
  intros w run.
  assert (E : run = Ok (after run w)) by (vm_compute; reflexivity).
  exact (@gsettings_commands_are_for_visited_pairs Sample.all_tools
           (Main.kwargs "blue" "-dark") "all" false w (after run w) E).
Defined.

Lemma run_no_fail (l : list Plan.action) (w w' : world) (e : exn) :
  Plan.run l w = Ok w' -> ~ In (Plan.Fail e) l.
Proof.
  revert w. induction l as [|a l IH]; intros w H Hin; [exact Hin |].
  destruct Hin as [Ha|Ha].
  - subst a. discriminate H.
  - apply run_cons_inv in H. destruct H as (w1 & _ & H2).
    exact (IH _ H2 Ha).
Qed.

Lemma gsettings_in_schemas (t : tools) (desktop : string)
  (uninstalling : bool) (data : dict Enable.entry)
  (dv : dict (option de_version)) (theme : string) (value : Enable.entry)
  (items : dict string) (de schema : string) (v : de_version) :
  (forall e, ~ In (Plan.Fail e)
                  (Plan.of_schemas t desktop uninstalling data dv theme value
                                   items)) ->
  In (de, schema) items ->
  ((desktop =? "all") || (desktop =? de)) = true ->
  gsettings t = true ->
  dict_get de dv = Some (Some v) ->
  exists name,
    Plan.name_for uninstalling data theme de value = Ok name /\
    In (Plan.Gs theme de schema (Enable.key value) name)
       (Plan.of_schemas t desktop uninstalling data dv theme value items).
Proof.
  intros Hnf Hin Hf Hg Hv.
  induction items as [|[de0 schema0] items IH]; [contradiction |].
  cbn in Hnf |- *.
  destruct Hin as [Hin|Hin].
  - injection Hin as -> ->.
    replace (negb (desktop =? "all") && negb (desktop =? de)) with false
      in * by (destruct (desktop =? "all"), (desktop =? de); easy).
    destruct (Plan.name_for uninstalling data theme de value) as [name|e];
      [|exfalso; apply (Hnf e); now left].
    rewrite Hg. unfold dict_lookup. rewrite Hv.
    exists name. split; [reflexivity | now left].
  - destruct (negb (desktop =? "all") && negb (desktop =? de0));
      [now apply IH |].
    destruct (Plan.name_for uninstalling data theme de0 value) as [name0|e];
      [|exfalso; apply (Hnf e); now left].
    rewrite Hg in *. unfold dict_lookup in *.
    destruct (dict_get de0 dv) as [[v0|]|].
    + assert (Hnf' : forall e,
                ~ In (Plan.Fail e)
                     (Plan.of_schemas t desktop uninstalling data dv theme
                                      value items))
        by (intros e He; apply (Hnf e); now right).
      destruct (IH Hnf' Hin) as (name & Hn & Ha).
      exists name. split; [exact Hn | now right].
    + now apply IH.
    + exfalso. apply (Hnf KeyError). now left.
Qed.

(** The postcondition of a call that goes through, when no two visited
    desktops are given different icon names for the key they share: in
    every pair visited for an enabled theme the setting holds the name
    wanted for the pair. *)
Theorem visited_settings_hold_wanted_names (t : tools)
  (kwargs : dict (option string)) (desktop : string) (uninstalling : bool)
  (w w' : world) (theme : string) (value : Enable.entry)
  (en : list string) (n0 de schema : string) :
  Enable.enable_theme t kwargs desktop uninstalling w = Ok w' ->
  icon_clash t (Enable.names_of kwargs) desktop uninstalling (w_config w)
  = false ->
  In (theme, value) (Enable._data (Enable.names_of kwargs)) ->
  enabled (w_config w) = Some en ->
  (Str.mem theme en || uninstalling) = true ->
  Enable.theme_name value = Some n0 ->
  shell_ready t theme = true ->
  In (de, schema) (Enable.schemas value) ->
  visited t desktop (w_config w) de = true ->
  exists k n,
    Enable.key value = Some k /\
    Plan.name_for uninstalling (Enable._data (Enable.names_of kwargs))
                  theme de value = Ok (Some n) /\
    w_gsettings w' schema k = n.
Proof.
  intros H Hclash Hd He Hm Hn Hr Hin Hv.
  rewrite enable_theme_plan in H.
  pose proof (plan_agrees t kwargs desktop uninstalling (w_config w) Hclash)
    as Hagree.
  cbv zeta in Hagree.
  pose proof (@run_settles _ _ _ w w' Hagree H) as Hs.
  set (data := Enable._data (Enable.names_of kwargs)) in *.
  set (dv := desktop_versions (w_config w)) in *.
  assert (Sub : forall a,
    In a (Plan.of_schemas t desktop uninstalling data dv theme value
                          (Enable.schemas value)) ->
    In a (Plan.of_theme t kwargs desktop uninstalling (w_config w))).
  { intros a Ha. unfold Plan.of_theme, Plan.of_items. fold data dv.
    rewrite in_flat_map. exists (theme, value). split; [exact Hd |].
    cbn. unfold Plan.of_one. rewrite He, Hm, Hn.
    unfold shell_ready in Hr.
    destruct (theme =? "gnome-shell"); cbn in Hr.
    - destruct (gnome_extensions t) as [[listed|]|]; try discriminate.
      rewrite Hr. right. apply in_or_app. now left.
    - apply in_or_app. now left. }
  unfold visited in Hv. fold dv in Hv.
  destruct (gsettings t) eqn:Hg; [|discriminate].
  destruct ((desktop =? "all") || (desktop =? de)) eqn:Hf; [|discriminate].
  destruct (dict_get de dv) as [[ver|]|] eqn:Hdv; try discriminate.
  destruct (@gsettings_in_schemas t desktop uninstalling data dv theme value
              (Enable.schemas value) de schema ver) as (name & Hname & Ha);
    try assumption.
  { intros e Hf'. apply (@run_no_fail _ w w' e H). now apply Sub. }
  rewrite Forall_forall in Hs. specialize (Hs _ (Sub _ Ha)).
  cbn in Hs.
  destruct (Enable.key value) as [k|]; [|contradiction].
  destruct name as [n|]; [|contradiction].
  destruct Hs as [Hs _]. now exists k, n.
Qed.

Lemma visited_settings_hold_wanted_names_witness :
  let w :=
    Sample.fresh
      (Sample.configured Sample.gnome_unity_host "blue" "dark" ["icons"]) in
  let run :=
    Enable.enable_theme Sample.all_tools (Main.kwargs "blue" "-dark") "all"
                        false w in
  exists k n,
    Some "icon-theme" = Some k /\
    Plan.name_for false
      (Enable._data (Enable.names_of (Main.kwargs "blue" "-dark")))
      "icons" "unity"
      (Enable.mkEntry Enable.interface_schemas (Some "icon-theme")
         (Some "/Net/IconThemeName") (Some "qualia-blue-dark")
         (Some "xsettings"))
    = Ok (Some n) /\
    w_gsettings (after run w) "org.gnome.desktop.interface" k = n.
Proof.
  intros w run.
  assert (E : run = Ok (after run w)) by (vm_compute; reflexivity).
  assert (C : icon_clash Sample.all_tools
                (Enable.names_of (Main.kwargs "blue" "-dark")) "all" false
                (w_config w) = false) by (vm_compute; reflexivity).
  refine (@visited_settings_hold_wanted_names Sample.all_tools
            (Main.kwargs "blue" "-dark") "all" false w (after run w)
            "icons"
            (Enable.mkEntry Enable.interface_schemas (Some "icon-theme")
               (Some "/Net/IconThemeName") (Some "qualia-blue-dark")
               (Some "xsettings"))
            ["icons"] "qualia-blue-dark" "unity"
            "org.gnome.desktop.interface"
            E C _ eq_refl eq_refl eq_refl eq_refl _ eq_refl);
    vm_compute; tauto.
Defined.

(** ** Eligibility: [Config.get_enableable] *)

Lemma dict_mem_cons (V : Type) (x k : string) (v : V) (d : dict V) :
  dict_mem x ((k, v) :: d) = (x =? k) || dict_mem x d.
Proof. reflexivity. Qed.

Lemma dict_mem_del (V : Type) (x k : string) (d : dict V) :
  uniq (dict_keys d) = true ->
  dict_mem x (dict_del k d) = dict_mem x d && negb (x =? k).
Proof.
  induction d as [|[k0 v0] d IH]; cbn [dict_del dict_keys map fst uniq];
    intros Hu; [reflexivity |].
  apply andb_true_iff in Hu. destruct Hu as [Hk Hu].
  destruct (String.eqb_spec k k0) as [->|Hne].
  - rewrite dict_mem_cons.
    destruct (String.eqb_spec x k0) as [->|Hx]; cbn.
    + unfold dict_mem, dict_keys. apply negb_true_iff in Hk. now rewrite Hk.
    + now rewrite andb_true_r.
  - rewrite !dict_mem_cons, (IH Hu).
    destruct (String.eqb_spec x k0) as [->|Hx]; cbn; [|reflexivity].
    destruct (String.eqb_spec k0 k); [congruence | reflexivity].
Qed.

Lemma uniq_del (V : Type) (k : string) (d : dict V) :
  uniq (dict_keys d) = true -> uniq (dict_keys (dict_del k d)) = true.
Proof.
  induction d as [|[k0 v0] d IH]; intros Hu; [reflexivity |].
  change (negb (Str.mem k0 (dict_keys d)) && uniq (dict_keys d) = true) in Hu.
  apply andb_true_iff in Hu. destruct Hu as [Hk Hu].
  cbn [dict_del]. destruct (k =? k0); [exact Hu |].
  change (negb (dict_mem k0 (dict_del k d))
          && uniq (dict_keys (dict_del k d)) = true).
  rewrite (IH Hu), andb_true_r, (dict_mem_del _ _ _ Hu).
  unfold dict_mem. apply negb_true_iff in Hk. now rewrite Hk.
Qed.

Lemma desktops_deleted (ds : dict (option de_version)) (x : string)
  (acc : dict string) :
  uniq (dict_keys acc) = true ->
  let acc' :=
    fold_left
      (fun acc d =>
         match snd d, Config.desktop_part (fst d) with
         | None, Some part => dict_del part acc
         | _, _ => acc
         end)
      ds acc in
  uniq (dict_keys acc') = true /\
  dict_mem x acc'
  = dict_mem x acc
    && negb (existsb
               (fun d =>
                  match snd d with
                  | None => opt_eqb (Config.desktop_part (fst d)) (Some x)
                  | Some _ => false
                  end)
               ds).
Proof.
  revert acc. induction ds as [|[de v] ds IH]; intros acc Hu.
  - cbn. split; [exact Hu | now rewrite andb_true_r].
  - cbn [fold_left existsb snd fst].
    destruct v as [v|].
    + cbn [orb]. now apply IH.
    + destruct (Config.desktop_part de) as [part|].
      * destruct (IH (dict_del part acc) (uniq_del _ _ Hu)) as [U M].
        cbv zeta in U, M |- *.
        split; [exact U |]. rewrite M, (dict_mem_del _ _ _ Hu).
        cbn [opt_eqb]. rewrite (String.eqb_sym part x).
        now rewrite negb_orb, andb_assoc.
      * cbn [opt_eqb orb]. now apply IH.
Qed.

(** A part is eligible exactly when it is one of the known parts and
    [get_enableable] has no reason to take it away: its desktop is
    detected, its directory (Firefox, VS Code) exists, its program (snap)
    is found. *)
Theorem eligible_exactly_when_not_removed (h : host) (x : string) :
  dict_mem x (Config.get_enableable h)
  = dict_mem x Config.all_parts && negb (removed h x).
Proof.
  unfold Config.get_enableable, removed.
  assert (U0 : uniq (dict_keys Config.all_parts) = true) by reflexivity.
  destruct (desktops_deleted (h_desktops h) x Config.all_parts U0)
    as [U1 M1].
  cbv zeta in U1, M1.
  set (e1 := fold_left _ (h_desktops h) Config.all_parts) in *.
  set (e2 := if (List.length (h_firefox h) =? 0)%nat
             then dict_del "firefox" e1 else e1).
  assert (U2 : uniq (dict_keys e2) = true)
    by (unfold e2; destruct (List.length (h_firefox h) =? 0)%nat;
        [now apply uniq_del | exact U1]).
  assert (M2 : dict_mem x e2
               = dict_mem x e1
                 && negb ((x =? "firefox")
                          && (List.length (h_firefox h) =? 0)%nat)).
  { unfold e2. destruct (List.length (h_firefox h) =? 0)%nat.
    - rewrite (dict_mem_del _ _ _ U1). now rewrite andb_true_r.
    - now rewrite andb_false_r, andb_true_r. }
  set (e3 := if (List.length (h_vscode h) =? 0)%nat
             then dict_del "vscode" e2 else e2).
  assert (U3 : uniq (dict_keys e3) = true)
    by (unfold e3; destruct (List.length (h_vscode h) =? 0)%nat;
        [now apply uniq_del | exact U2]).
  assert (M3 : dict_mem x e3
               = dict_mem x e2
                 && negb ((x =? "vscode")
                          && (List.length (h_vscode h) =? 0)%nat)).
  { unfold e3. destruct (List.length (h_vscode h) =? 0)%nat.
    - rewrite (dict_mem_del _ _ _ U2). now rewrite andb_true_r.
    - now rewrite andb_false_r, andb_true_r. }
  destruct (h_snap h); cbn [negb].
  - rewrite M3, M2, M1, andb_false_r, orb_false_r.
    rewrite !negb_orb, !andb_assoc. reflexivity.
  - rewrite (dict_mem_del _ _ _ U3), M3, M2, M1, andb_true_r.
    rewrite !negb_orb, !andb_assoc. reflexivity.
Qed.



(** ** The build options *)

Lemma in_fold_push (A B : Type) (f : list A -> B -> list A) (x : A)
  (l : list B) (acc : list A) :
  (forall a b, In x a -> In x (f a b)) ->
  In x acc -> In x (fold_left f l acc).
Proof.
  intros Hf. revert acc. induction l as [|b l IH]; intros acc H; cbn;
    [exact H |].
  apply IH. now apply Hf.
Qed.

(** [InstallDgYaru] always builds with the panel icons: the test looks
    for the keys [unity] and [mate] in the dictionary of the desktops,
    and [get_desktops] sets both keys whether or not the desktops are
    found. *)
Theorem yaru_panel_icons_always_on (p : probes) (parts : list string) :
  exists options,
    Options.dg_yaru parts (get_desktops p) = Ok options /\
    In "-Dpanel-icons=true" options.
Proof.
  unfold Options.dg_yaru.
  assert (Hu : dict_mem "unity" (get_desktops p) = true) by reflexivity.
  assert (Hg : dict_lookup "gnome" (get_desktops p) = Ok (gnome_shell p))
    by reflexivity.
  rewrite Hu, Hg. cbn [orb bind].
  eexists. split; [reflexivity |].
  destruct (gnome_shell p); unfold push.
  - apply in_or_app. left. apply in_or_app. right. now left.
  - apply in_or_app. right. now left.
Qed.

(** Under the test [main] makes before it runs [InstallDgAdwGtk3], the
    options say [gtk3=true] exactly when [gtk3] is enabled and
    [gtk4=true] exactly when [gtk4-libadwaita] is. *)
Theorem adw_gtk3_options_follow_enabled (en : list string) :
  Options.installs_dg_adw_gtk3 en = true ->
  (In "-Dgtk3=true" (Options.dg_adw_gtk3 en) <-> Str.mem "gtk3" en = true) /\
  (In "-Dgtk4=true" (Options.dg_adw_gtk3 en)
   <-> Str.mem "gtk4-libadwaita" en = true) /\
  (In "-Dgtk3=false" (Options.dg_adw_gtk3 en) <-> Str.mem "gtk3" en = false) /\
  (In "-Dgtk4=false" (Options.dg_adw_gtk3 en)
   <-> Str.mem "gtk4-libadwaita" en = false).
Proof.
  unfold Options.installs_dg_adw_gtk3, Options.dg_adw_gtk3.
  destruct (Str.mem "gtk3" en), (Str.mem "gtk4-libadwaita" en); cbn;
    intros H; try discriminate H;
    repeat split; intros H'; try reflexivity; try discriminate H';
    try (now left); try (now right; left);
    repeat (destruct H' as [H'|H']; try discriminate H'); try contradiction.
Qed.

Lemma adw_gtk3_options_follow_enabled_witness :
  (In "-Dgtk3=true" (Options.dg_adw_gtk3 ["gtk4-libadwaita"])
   <-> Str.mem "gtk3" ["gtk4-libadwaita"] = true) /\
  (In "-Dgtk4=true" (Options.dg_adw_gtk3 ["gtk4-libadwaita"])
   <-> Str.mem "gtk4-libadwaita" ["gtk4-libadwaita"] = true) /\
  (In "-Dgtk3=false" (Options.dg_adw_gtk3 ["gtk4-libadwaita"])
   <-> Str.mem "gtk3" ["gtk4-libadwaita"] = false) /\
  (In "-Dgtk4=false" (Options.dg_adw_gtk3 ["gtk4-libadwaita"])
   <-> Str.mem "gtk4-libadwaita" ["gtk4-libadwaita"] = false).
Proof.
  apply (@adw_gtk3_options_follow_enabled ["gtk4-libadwaita"]). reflexivity.
Defined.

(** ** [check_path] *)

Lemma fold_last (f : result bool -> string -> result bool)
  (g : string -> bool) (l : list string) (exist : bool) :
  (forall e p, f (Ok e) p = Ok (g p)) ->
  fold_left f l (Ok exist)
  = Ok (match rev l with p :: _ => g p | [] => exist end).
Proof.
  intros Hf. revert exist. induction l as [|p l IH]; intros exist;
    [reflexivity |].
  cbn [fold_left]. rewrite Hf, IH. cbn [rev].
  destruct (rev l) as [|q r]; reflexivity.
Qed.

(** For every name but [icons], [check_path] returns what
    [os.path.exists] says of the last path listed for the name, and
    [False] when none is listed: a theme that is installed under an
    earlier path only is reported as not installed. *)
Theorem check_path_reports_last_path (fs : string -> bool) (name : string)
  (paths : dict (list path_item)) (items : list path_item) :
  name <> "icons" ->
  dict_get name paths = Some items ->
  Paths.check_path fs name paths
  = Ok (match rev (flatten items) with p :: _ => fs p | [] => false end).
Proof.
  intros Hne Hd. unfold Paths.check_path, dict_lookup. rewrite Hd.
  cbn [bind].
  assert (Hn : (name =? "icons") = false)
    by (destruct (String.eqb_spec name "icons"); [contradiction | easy]).
  rewrite Hn. clear Hd.
  generalize false as exist.
  induction items as [|i items IH]; intros exist; [reflexivity |].
  cbn [fold_left bind]. destruct i as [p|l].
  - rewrite IH. cbn [flatten flat_map app rev].
    fold (flatten items). destruct (rev (flatten items)); reflexivity.
  - rewrite (@fold_last _ fs l exist) by reflexivity.
    rewrite IH. cbn [flatten flat_map]. fold (flatten items).
    rewrite rev_app_distr.
    destruct (rev (flatten items)) as [|q r]; [|reflexivity].
    cbn [app]. reflexivity.
Qed.

Lemma check_path_reports_last_path_witness :
  Paths.check_path (fun p => p =? "/usr/share/themes/qualia") "gtk3"
    [("gtk3", [One "/usr/share/themes/qualia";
               Many ["/home/u/.local/share/themes/qualia"]])]
  = Ok false.
Proof.
  apply (@check_path_reports_last_path
           (fun p => p =? "/usr/share/themes/qualia") "gtk3"
           [("gtk3", [One "/usr/share/themes/qualia";
                      Many ["/home/u/.local/share/themes/qualia"]])]
           [One "/usr/share/themes/qualia";
            Many ["/home/u/.local/share/themes/qualia"]]);
    [discriminate | reflexivity].
Defined.

(** ** The prompts: [configure] *)

Unset Implicit Arguments.

Lemma theme_variants_false (p : Config.probe) (pref : string)
  (c c' : config) :
  Config.theme_variants p pref c = (false, c') -> c' = c.
Proof.
  unfold Config.theme_variants.
  destruct (pref =? "auto").
  - destruct p as [|s]; [now intros [= <-] |].
    destruct (s =? "prefer-dark"); [discriminate |].
    destruct (s =? "default"); [discriminate | now intros [= <-]].
  - destruct (pref =? "light"); [discriminate |].
    destruct (pref =? "dark"); discriminate.
Qed.

Lemma theme_variants_config (p : Config.probe) (pref : string)
  (c c' : config) (b : bool) :
  Config.theme_variants p pref c = (b, c') ->
  exists cs, c' = set_color_scheme cs c.
Proof.
  unfold Config.theme_variants. intros H.
  assert (Id : c = set_color_scheme (color_scheme c) c) by now destruct c.
  repeat match type of H with
         | (if ?x then _ else _) = _ => destruct x
         | match ?x with _ => _ end = _ => destruct x
         end;
    injection H as <- <-; eauto.
Qed.

Lemma menu_choice_in (array : list string) (ret : option string)
  (val r : string) :
  (forall x, ret = Some x -> In x array) ->
  Prompt.menu_choice array ret val = Some (Some r) -> In r array.
Proof.
  intros Hret. unfold Prompt.menu_choice.
  destruct (Str.to_int val) as [n|].
  - destruct ((1 <=? n)%Z && (n <=? Z.of_nat (List.length array))%Z).
    + intros [= H]. now apply nth_error_In in H.
    + intros [= H]. now apply Hret.
  - destruct (val =? ""); [|discriminate].
    intros [= H]. destruct array; [discriminate |].
    injection H as <-. now left.
Qed.

(** What [config_menu] returns is a name of the menu that
    [theme_variants] accepts. *)
Lemma config_menu_done (p : Config.probe) (array : list string)
  (ret : option string) (c : config) (inputs : list string)
  (r : string) (c' : config) (rest : list string) :
  (forall x, ret = Some x -> In x array) ->
  Prompt.config_menu p array ret c inputs = Done (r, c', rest) ->
  In r array /\ Config.theme_variants p r c = (true, c').
Proof.
  revert ret c. induction inputs as [|val inputs IH]; intros ret c Hret;
    cbn [Prompt.config_menu]; [discriminate |].
  destruct (Prompt.menu_choice array ret val) as [[r0|]|] eqn:Hm;
    [| discriminate | now apply IH].
  pose proof (menu_choice_in _ _ _ _ Hret Hm) as Hin.
  destruct (Config.theme_variants p r0 c) as [ok c0] eqn:Hv.
  destruct ok.
  - intros [= <- <- <-]. now split.
  - apply theme_variants_false in Hv. subst c0.
    apply IH. now intros x [= <-].
Qed.

Lemma config_yn_true (b : build_tools) (name default : string)
  (inputs rest : list string) :
  Prompt.config_yn b name default inputs = Done (true, rest) ->
  needs_meson name = true -> meson b = true /\ ninja b = true.
Proof.
  unfold needs_meson. intros H Hg.
  induction inputs as [|val inputs IH]; cbn [Prompt.config_yn] in H;
    [discriminate |].
  destruct ((Prompt.casefold val =? Prompt.casefold "y")
            || (default =? "y") && (val =? "")).
  - rewrite Hg in H. destruct (meson b); cbn [negb] in H; [|now apply IH].
    destruct (ninja b); cbn [negb] in H; [now split | now apply IH].
  - destruct ((Prompt.casefold val =? Prompt.casefold "n")
              || (default =? "n") && (val =? "")); [discriminate |].
    now apply IH.
Qed.

Lemma in_remove_first (x k : string) (l : list string) :
  In x (Prompt.remove_first k l) -> In x l.
Proof.
  induction l as [|y l IH]; cbn; [easy |].
  destruct (k =? y); [now right |].
  intros [H|H]; [now left | right; now apply IH].
Qed.

Lemma in_remove_first_other (x k : string) (l : list string) :
  x <> k -> In x l -> In x (Prompt.remove_first k l).
Proof.
  intros Hne. induction l as [|y l IH]; cbn; [easy |].
  destruct (String.eqb_spec k y) as [->|Hk].
  - intros [H|H]; [congruence | exact H].
  - intros [H|H]; [now left | right; now apply IH].
Qed.

Lemma uniq_spec (l : list string) : uniq l = true <-> NoDup l.
Proof.
  induction l as [|x l IH]; cbn.
  - split; [constructor | reflexivity].
  - rewrite andb_true_iff, negb_true_iff, IH. split.
    + intros [Hx Hl]. constructor; [|exact Hl].
      intros Hin. apply mem_In in Hin. congruence.
    + intros H. inversion H as [|? ? Hx Hl]; subst. split; [|exact Hl].
      destruct (Str.mem x l) eqn:E; [|reflexivity].
      apply mem_In in E. contradiction.
Qed.

Lemma nodup_remove_first (k : string) (l : list string) :
  NoDup l -> NoDup (Prompt.remove_first k l).
Proof.
  induction l as [|y l IH]; cbn; intros H; [constructor |].
  inversion H as [|? ? Hy Hl]; subst.
  destruct (k =? y); [exact Hl |].
  constructor; [|now apply IH].
  intros Hin. apply in_remove_first in Hin. contradiction.
Qed.

(** The outcomes of one turn of the loop of [configure] under
    [configure_all]. *)
Lemma configure_one_cases (b : build_tools) (f : flags) (key : string)
  (en : list string) (inputs : list string) (r : option (list string))
  (rest : list string) :
  configure_all f = true ->
  Prompt.configure_one b f key (Some en) inputs = Done (r, rest) ->
  r = Some en \/
  (r = Some (Prompt.remove_first key en) /\
   (key = "settings_theme" \/ key = "default_syntax")) \/
  (r = Some (en ++ [key])%list /\
   (key = "settings_theme" -> In "firefox" en /\ ~ In key en) /\
   (key = "default_syntax" -> In "vscode" en /\ ~ In key en) /\
   (needs_meson key = true -> meson b = true /\ ninja b = true)).
Proof.
  intros Hall. unfold Prompt.configure_one. rewrite Hall, !orb_true_r,
    !andb_true_r.
  assert (Ask : forall parent default asked,
    needs_meson key = false ->
    match Prompt.ask_option b key parent default asked en inputs with
    | Done (l', rest0) => Done (Some l', rest0)
    | Halt h => Halt h
    end = Done (r, rest) ->
    r = Some en \/
    r = Some (Prompt.remove_first key en) \/
    (r = Some (en ++ [key])%list /\ In parent en /\ ~ In key en)).
  { intros parent default asked Hnm. unfold Prompt.ask_option.
    destruct (Str.mem parent en) eqn:Hp.
    - destruct (Prompt.config_yn b key default inputs) as [[[|] rest0]|h];
        [| |discriminate].
      + destruct (Str.mem key en) eqn:Hk; cbn [negb]; intros [= <- <-].
        * now left.
        * right. right. split; [reflexivity |]. split; [now apply mem_In |].
          intros Hin. apply mem_In in Hin. congruence.
      + destruct (Str.mem key en); intros [= <- <-]; [right|]; now left.
    - destruct asked; [discriminate |]. intros [= <- <-]. now left. }
  destruct (String.eqb_spec key "settings_theme") as [->|Hs].
  - intros H. destruct (Ask "firefox" "y" (update_settings f) eq_refl H)
      as [->|[->|(-> & Hp & Hk)]].
    + now left.
    + right. left. split; [reflexivity | now left].
    + right. right. split; [reflexivity |]. repeat split; try easy.
  - destruct (String.eqb_spec key "default_syntax") as [->|Hd].
    + intros H. destruct (Ask "vscode" "n" (update_syntax f) eq_refl H)
        as [->|[->|(-> & Hp & Hk)]].
      * now left.
      * right. left. split; [reflexivity | now right].
      * right. right. split; [reflexivity |]. repeat split; try easy.
    + destruct (Prompt.config_yn b key "y" inputs) as [[[|] rest0]|h] eqn:Hy;
        [| |discriminate].
      * intros [= <- <-]. right. right. split; [reflexivity |].
        repeat split; try contradiction.
        -- now apply (config_yn_true b key "y" inputs rest0 Hy).
        -- now apply (config_yn_true b key "y" inputs rest0 Hy).
      * intros [= <- <-]. now left.
Qed.

Lemma configure_loop_built (b : build_tools) (f : flags)
  (keys seen en : list string) (inputs : list string)
  (r : option (list string)) (rest : list string) :
  configure_all f = true ->
  NoDup (seen ++ keys) ->
  built b seen en ->
  Prompt.configure_loop b f keys (Some en) inputs = Done (r, rest) ->
  exists en', r = Some en' /\ built b (seen ++ keys) en'.
Proof.
  intros Hall. revert seen en inputs.
  induction keys as [|key keys IH]; intros seen en inputs Hnd Hb;
    cbn [Prompt.configure_loop].
  - intros [= <- <-]. exists en. rewrite app_nil_r. now split.
  - destruct (Prompt.configure_one b f key (Some en) inputs)
      as [[r1 rest1]|h] eqn:H1; [|discriminate].
    intros H2.
    assert (Hkey : ~ In key seen).
    { intros Hin. apply NoDup_remove_2 in Hnd. apply Hnd.
      apply in_or_app. now left. }
    assert (Hnd' : NoDup ((seen ++ [key]) ++ keys))
      by now rewrite <- app_assoc.
    assert (Step : exists en1, r1 = Some en1 /\ built b (seen ++ [key]) en1).
    { destruct Hb as (B1 & B2 & B3 & B4 & B5).
      destruct (configure_one_cases b f key en inputs r1 rest1 Hall H1)
        as [->|[(-> & Hk)|(-> & K1 & K2 & K3)]].
      - exists en. split; [reflexivity |]. repeat split; try assumption.
        intros x Hx. apply in_or_app. left. now apply B1.
      - exists (Prompt.remove_first key en). split; [reflexivity |].
        repeat split.
        + intros x Hx. apply in_or_app. left.
          apply B1. now apply in_remove_first with key.
        + now apply nodup_remove_first.
        + intros Hs. apply in_remove_first in Hs.
          apply in_remove_first_other; [|now apply B3].
          destruct Hk as [->| ->]; discriminate.
        + intros Hs. apply in_remove_first in Hs.
          apply in_remove_first_other; [|now apply B4].
          destruct Hk as [->| ->]; discriminate.
        + intros Ht x Hx. apply (B5 Ht). now apply in_remove_first with key.
      - exists (en ++ [key])%list. split; [reflexivity |]. repeat split.
        + intros x Hx. apply in_app_or in Hx. apply in_or_app.
          destruct Hx as [Hx|Hx]; [left; now apply B1 | now right].
        + apply NoDup_app; [exact B2 | repeat constructor; easy |].
          intros x Hx [<-|[]]. apply Hkey. now apply B1.
        + intros Hs. apply in_or_app. left.
          apply in_app_or in Hs. destruct Hs as [Hs|[E|[]]];
            [now apply B3 | now apply K1].
        + intros Hs. apply in_or_app. left.
          apply in_app_or in Hs. destruct Hs as [Hs|[E|[]]];
            [now apply B4 | now apply K2].
        + intros Ht x Hx. apply in_app_or in Hx.
          destruct Hx as [Hx|[<-|[]]]; [now apply (B5 Ht) |].
          destruct (needs_meson key) eqn:Hm; [|reflexivity].
          destruct (K3 eq_refl) as [M N]. rewrite M, N in Ht.
          discriminate. }
    destruct Step as (en1 & -> & Hb1).
    destruct (IH (seen ++ [key])%list en1 rest1 Hnd' Hb1 H2) as (en' & -> & Hb').
    exists en'. split; [reflexivity |].
    now rewrite <- app_assoc in Hb'.
Qed.

Lemma get_enableable_nodup (h : host) :
  NoDup (dict_keys (Config.get_enableable h)).
Proof.
  apply uniq_spec. unfold Config.get_enableable.
  assert (U0 : uniq (dict_keys Config.all_parts) = true) by reflexivity.
  destruct (desktops_deleted (h_desktops h) "" Config.all_parts U0)
    as [U1 _].
  cbv zeta in U1.
  set (e1 := fold_left _ (h_desktops h) Config.all_parts) in *.
  assert (U2 : uniq (dict_keys
                       (if (List.length (h_firefox h) =? 0)%nat
                        then dict_del "firefox" e1 else e1)) = true)
    by (destruct (List.length (h_firefox h) =? 0)%nat;
        [now apply uniq_del | exact U1]).
  set (e2 := if (List.length (h_firefox h) =? 0)%nat
             then dict_del "firefox" e1 else e1) in *.
  assert (U3 : uniq (dict_keys
                       (if (List.length (h_vscode h) =? 0)%nat
                        then dict_del "vscode" e2 else e2)) = true)
    by (destruct (List.length (h_vscode h) =? 0)%nat;
        [now apply uniq_del | exact U2]).
  destruct (h_snap h); [exact U3 | now apply uniq_del].
Qed.

Lemma theme_variants_resolved (p : Config.probe) (th : string)
  (c c' : config) :
  In th (dict_keys VARIANTS_theme) ->
  Config.theme_variants p th c = (true, c') ->
  resolved c' = true.
Proof.
  intros Hin. cbn in Hin.
  destruct Hin as [<-|[<-|[<-|[]]]]; unfold Config.theme_variants; cbn.
  - now intros [= <-].
  - now intros [= <-].
  - destruct p as [|s]; [discriminate |].
    destruct (s =? "prefer-dark") eqn:E1.
    + intros [= <-]. unfold resolved. cbn. now rewrite E1, orb_true_r.
    + destruct (s =? "default") eqn:E2; [|discriminate].
      intros [= <-]. unfold resolved. cbn. now rewrite E2.
Qed.

Lemma none_yet (array : list string) (x : string) :
  @None string = Some x -> In x array.
Proof. discriminate. Qed.

(** What [configure] leaves behind when it asks everything. *)
Lemma configure_all_done (p : Config.probe) (b : build_tools) (f : flags)
  (c : config) (d : dict string) (inputs : list string) (c' : config)
  (rest : list string) :
  configure_all f = true ->
  enableable c = EDict d ->
  NoDup (dict_keys d) ->
  Prompt.configure p b f c inputs = Done (c', rest) ->
  exists col th en,
    color c' = Some col /\ In col (dict_keys VARIANTS_color) /\
    theme c' = Some th /\ In th (dict_keys VARIANTS_theme) /\
    resolved c' = true /\
    enabled c' = Some en /\ built b (dict_keys d) en.
Proof.
  intros Hall He Hnd. unfold Prompt.configure. rewrite Hall. cbn [orb].
  destruct (Prompt.config_menu p (dict_keys VARIANTS_color) None c inputs)
    as [[[col c1] rest1]|h] eqn:M1; [|discriminate].
  destruct (config_menu_done _ _ _ _ _ _ _ _ (none_yet _) M1)
    as [Hcol V1].
  destruct (theme_variants_config _ _ _ _ _ V1) as [cs1 ->].
  destruct (Prompt.config_menu p (dict_keys VARIANTS_theme) None _ rest1)
    as [[[th c2] rest2]|h] eqn:M2; [|discriminate].
  destruct (config_menu_done _ _ _ _ _ _ _ _ (none_yet _) M2)
    as [Hth V2].
  pose proof (theme_variants_resolved _ _ _ _ Hth V2) as Hres.
  destruct (theme_variants_config _ _ _ _ _ V2) as [cs2 E2].
  rewrite E2 in *. cbn [enableable set_enabled set_theme set_color
                        set_color_scheme enabled].
  rewrite He.
  destruct (Prompt.configure_loop b f (dict_keys d) (Some []) rest2)
    as [[r rest3]|h] eqn:L; [|discriminate].
  intros [= <- <-].
  destruct (configure_loop_built b f (dict_keys d) [] [] rest2 r rest3
              Hall Hnd) as (en & -> & Hb); [|exact L|].
  { repeat split; try easy. constructor. }
  exists col, th, en. repeat split; try assumption; try reflexivity;
    apply Hb.
Qed.

(** After [configure] has asked everything on a host, the enabled list
    holds eligible parts only, and none of them twice. *)
Theorem configure_enables_eligible_parts (h : host) (p : Config.probe)
  (b : build_tools) (f : flags) (c : config) (inputs : list string)
  (c' : config) (rest : list string) :
  configure_all f = true ->
  enableable c = EDict (Config.get_enableable h) ->
  Prompt.configure p b f c inputs = Done (c', rest) ->
  exists en,
    enabled c' = Some en /\ NoDup en /\
    forall x, In x en -> dict_mem x (Config.get_enableable h) = true.
Proof.
  intros Hall He H.
  destruct (configure_all_done p b f c _ inputs c' rest Hall He
              (get_enableable_nodup h) H)
    as (col & th & en & _ & _ & _ & _ & _ & Hen & B1 & B2 & _).
  exists en. repeat split; try assumption.
  intros x Hx. apply mem_In. now apply B1.
Qed.

(** After [configure] has asked everything, the settings pages of
    Firefox are themed only if Firefox is, and the default syntax of
    VS Code is kept only if VS Code is themed. *)
Theorem configure_keeps_options_with_their_theme (h : host)
  (p : Config.probe) (b : build_tools) (f : flags) (c : config)
  (inputs : list string) (c' : config) (rest : list string) :
  configure_all f = true ->
  enableable c = EDict (Config.get_enableable h) ->
  Prompt.configure p b f c inputs = Done (c', rest) ->
  exists en,
    enabled c' = Some en /\
    (In "settings_theme" en -> In "firefox" en) /\
    (In "default_syntax" en -> In "vscode" en).
Proof.
  intros Hall He H.
  destruct (configure_all_done p b f c _ inputs c' rest Hall He
              (get_enableable_nodup h) H)
    as (col & th & en & _ & _ & _ & _ & _ & Hen & _ & _ & B3 & B4 & _).
  exists en. now repeat split.
Qed.

(** Without meson or without ninja, [configure] enables no part of
    [dg-yaru] and no part of [dg-adw-gtk3], whatever is answered. *)
Theorem configure_needs_meson_and_ninja (h : host) (p : Config.probe)
  (b : build_tools) (f : flags) (c : config) (inputs : list string)
  (c' : config) (rest : list string) :
  configure_all f = true ->
  enableable c = EDict (Config.get_enableable h) ->
  meson b && ninja b = false ->
  Prompt.configure p b f c inputs = Done (c', rest) ->
  exists en,
    enabled c' = Some en /\
    forall x, In x en -> needs_meson x = false.
Proof.
  intros Hall He Ht H.
  destruct (configure_all_done p b f c _ inputs c' rest Hall He
              (get_enableable_nodup h) H)
    as (col & th & en & _ & _ & _ & _ & _ & Hen & _ & _ & _ & _ & B5).
  exists en. split; [exact Hen | now apply B5].
Qed.

(** [configure] never returns with an unresolved variant: the colour
    and the variant are names of the two menus, and the colour scheme is
    [default] or [prefer-dark], so that [config['suffix']] is defined. *)
Theorem configure_resolves_the_variant (h : host) (p : Config.probe)
  (b : build_tools) (f : flags) (c : config) (inputs : list string)
  (c' : config) (rest : list string) :
  configure_all f = true ->
  enableable c = EDict (Config.get_enableable h) ->
  Prompt.configure p b f c inputs = Done (c', rest) ->
  (exists col, color c' = Some col /\ In col (dict_keys VARIANTS_color)) /\
  (exists th, theme c' = Some th /\ In th (dict_keys VARIANTS_theme)) /\
  (Main.suffix c' = Ok "" \/ Main.suffix c' = Ok "-dark").
Proof.
  intros Hall He H.
  destruct (configure_all_done p b f c _ inputs c' rest Hall He
              (get_enableable_nodup h) H)
    as (col & th & en & Hc & Hcol & Ht & Hth & Hres & _).
  split; [now exists col |]. split; [now exists th |].
  unfold resolved in Hres. unfold Main.suffix, Config.get.
  destruct (color_scheme c') as [s|]; [|discriminate]. cbn.
  destruct (s =? "prefer-dark"); [now right | now left].
Qed.

Lemma session_done :
  let c := Config.read_reset (Config.init Sample.gnome_host) in
  let run :=
    Prompt.configure Config.NoGsettings (mkBuildTools true true) all_flags c
                     session in
  run = Done (configured_as run c, lines_left run).
Proof. vm_compute. reflexivity. Qed.

Lemma session_without_meson_done :
  let c := Config.read_reset (Config.init Sample.gnome_host) in
  let run :=
    Prompt.configure Config.NoGsettings (mkBuildTools false true) all_flags c
                     session_without_meson in
  run = Done (configured_as run c, lines_left run).
Proof. vm_compute. reflexivity. Qed.

Lemma configure_enables_eligible_parts_witness :
  let c := Config.read_reset (Config.init Sample.gnome_host) in
  let run :=
    Prompt.configure Config.NoGsettings (mkBuildTools true true) all_flags c
                     session in
  exists en,
    enabled (configured_as run c) = Some en /\ NoDup en /\
    forall x, In x en ->
              dict_mem x (Config.get_enableable Sample.gnome_host) = true.
Proof.
  intros c run.
  exact (configure_enables_eligible_parts Sample.gnome_host Config.NoGsettings
           (mkBuildTools true true) all_flags c session
           (configured_as run c) (lines_left run) eq_refl eq_refl
           session_done).
Defined.

Lemma configure_keeps_options_with_their_theme_witness :
  let c := Config.read_reset (Config.init Sample.gnome_host) in
  let run :=
    Prompt.configure Config.NoGsettings (mkBuildTools true true) all_flags c
                     session in
  exists en,
    enabled (configured_as run c) = Some en /\
    (In "settings_theme" en -> In "firefox" en) /\
    (In "default_syntax" en -> In "vscode" en).
Proof.
  intros c run.
  exact (configure_keeps_options_with_their_theme Sample.gnome_host
           Config.NoGsettings (mkBuildTools true true) all_flags c session
           (configured_as run c) (lines_left run) eq_refl eq_refl
           session_done).
Defined.

Lemma configure_needs_meson_and_ninja_witness :
  let c := Config.read_reset (Config.init Sample.gnome_host) in
  let run :=
    Prompt.configure Config.NoGsettings (mkBuildTools false true) all_flags c
                     session_without_meson in
  exists en,
    enabled (configured_as run c) = Some en /\
    forall x, In x en -> needs_meson x = false.
Proof.
  intros c run.
  exact (configure_needs_meson_and_ninja Sample.gnome_host
           Config.NoGsettings (mkBuildTools false true) all_flags c
           session_without_meson
           (configured_as run c) (lines_left run) eq_refl eq_refl eq_refl
           session_without_meson_done).
Defined.

Lemma configure_resolves_the_variant_witness :
  let c := Config.read_reset (Config.init Sample.gnome_host) in
  let run :=
    Prompt.configure Config.NoGsettings (mkBuildTools true true) all_flags c
                     session in
  (exists col, color (configured_as run c) = Some col /\
               In col (dict_keys VARIANTS_color)) /\
  (exists th, theme (configured_as run c) = Some th /\
              In th (dict_keys VARIANTS_theme)) /\
  (Main.suffix (configured_as run c) = Ok "" \/
   Main.suffix (configured_as run c) = Ok "-dark").
Proof.
  intros c run.
  exact (configure_resolves_the_variant Sample.gnome_host Config.NoGsettings
           (mkBuildTools true true) all_flags c session
           (configured_as run c) (lines_left run) eq_refl eq_refl
           session_done).
Defined.

Example session_result :
  let c := Config.read_reset (Config.init Sample.gnome_host) in
  let run :=
    Prompt.configure Config.NoGsettings (mkBuildTools true true) all_flags c
                     session in
  color (configured_as run c) = Some "blue" /\
  theme (configured_as run c) = Some "dark" /\
  enabled (configured_as run c)
  = Some ["gtk3"; "gtk4"; "gnome-shell"; "icons"; "sounds"; "gtksourceview";
          "vscode"] /\
  lines_left run = [] /\
  enabled
    (configured_as
       (Prompt.configure Config.NoGsettings (mkBuildTools false true)
                         all_flags c session_without_meson) c)
  = Some ["gtk4"; "vscode"].
Proof. vm_compute. repeat split. Qed.

(** A number outside the menu, typed as the first answer, ends
    [configure] with [UnboundLocalError]: nothing is assigned to [ret]
    before [theme_variants(ret)] reads it. *)
Theorem menu_number_out_of_range_crashes (p : Config.probe)
  (b : build_tools) (f : flags) (c : config) (val : string)
  (rest : list string) (n : Z) :
  configure_all f || update_color f = true ->
  Str.to_int val = Some n ->
  (n < 1 \/ 12 < n)%Z ->
  Prompt.configure p b f c (val :: rest) = Halt UnboundLocalError.
Proof.
  intros Hf Hn Hr. unfold Prompt.configure. rewrite Hf.
  cbn [Prompt.config_menu]. unfold Prompt.menu_choice. rewrite Hn.
  replace ((1 <=? n)%Z
           && (n <=? Z.of_nat (List.length (dict_keys VARIANTS_color)))%Z)
    with false; [reflexivity |].
  symmetry. apply andb_false_iff. cbn.
  destruct Hr; [left; now apply Z.leb_gt | right; now apply Z.leb_gt].
Qed.

Lemma menu_number_out_of_range_crashes_witness :
  Prompt.configure Config.NoGsettings (mkBuildTools true true) all_flags
    (Config.read_reset (Config.init Sample.gnome_host)) ["13"; "1"]
  = Halt UnboundLocalError.
Proof.
  apply (menu_number_out_of_range_crashes Config.NoGsettings
           (mkBuildTools true true) all_flags
           (Config.read_reset (Config.init Sample.gnome_host)) "13" ["1"] 13);
    [reflexivity | reflexivity | right; reflexivity].
Defined.

(** ** The configuration file: what [read] can and cannot change *)

(** A property that every line keeps is kept by the loop. *)
Lemma read_lines_keep (P : config -> Prop) (configured : bool) :
  (forall c line c', P c -> Config.read_line configured c line = Ok c' ->
                     P c') ->
  forall lines c c',
    P c -> Config.read_lines configured c lines = Ok c' -> P c'.
Proof.
  intros Hline. induction lines as [|line rest IH]; intros c c' Hc H.
  - cbn in H. injection H as <-. exact Hc.
  - cbn in H. unfold bind in H.
    destruct (Config.read_line configured c line) as [c1|e] eqn:E;
      [|discriminate].
    exact (IH c1 c' (Hline c line c1 Hc E) H).
Qed.

Lemma read_reset_versions (groups : dict (dict string)) (c : config)
  (q : config -> Prop) :
  (forall c k, q c -> q (set_versions (dict_set k "" (versions c)) c)) ->
  q c ->
  q (fold_left
       (fun acc (group : string * dict string) =>
          if negb (fst group =? "qualia-gtk-theme-snap")
          then set_versions
                 (dict_set (fst group ++ "_version") "" (versions acc)) acc
          else acc)
       groups c).
Proof.
  intros Hset. revert c.
  induction groups as [|g groups IH]; intros c Hc; cbn; [exact Hc |].
  apply IH. destruct (negb (fst g =? "qualia-gtk-theme-snap"));
    [apply Hset |]; exact Hc.
Qed.

(** Taking [read_line] apart, branch by branch: the goal is
    [read_line configured c line = Ok c' -> _]. *)
Ltac read_line_cases :=
  unfold Config.read_line, bind, list_index, Config.set_listed;
  repeat match goal with
         | |- context [match ?x with _ => _ end] => destruct x eqn:?
         end;
  repeat match goal with
         | E : context [match ?x with _ => _ end] |- _ => destruct x eqn:?
         end;
  repeat match goal with
         | E : Raise _ = Ok _ |- _ => discriminate E
         | E : None = Some _ |- _ => discriminate E
         | E : Ok _ = Ok _ |- _ => injection E as <-
         end;
  let H := fresh "H" in
  intros H; try discriminate H; injection H as <-.

(** [read] leaves alone what the detection of the host has found: the
    desktop versions and the directories of Firefox and VS Code.  No
    line of the file can set them. *)
Theorem read_keeps_what_was_detected (configured : bool) (file : node)
  (c c' : config) :
  Config.read configured file c = Ok c' ->
  detected c' = detected c.
Proof.
  intros H. unfold Config.read in H.
  assert (R : detected (Config.read_reset c) = detected c).
  { unfold Config.read_reset.
    apply read_reset_versions with
      (q := fun x => detected x = detected c); [|reflexivity].
    intros x k Hx. exact Hx. }
  destruct file as [|text|]; [injection H as <-; exact R | | discriminate].
  refine (read_lines_keep (fun x => detected x = detected c) configured _
            (Str.readlines text) (Config.read_reset c) c' R H).
  clear. intros c0 line c1 Hc. rewrite <- Hc. clear Hc.
  read_line_cases; reflexivity.
Qed.

Lemma read_keeps_what_was_detected_witness :
  let c := Config.init Sample.gnome_host in
  let r := Config.read false written_file c in
  detected (read_to r c) = detected c.
Proof.
  intros c r.
  assert (E : r = Ok (read_to r c)) by (vm_compute; reflexivity).
  exact (read_keeps_what_was_detected false written_file c (read_to r c) E).
Defined.

(** Whatever the file says, [read] records under a version key only the
    empty string or a string of 40 characters, the length of a commit
    id. *)
Theorem read_records_only_commit_ids (configured : bool) (file : node)
  (c c' : config) :
  versions_shaped c = true ->
  Config.read configured file c = Ok c' ->
  versions_shaped c' = true.
Proof.
  intros Hc H. unfold Config.read in H.
  assert (R : versions_shaped (Config.read_reset c) = true).
  { unfold Config.read_reset.
    apply read_reset_versions with
      (q := fun x => versions_shaped x = true); [|exact Hc].
    intros x k Hx. unfold versions_shaped in *. cbn.
    now apply dict_set_forallb. }
  destruct file as [|text|]; [injection H as <-; exact R | | discriminate].
  refine (read_lines_keep (fun x => versions_shaped x = true) configured _
            (Str.readlines text) (Config.read_reset c) c' R H).
  clear. intros c0 line c1 Hc. revert Hc. unfold versions_shaped.
  intros Hc.
  read_line_cases; cbn; try exact Hc;
    (apply dict_set_forallb; [exact Hc |]);
    match goal with
    | E : _ && (String.length ?s =? 40)%nat = true |- _ =>
        apply andb_true_iff in E; destruct E as [_ E];
        unfold version_shaped; rewrite E; apply orb_true_r
    end.
Qed.

Lemma read_records_only_commit_ids_witness :
  let c := Config.init Sample.gnome_host in
  let r := Config.read false written_file c in
  versions_shaped (read_to r c) = true.
Proof.
  intros c r.
  assert (E : r = Ok (read_to r c)) by (vm_compute; reflexivity).
  exact (read_records_only_commit_ids false written_file c (read_to r c)
           eq_refl E).
Defined.

(** The value that a line sets under [color] or [theme] is a name of
    [VARIANTS]. *)
Ltac known_name :=
  match goal with
  | E : (?a =? _) = true, V : VARIANTS ?a = Some ?l,
    M : Str.mem _ ?l = true |- _ =>
      apply String.eqb_eq in E; subst a; cbn in V; injection V as <-;
      apply mem_In; exact M
  end.

(** The file cannot bring in a colour or a variant that the installer
    does not know: after [read] each of the two is what it was before,
    or a name of [VARIANTS]. *)
Theorem read_takes_only_known_variants (configured : bool) (file : node)
  (c c' : config) :
  Config.read configured file c = Ok c' ->
  kept_or_among (dict_keys VARIANTS_color) (color c) (color c') /\
  kept_or_among (dict_keys VARIANTS_theme) (theme c) (theme c').
Proof.
  intros H. unfold Config.read in H.
  set (P := fun x : config =>
              kept_or_among (dict_keys VARIANTS_color) (color c) (color x) /\
              kept_or_among (dict_keys VARIANTS_theme) (theme c) (theme x)).
  assert (R : P (Config.read_reset c)).
  { unfold Config.read_reset.
    apply read_reset_versions with (q := P);
      [|split; left; reflexivity].
    intros x k Hx. exact Hx. }
  destruct file as [|text|]; [injection H as <-; exact R | | discriminate].
  refine (read_lines_keep P configured _
            (Str.readlines text) (Config.read_reset c) c' R H).
  clear. subst P. cbv beta. intros c0 line c1 [Hcol Hth].
  read_line_cases; cbn; try (split; assumption);
    (split;
     [first [exact Hcol | right; eexists; split; [reflexivity | known_name]]
     |first [exact Hth | right; eexists; split; [reflexivity | known_name]]]).
Qed.

Lemma read_takes_only_known_variants_witness :
  let c := Config.init Sample.gnome_host in
  let r := Config.read false written_file c in
  kept_or_among (dict_keys VARIANTS_color) (color c) (color (read_to r c)) /\
  kept_or_among (dict_keys VARIANTS_theme) (theme c) (theme (read_to r c)).
Proof.
  intros c r.
  assert (E : r = Ok (read_to r c)) by (vm_compute; reflexivity).
  exact (read_takes_only_known_variants false written_file c (read_to r c)
           E).
Defined.

(** After [read] the snapshot of every theme holds exactly one desktop,
    and it is a desktop of [VERSIONS]: a line for a second desktop of
    the same theme replaces the first one. *)
Theorem read_keeps_one_desktop_per_theme (configured : bool) (file : node)
  (c c' : config) :
  Config.read configured file c = Ok c' ->
  snapshots_single c' = true.
Proof.
  intros H. unfold Config.read in H.
  assert (R : snapshots_single (Config.read_reset c) = true).
  { unfold Config.read_reset.
    apply read_reset_versions with
      (q := fun x => snapshots_single x = true); [|reflexivity].
    intros x k Hx. exact Hx. }
  destruct file as [|text|]; [injection H as <-; exact R | | discriminate].
  refine (read_lines_keep (fun x => snapshots_single x = true) configured _
            (Str.readlines text) (Config.read_reset c) c' R H).
  clear. intros c0 line c1 Hc. revert Hc. unfold snapshots_single.
  intros Hc.
  read_line_cases; cbn; try exact Hc;
    (apply dict_set_forallb; [exact Hc |]); cbn; assumption.
Qed.

Lemma read_keeps_one_desktop_per_theme_witness :
  let c := Config.init Sample.gnome_host in
  let r := Config.read false written_file c in
  snapshots_single (read_to r c) = true.
Proof.
  intros c r.
  assert (E : r = Ok (read_to r c)) by (vm_compute; reflexivity).
  exact (read_keeps_one_desktop_per_theme false written_file c
           (read_to r c) E).
Defined.

(** Once the configuration has been made ([configured] is set), a
    second [read] takes no colour, no variant and no list of eligible
    parts from the file. *)
Theorem read_after_configure_keeps_choices (file : node) (c c' : config) :
  Config.read true file c = Ok c' ->
  choices c' = choices c.
Proof.
  intros H. unfold Config.read in H.
  assert (R : choices (Config.read_reset c) = choices c).
  { unfold Config.read_reset.
    apply read_reset_versions with
      (q := fun x => choices x = choices c); [|reflexivity].
    intros x k Hx. exact Hx. }
  destruct file as [|text|]; [injection H as <-; exact R | | discriminate].
  refine (read_lines_keep (fun x => choices x = choices c) true _
            (Str.readlines text) (Config.read_reset c) c' R H).
  clear. intros c0 line c1 Hc. rewrite <- Hc. clear Hc.
  unfold Config.read_line. cbn [negb andb].
  read_line_cases; reflexivity.
Qed.

Lemma read_after_configure_keeps_choices_witness :
  let c := Sample.blue_dark in
  let r := Config.read true written_file c in
  choices (read_to r c) = choices c.
Proof.
  intros c r.
  assert (E : r = Ok (read_to r c)) by (vm_compute; reflexivity).
  exact (read_after_configure_keeps_choices written_file c (read_to r c) E).
Defined.

(** ** The configuration file: when [write] fails *)

Lemma write_desktops_error (theme : string) (des : dict pyval)
  (k : Config.output) :
  snd (Config.write_desktops theme des k)
  = if forallb (fun dv => match snd dv with
                          | VStr _ => true
                          | VList _ => false
                          end) des
    then snd k else Some AttributeError.
Proof.
  induction des as [|[de v] des IH]; cbn; [reflexivity |].
  destruct v as [s|l]; [|reflexivity]. cbn.
  destruct (negb (s =? "") && negb (Str.startswith s "qualia"));
    cbn; exact IH.
Qed.

Lemma write_old_error (o : dict (dict pyval)) (k : Config.output) :
  snd (Config.write_old o k)
  = if all_strings o then snd k else Some AttributeError.
Proof.
  induction o as [|[theme des] o IH]; cbn; [reflexivity |].
  rewrite write_desktops_error, IH.
  now destruct (forallb _ des).
Qed.

(** [write] succeeds exactly on a writable dictionary.  Otherwise it
    stops with [KeyError] when a key it reads is missing, and with
    [AttributeError] when all keys are there and a snapshot is a list. *)
Theorem write_fails_exactly_when_unwritable (c : config) (file : node) :
  snd (Config.write c file)
  = if writable c then None
    else if keys_present c then Some AttributeError else Some KeyError.
Proof.
  assert (W : Config.write c file
              = (RegFile (fst (Config.write_text c)),
                 snd (Config.write_text c)))
    by (destruct file; reflexivity).
  rewrite W. cbn [snd]. unfold writable, keys_present, Config.write_text.
  destruct (color c) as [col|]; [|reflexivity].
  destruct (theme c) as [th|]; [|reflexivity].
  destruct (enabled c) as [en|]; [|reflexivity].
  unfold Config.need, Config.get, dict_lookup. cbn [Config.emit snd fst].
  destruct (dict_get "gnome" (desktop_versions c)) as [g|] eqn:G.
  - assert (M : dict_mem "gnome" (desktop_versions c) = true)
      by (apply dict_mem_get; congruence).
    rewrite M. cbn [andb Config.emit snd fst].
    rewrite write_versions_text. cbn [snd Config.emit].
    rewrite write_old_error. now destruct (all_strings (old c)).
  - assert (M : dict_mem "gnome" (desktop_versions c) = false).
    { destruct (dict_mem "gnome" (desktop_versions c)) eqn:M;
        [|reflexivity].
      apply dict_mem_get in M. contradiction. }
    rewrite M. reflexivity.
Qed.

(** ** Strings on their way through the file *)

Lemma all_chars_app (q : ascii -> bool) (a b : string) :
  all_chars q (a ++ b) = all_chars q a && all_chars q b.
Proof.
  induction a as [|c a IH]; cbn; [reflexivity |].
  now rewrite IH, andb_assoc.
Qed.

Lemma all_chars_weaken (q q' : ascii -> bool) (s : string) :
  (forall c, q c = true -> q' c = true) ->
  all_chars q s = true -> all_chars q' s = true.
Proof.
  intros Hq. induction s as [|c s IH]; cbn; [reflexivity |].
  intros H. apply andb_true_iff in H. destruct H as [Hc Hs].
  now rewrite (Hq c Hc), (IH Hs).
Qed.

Lemma plain_inline (c : ascii) : plain_char c = true -> inline c = true.
Proof.
  unfold plain_char, inline. intros H.
  apply andb_true_iff in H. destruct H as [Hs _].
  apply negb_true_iff in Hs.
  destruct (Ascii.eqb_spec c (ascii_of_nat 10)) as [->|_];
    [discriminate Hs |].
  destruct (Ascii.eqb_spec c (ascii_of_nat 13)) as [->|_];
    [discriminate Hs | reflexivity].
Qed.

Lemma plain_not_space (c : ascii) :
  plain_char c = true -> Str.is_space c = false.
Proof.
  unfold plain_char. intros H. apply andb_true_iff in H.
  destruct H as [Hs _]. now apply negb_true_iff in Hs.
Qed.

Lemma plain_not_colon (c : ascii) :
  plain_char c = true -> Ascii.eqb c ":" = false.
Proof.
  unfold plain_char. intros H. apply andb_true_iff in H.
  destruct H as [_ Hs]. now apply negb_true_iff in Hs.
Qed.

(** [readlines] cuts after the first line feed. *)
Lemma readlines_line (a rest : string) :
  all_chars inline a = true ->
  Str.readlines (a ++ Str.nl ++ rest) = (a ++ Str.nl) :: Str.readlines rest.
Proof.
  induction a as [|c a IH]; intros H; [reflexivity |].
  cbn [all_chars] in H. apply andb_true_iff in H. destruct H as [Hc Ha].
  unfold inline in Hc. apply andb_true_iff in Hc. destruct Hc as [H10 H13].
  apply negb_true_iff in H10, H13.
  cbn [append Str.readlines]. rewrite H10, H13, (IH Ha). reflexivity.
Qed.

Lemma prefix_refl_app (p s : string) : String.prefix p (p ++ s) = true.
Proof.
  induction p as [|c p IH]; cbn; [now destruct s |].
  destruct (ascii_dec c c) as [_|N]; [exact IH | contradiction].
Qed.

(** [sub in a + sub + b] *)
Lemma contains_app (sub a b : string) :
  Str.contains sub (a ++ sub ++ b) = true.
Proof.
  induction a as [|c a IH]; cbn [append].
  - assert (P := prefix_refl_app sub b).
    destruct (sub ++ b); cbn [Str.contains]; now rewrite P.
  - cbn [Str.contains]. rewrite IH. apply orb_true_r.
Qed.

Lemma prefix_head (x c : ascii) (p s : string) :
  Ascii.eqb c x = false -> String.prefix (String x p) (String c s) = false.
Proof.
  intros H. cbn. destruct (ascii_dec x c) as [->|_]; [|reflexivity].
  now rewrite Ascii.eqb_refl in H.
Qed.

(** A string without the character [x] holds no string that begins
    with [x]. *)
Lemma contains_none (x : ascii) (p s : string) :
  all_chars (is_not x) s = true -> Str.contains (String x p) s = false.
Proof.
  induction s as [|c s IH]; intros H; [reflexivity |].
  cbn [all_chars] in H. apply andb_true_iff in H. destruct H as [Hc Hs].
  unfold is_not in Hc. apply negb_true_iff in Hc.
  cbn [Str.contains]. rewrite (prefix_head x c p s Hc), (IH Hs). reflexivity.
Qed.

(** *** [strip] *)

Lemma lstrip_head (c : ascii) (s : string) :
  Str.is_space c = false -> Str.lstrip (String c s) = String c s.
Proof. intros H. cbn. now rewrite H. Qed.

Lemma rstrip_spaces (a b : string) :
  all_chars Str.is_space b = true -> Str.rstrip (a ++ b) = Str.rstrip a.
Proof.
  intros Hb. induction a as [|c a IH]; cbn [append].
  - induction b as [|c b IHb]; [reflexivity |].
    cbn [all_chars] in Hb. apply andb_true_iff in Hb.
    destruct Hb as [Hc Hb]. cbn [Str.rstrip].
    rewrite (IHb Hb), Hc. reflexivity.
  - cbn [Str.rstrip]. now rewrite IH.
Qed.

Lemma rstrip_plain (w : string) :
  all_chars (fun c => negb (Str.is_space c)) w = true -> Str.rstrip w = w.
Proof.
  induction w as [|c w IH]; intros H; [reflexivity |].
  cbn [all_chars] in H. apply andb_true_iff in H. destruct H as [Hc Hw].
  apply negb_true_iff in Hc. cbn [Str.rstrip].
  now rewrite (IH Hw), Hc.
Qed.

Lemma rstrip_app (a b : string) :
  Str.rstrip b = b -> b <> "" -> Str.rstrip (a ++ b) = a ++ b.
Proof.
  intros Hb Hne. induction a as [|c a IH]; cbn [append]; [exact Hb |].
  cbn [Str.rstrip]. rewrite IH.
  destruct (a ++ b) eqn:E.
  - destruct a; [cbn in E; contradiction | discriminate].
  - cbn [Str.is_empty]. now rewrite andb_false_r.
Qed.

(** *** [split] *)

Lemma split_none (x : ascii) (p s : string) :
  all_chars (is_not x) s = true -> Str.split (String x p) s = [s].
Proof.
  unfold Str.split.
  induction s as [|c s IH]; intros H; [reflexivity |].
  cbn [all_chars] in H. apply andb_true_iff in H. destruct H as [Hc Hs].
  unfold is_not in Hc. apply negb_true_iff in Hc.
  cbn [Str.split_go]. rewrite (prefix_head x c p s Hc), (IH Hs).
  reflexivity.
Qed.

(** A separator of one character. *)
Lemma split_char_app (x : ascii) (a b : string) :
  all_chars (is_not x) a = true ->
  Str.split (String x "") (a ++ String x b)
  = a :: Str.split (String x "") b.
Proof.
  unfold Str.split.
  induction a as [|c a IH]; intros H.
  - cbn [append Str.split_go String.prefix String.length Nat.sub].
    destruct (ascii_dec x x) as [_|N]; [|contradiction].
    now destruct b.
  - cbn [all_chars] in H. apply andb_true_iff in H. destruct H as [Hc Ha].
    unfold is_not in Hc. apply negb_true_iff in Hc.
    cbn [append Str.split_go].
    rewrite (prefix_head x c "" (a ++ String x b) Hc), (IH Ha).
    reflexivity.
Qed.

(** The separator [': '] of the lines of the file. *)
Lemma split_colon_app (a b : string) :
  all_chars (is_not ":") a = true ->
  Str.split ": " (a ++ ": " ++ b) = a :: Str.split ": " b.
Proof.
  unfold Str.split.
  induction a as [|c a IH]; intros H.
  - destruct b; reflexivity.
  - cbn [all_chars] in H. apply andb_true_iff in H. destruct H as [Hc Ha].
    unfold is_not in Hc. apply negb_true_iff in Hc.
    specialize (IH Ha).
    change (": " ++ b) with (String ":" (String " " b)) in *.
    cbn [append Str.split_go].
    rewrite (prefix_head ":" c " " _ Hc), IH.
    reflexivity.
Qed.

(** A colon at the end of the line separates nothing. *)
Lemma split_colon_end (a : string) :
  all_chars (is_not ":") a = true ->
  Str.split ": " (a ++ ":") = [a ++ ":"].
Proof.
  unfold Str.split.
  induction a as [|c a IH]; intros H; [reflexivity |].
  cbn [all_chars] in H. apply andb_true_iff in H. destruct H as [Hc Ha].
  unfold is_not in Hc. apply negb_true_iff in Hc.
  cbn [append Str.split_go].
  rewrite (prefix_head ":" c " " (a ++ ":") Hc), (IH Ha).
  reflexivity.
Qed.

(** *** Words and lists of words *)

Lemma word_not_empty (w : string) : word w = true -> w <> "".
Proof. intros H E. subst w. discriminate H. Qed.

Lemma word_chars (w : string) :
  word w = true -> all_chars plain_char w = true.
Proof.
  unfold word. intros H. apply andb_true_iff in H. now destruct H.
Qed.

Lemma word_inline (w : string) : word w = true -> all_chars inline w = true.
Proof.
  intros H. apply all_chars_weaken with plain_char;
    [exact plain_inline | now apply word_chars].
Qed.

Lemma word_no_space (w : string) :
  word w = true -> all_chars (is_not " ") w = true.
Proof.
  intros H. apply all_chars_weaken with plain_char; [|now apply word_chars].
  intros c Hc. unfold is_not. apply negb_true_iff.
  apply plain_not_space in Hc.
  destruct (Ascii.eqb_spec c " ") as [->|_]; [discriminate Hc | reflexivity].
Qed.

Lemma word_no_colon (w : string) :
  word w = true -> all_chars (is_not ":") w = true.
Proof.
  intros H. apply all_chars_weaken with plain_char; [|now apply word_chars].
  intros c Hc. unfold is_not. apply negb_true_iff.
  now apply plain_not_colon.
Qed.

Lemma word_rstrip (w : string) : word w = true -> Str.rstrip w = w.
Proof.
  intros H. apply rstrip_plain.
  apply all_chars_weaken with plain_char; [|now apply word_chars].
  intros c Hc. apply negb_true_iff. now apply plain_not_space.
Qed.

Lemma join_cons (w w' : string) (ws : list string) :
  Str.join " " (w :: w' :: ws) = w ++ " " ++ Str.join " " (w' :: ws).
Proof. reflexivity. Qed.

(** What holds of [' '.join(ws)] for a non-empty list of words. *)
Lemma join_words (ws : list string) :
  ws <> [] ->
  forallb word ws = true ->
  let s := Str.join " " ws in
  s <> "" /\ Str.rstrip s = s /\
  all_chars inline s = true /\ all_chars (is_not ":") s = true /\
  Str.split " " s = ws.
Proof.
  induction ws as [|w ws IH]; intros Hne H; [contradiction |].
  cbn [forallb] in H. apply andb_true_iff in H. destruct H as [Hw Hws].
  destruct ws as [|w' ws].
  - cbn. repeat split.
    + now apply word_not_empty.
    + now apply word_rstrip.
    + now apply word_inline.
    + now apply word_no_colon.
    + apply split_none. now apply word_no_space.
  - destruct (IH ltac:(discriminate) Hws) as (N & R & I & C & S).
    cbv zeta. rewrite join_cons.
    set (s := Str.join " " (w' :: ws)) in *.
    repeat split.
    + intros E. apply word_not_empty in Hw.
      destruct w; [contradiction | discriminate].
    + rewrite <- append_assoc. now apply rstrip_app.
    + rewrite !all_chars_app, (word_inline w Hw), I. reflexivity.
    + rewrite !all_chars_app, (word_no_colon w Hw), C. reflexivity.
    + change (w ++ " " ++ s) with (w ++ String " " s).
      rewrite split_char_app; [|now apply word_no_space].
      now rewrite S.
Qed.

Lemma contains_space_word (w : string) :
  word w = true -> Str.contains " " w = false.
Proof. intros H. apply contains_none. now apply word_no_space. Qed.

Lemma contains_space_join (w w' : string) (ws : list string) :
  Str.contains " " (Str.join " " (w :: w' :: ws)) = true.
Proof. rewrite join_cons. apply contains_app. Qed.

(** *** A line [key: value] *)

Lemma nl_spaces : all_chars Str.is_space Str.nl = true.
Proof. reflexivity. Qed.

Lemma word_lstrip (k s : string) :
  word k = true -> Str.lstrip (k ++ s) = k ++ s.
Proof.
  intros H. destruct k as [|c k]; [discriminate H |].
  apply word_chars in H. cbn [all_chars] in H.
  apply andb_true_iff in H. destruct H as [Hc _].
  cbn [append]. apply lstrip_head. now apply plain_not_space.
Qed.

(** The fields of [key: value] with its line feed: the key and the
    value. *)
Lemma line_fields (k v : string) :
  word k = true -> v <> "" -> Str.rstrip v = v ->
  all_chars (is_not ":") v = true ->
  Str.contains ": " (k ++ ": " ++ v ++ Str.nl) = true /\
  Str.split ": " (Str.strip (k ++ ": " ++ v ++ Str.nl)) = [k; v].
Proof.
  intros Hk Hne Hr Hv. split; [apply contains_app |].
  unfold Str.strip. rewrite (word_lstrip k _ Hk).
  replace (k ++ ": " ++ v ++ Str.nl) with (((k ++ ": ") ++ v) ++ Str.nl)
    by now rewrite !append_assoc.
  rewrite (rstrip_spaces _ Str.nl nl_spaces).
  rewrite (rstrip_app (k ++ ": ") v Hr Hne).
  rewrite append_assoc.
  rewrite (split_colon_app k v (word_no_colon k Hk)).
  now rewrite (split_none ":" " " v Hv).
Qed.

(** The fields of [key: ] with its line feed: one field, no value. *)
Lemma line_fields_empty (k : string) :
  word k = true ->
  Str.split ": " (Str.strip (k ++ ": " ++ Str.nl)) = [k ++ ":"].
Proof.
  intros Hk. unfold Str.strip. rewrite (word_lstrip k _ Hk).
  replace (k ++ ": " ++ Str.nl) with ((k ++ ":") ++ (" " ++ Str.nl))
    by now rewrite !append_assoc.
  rewrite (rstrip_spaces (k ++ ":") (" " ++ Str.nl) eq_refl).
  rewrite (rstrip_app k ":" eq_refl ltac:(discriminate)).
  apply split_colon_end. now apply word_no_colon.
Qed.

Lemma value_of_word (w : string) :
  word w = true -> Config.value_of w = VStr w.
Proof.
  intros H. unfold Config.value_of. now rewrite (contains_space_word w H).
Qed.

Lemma value_of_words (w w' : string) (ws : list string) :
  forallb word (w :: w' :: ws) = true ->
  Config.value_of (Str.join " " (w :: w' :: ws)) = VList (w :: w' :: ws).
Proof.
  intros H. unfold Config.value_of. rewrite contains_space_join.
  destruct (join_words (w :: w' :: ws) ltac:(discriminate) H)
    as (_ & _ & _ & _ & S).
  now rewrite S.
Qed.

(** A line without [': '] is passed over. *)
Lemma read_line_skip (configured : bool) (c : config) (line : string) :
  Str.contains ": " line = false ->
  Config.read_line configured c line = Ok c.
Proof. intros H. unfold Config.read_line. now rewrite H. Qed.

(** A line [key: ] without a value is passed over. *)
Lemma read_line_empty (configured : bool) (c : config) (k : string) :
  word k = true ->
  Config.read_line configured c (k ++ ": " ++ Str.nl) = Ok c.
Proof.
  intros Hk. unfold Config.read_line.
  replace (Str.contains ": " (k ++ ": " ++ Str.nl)) with true
    by (symmetry; apply (contains_app ": " k Str.nl)).
  rewrite (line_fields_empty k Hk). reflexivity.
Qed.

(** The loop of [read] takes the lines one after the other. *)
Lemma read_lines_line (configured : bool) (c c' : config)
  (a rest : string) :
  all_chars inline a = true ->
  Config.read_line configured c (a ++ Str.nl) = Ok c' ->
  Config.read_lines configured c (Str.readlines (a ++ Str.nl ++ rest))
  = Config.read_lines configured c' (Str.readlines rest).
Proof.
  intros Ha H. rewrite (readlines_line a rest Ha).
  cbn [Config.read_lines]. rewrite H. reflexivity.
Qed.

(** *** The lines that [write] writes, read back one by one *)

Lemma read_line_enabled (c : config) (en : list string) :
  en <> [] -> forallb word en = true ->
  Config.read_line false c ("enabled" ++ ": " ++ Str.join " " en ++ Str.nl)
  = Ok (set_enabled
          (Some match en with
                | [x] => Config.listed_of_str "enabled" (enableable c) x
                | _ => Config.listed_of_list "enabled" (enableable c) en
                end) c).
Proof.
  intros Hne Hw.
  destruct (join_words en Hne Hw) as (N & R & _ & C & _).
  destruct (line_fields "enabled" (Str.join " " en) eq_refl N R C)
    as [Hc Hs].
  unfold Config.read_line. rewrite Hc, Hs.
  cbn [negb list_index nth_error bind].
  destruct en as [|x [|y l]]; [contradiction | |].
  - cbn [forallb] in Hw. rewrite andb_true_r in Hw.
    change (Str.join " " [x]) with x.
    rewrite (value_of_word x Hw). reflexivity.
  - rewrite (value_of_words x y l Hw). reflexivity.
Qed.

(** In a list the test of [read] lets every element through. *)
Lemma listed_of_list_map (key : string) (e : enableable_t)
  (l : list string) :
  Config.listed_of_list key e l = map Config.firefox_name l.
Proof.
  unfold Config.listed_of_list.
  assert (G : forall acc,
             fold_left
               (fun acc t =>
                  let t := Config.firefox_name t in
                  if negb (Config.bool_in
                             (Config.in_enableable t e
                              || negb (key =? "enabled")) acc)
                  then (acc ++ [t])%list else acc) l acc
             = (acc ++ map Config.firefox_name l)%list).
  { induction l as [|x l IH]; intros acc; cbn.
    - now rewrite app_nil_r.
    - rewrite IH, <- app_assoc. reflexivity. }
  exact (G []).
Qed.

Lemma read_line_firefox (c : config) (en : list string)
  (fs : list string) :
  enabled c = Some en -> forallb word fs = true ->
  Config.read_line false c ("firefox" ++ ": " ++ Str.join " " fs ++ Str.nl)
  = Ok match fs with
       | [] => c
       | _ => set_old_firefox (map Config.firefox_name fs)
                (set_enabled (Some (en ++ ["firefox"])%list) c)
       end.
Proof.
  intros He Hw. destruct fs as [|x fs].
  - exact (read_line_empty false c "firefox" eq_refl).
  - destruct (join_words (x :: fs) ltac:(discriminate) Hw)
      as (N & R & _ & C & _).
    destruct (line_fields "firefox" (Str.join " " (x :: fs)) eq_refl N R C)
      as [Hc Hs].
    unfold Config.read_line. rewrite Hc, Hs.
    cbn [negb list_index nth_error bind].
    destruct fs as [|y l].
    + cbn [forallb] in Hw. rewrite andb_true_r in Hw.
      change (Str.join " " [x]) with x.
      rewrite (value_of_word x Hw).
      assert (L : (0 <? Config.len (VStr x))%nat = true).
      { destruct x; [discriminate Hw | reflexivity]. }
      rewrite L, He. cbn -[Config.listed_of_str].
      unfold Config.listed_of_str.
      cbn. rewrite orb_true_r. reflexivity.
    + rewrite (value_of_words x y l Hw). rewrite He.
      cbn -[Config.listed_of_list].
      rewrite listed_of_list_map. reflexivity.
Qed.

Lemma read_line_vscode (c : config) (vs : list string) :
  forallb word vs = true ->
  Config.read_line false c ("vscode" ++ ": " ++ Str.join " " vs ++ Str.nl)
  = Ok match vs with
       | [] => c
       | _ => set_old_vscode (map Config.firefox_name vs) c
       end.
Proof.
  intros Hw. destruct vs as [|x vs].
  - exact (read_line_empty false c "vscode" eq_refl).
  - destruct (join_words (x :: vs) ltac:(discriminate) Hw)
      as (N & R & _ & C & _).
    destruct (line_fields "vscode" (Str.join " " (x :: vs)) eq_refl N R C)
      as [Hc Hs].
    unfold Config.read_line. rewrite Hc, Hs.
    cbn [negb list_index nth_error bind].
    destruct vs as [|y l].
    + cbn [forallb] in Hw. rewrite andb_true_r in Hw.
      change (Str.join " " [x]) with x.
      rewrite (value_of_word x Hw). cbn -[Config.listed_of_str].
      unfold Config.listed_of_str.
      cbn. rewrite orb_true_r. reflexivity.
    + rewrite (value_of_words x y l Hw). cbn -[Config.listed_of_list].
      rewrite listed_of_list_map. reflexivity.
Qed.

Lemma read_line_version (c : config) (g v : string) :
  In g (dict_keys VARIANTS_enableable) ->
  word v = true -> String.length v = 40%nat ->
  Config.read_line false c ((g ++ "_version") ++ ": " ++ v ++ Str.nl)
  = Ok (set_versions (dict_set (g ++ "_version") v (versions c)) c).
Proof.
  intros Hg Hw Hl.
  assert (K : word (g ++ "_version") = true
              /\ (g ++ "_version" =? "firefox") = false
              /\ Str.mem (g ++ "_version") ["enabled"; "firefox"; "vscode"]
                 = false
              /\ Str.startswith (g ++ "_version") "old" = false
              /\ (g ++ "_version" =? "gnome") = false
              /\ VARIANTS (g ++ "_version") = None
              /\ Str.endswith (g ++ "_version") "version" = true).
  { cbn in Hg.
    repeat (destruct Hg as [<-|Hg]; [repeat split; reflexivity |]).
    contradiction. }
  destruct K as (Kw & K1 & K2 & K3 & K4 & K5 & K6).
  remember (g ++ "_version") as k eqn:Ek. clear Ek Hg.
  destruct (line_fields k v Kw (word_not_empty v Hw) (word_rstrip v Hw)
              (word_no_colon v Hw)) as [Hc Hs].
  unfold Config.read_line. rewrite Hc, Hs.
  cbn [negb list_index nth_error bind].
  rewrite (value_of_word v Hw), K1, K2, K3, K4, K5, K6, Hl.
  reflexivity.
Qed.

Lemma versions_simple :
  forallb simple_name (dict_keys VERSIONS) = true.
Proof. reflexivity. Qed.

Lemma simple_name_parts (s : string) :
  simple_name s = true ->
  s <> "" /\ all_chars plain_char s = true /\
  all_chars (is_not "_") s = true.
Proof.
  unfold simple_name. intros H. apply andb_true_iff in H.
  destruct H as [Hw Hu]. repeat split;
    [now apply word_not_empty | now apply word_chars | exact Hu].
Qed.

(** A snapshot line, whatever its value is split into. *)
Lemma read_line_snapshot (c : config) (theme de s : string) :
  simple_name theme = true -> dict_mem de VERSIONS = true ->
  s <> "" -> Str.rstrip s = s -> all_chars (is_not ":") s = true ->
  Config.read_line false c (snapshot_line theme de s)
  = Ok (set_old (dict_set theme [(de, Config.value_of s)] (old c)) c).
Proof.
  intros Ht Hde Hne Hr Hcol.
  assert (Hd : simple_name de = true).
  { apply mem_In in Hde.
    exact (proj1 (forallb_forall _ _) versions_simple de Hde). }
  destruct (simple_name_parts theme Ht) as (_ & Tp & Tu).
  destruct (simple_name_parts de Hd) as (_ & Dp & Du).
  pose (k := "old_" ++ theme ++ "_" ++ de).
  assert (Kw : word k = true).
  { unfold word, k. rewrite !all_chars_app, Tp, Dp. reflexivity. }
  assert (K1 : (k =? "firefox") = false) by reflexivity.
  assert (K2 : Str.mem k ["enabled"; "firefox"; "vscode"] = false)
    by reflexivity.
  assert (K3 : Str.startswith k "old" = true) by reflexivity.
  assert (K4 : Str.split "_" k = ["old"; theme; de]).
  { unfold k.
    change ("old_" ++ theme ++ "_" ++ de)
      with ("old" ++ String "_" (theme ++ String "_" de)).
    rewrite (split_char_app "_" "old" _ eq_refl).
    rewrite (split_char_app "_" theme de Tu).
    now rewrite (split_none "_" "" de Du). }
  assert (E : snapshot_line theme de s = k ++ ": " ++ s ++ Str.nl).
  { unfold snapshot_line, k. now rewrite !append_assoc. }
  rewrite E. clearbody k.
  destruct (line_fields k s Kw Hne Hr Hcol) as [Hc Hs].
  unfold Config.read_line. rewrite Hc, Hs.
  cbn [negb list_index nth_error bind].
  rewrite K1, K2, K3, K4.
  cbn [andb negb list_index nth_error bind]. rewrite Hde. reflexivity.
Qed.

Lemma read_line_old (c : config) (theme de s : string) :
  simple_name theme = true -> dict_mem de VERSIONS = true ->
  word s = true ->
  Config.read_line false c (snapshot_line theme de s)
  = Ok (set_old (dict_set theme [(de, VStr s)] (old c)) c).
Proof.
  intros Ht Hde Hw. rewrite <- (value_of_word s Hw).
  apply read_line_snapshot; try assumption;
    [now apply word_not_empty | now apply word_rstrip
    | now apply word_no_colon].
Qed.

(** *** The sections of the file *)

Lemma read_version_lines (c : config) (groups : list string)
  (acc : config) (rest : string) :
  (forall g, In g groups -> In g (dict_keys VARIANTS_enableable)) ->
  (forall g v, In g groups ->
               dict_get (g ++ "_version") (versions c) = Some v ->
               version_word v = true) ->
  Config.read_lines false acc
    (Str.readlines
       (String.concat ""
          (flat_map
             (fun g =>
                match dict_get (g ++ "_version") (versions c) with
                | Some v => [g ++ "_version: " ++ v ++ Str.nl]
                | None => []
                end)
             groups) ++ rest))
  = Config.read_lines false (reread_versions c groups acc)
      (Str.readlines rest).
Proof.
  revert acc. induction groups as [|g groups IH]; intros acc Hg Hv;
    [reflexivity |].
  assert (Hg' : forall x, In x groups ->
                          In x (dict_keys VARIANTS_enableable))
    by (intros x Hx; apply Hg; now right).
  assert (Hv' : forall x v, In x groups ->
                            dict_get (x ++ "_version") (versions c) = Some v ->
                            version_word v = true)
    by (intros x v Hx; apply Hv; now right).
  assert (Kw : word (g ++ "_version") = true).
  { specialize (Hg g (or_introl eq_refl)). cbn in Hg.
    repeat (destruct Hg as [<-|Hg]; [reflexivity |]). contradiction. }
  cbn [flat_map]. rewrite concat_nil_app. unfold reread_versions.
  cbn [fold_left]. fold (reread_versions c groups).
  destruct (dict_get (g ++ "_version") (versions c)) as [v|] eqn:G.
  - specialize (Hv g v (or_introl eq_refl) G).
    cbn [String.concat]. rewrite append_assoc.
    unfold version_word in Hv. apply orb_true_iff in Hv.
    destruct (String.eqb_spec v "") as [E|Hne].
    + subst v. replace ((g ++ "_version: " ++ "" ++ Str.nl) ++ _)
        with (((g ++ "_version") ++ ": ") ++ Str.nl
              ++ String.concat ""
                   (flat_map
                      (fun g =>
                         match dict_get (g ++ "_version") (versions c) with
                         | Some v => [g ++ "_version: " ++ v ++ Str.nl]
                         | None => []
                         end) groups) ++ rest)
        by (rewrite !append_assoc; reflexivity).
      rewrite (read_lines_line false acc acc ((g ++ "_version") ++ ": ")).
      * apply IH; assumption.
      * rewrite all_chars_app, (word_inline _ Kw). reflexivity.
      * rewrite append_assoc. now apply read_line_empty.
    + destruct Hv as [Hv|Hv]; [discriminate Hv |].
      apply andb_true_iff in Hv. destruct Hv as [Hw Hl].
      apply Nat.eqb_eq in Hl.
      replace ((g ++ "_version: " ++ v ++ Str.nl) ++ _)
        with (((g ++ "_version") ++ ": " ++ v) ++ Str.nl
              ++ String.concat ""
                   (flat_map
                      (fun g =>
                         match dict_get (g ++ "_version") (versions c) with
                         | Some v => [g ++ "_version: " ++ v ++ Str.nl]
                         | None => []
                         end) groups) ++ rest)
        by (rewrite !append_assoc; reflexivity).
      rewrite (read_lines_line false acc
                 (set_versions (dict_set (g ++ "_version") v (versions acc))
                               acc)
                 ((g ++ "_version") ++ ": " ++ v)).
      * apply IH; assumption.
      * rewrite (all_chars_app inline (g ++ "_version")),
          (all_chars_app inline ": " v), (word_inline _ Kw),
          (word_inline _ Hw).
        reflexivity.
      * rewrite (append_assoc (g ++ "_version")).
        apply read_line_version;
          [apply Hg; now left | exact Hw | exact Hl].
  - cbn [String.concat append]. apply IH; assumption.
Qed.

Lemma simple_name_inline (s : string) :
  simple_name s = true -> all_chars inline s = true.
Proof.
  intros H. destruct (simple_name_parts s H) as (_ & P & _).
  apply all_chars_weaken with plain_char; [exact plain_inline | exact P].
Qed.

Lemma read_desktop_lines (theme : string) (des : dict pyval)
  (acc : config) (rest : string) :
  simple_name theme = true ->
  forallb
    (fun dv =>
       dict_mem (fst dv) VERSIONS
       && match snd dv with
          | VStr s => negb (genuine s) || word s
          | VList _ => false
          end) des = true ->
  Config.read_lines false acc
    (Str.readlines
       (String.concat ""
          (flat_map
             (fun dv =>
                match snd dv with
                | VStr s => if genuine s then [snapshot_line theme (fst dv) s]
                            else []
                | VList _ => []
                end) des) ++ rest))
  = Config.read_lines false (reread_desktops theme des acc)
      (Str.readlines rest).
Proof.
  intros Ht. revert acc.
  induction des as [|[de v] des IH]; intros acc H; [reflexivity |].
  cbn [forallb fst snd] in H. apply andb_true_iff in H.
  destruct H as [H1 H]. apply andb_true_iff in H1. destruct H1 as [Hde Hv].
  cbn [flat_map fst snd]. rewrite concat_nil_app.
  unfold reread_desktops. cbn [fold_left fst snd].
  fold (reread_desktops theme des).
  destruct v as [s|l]; [|discriminate Hv].
  destruct (genuine s) eqn:G; [|apply IH; exact H].
  cbn [negb orb] in Hv.
  cbn [String.concat]. rewrite append_assoc.
  assert (Hd : simple_name de = true).
  { apply mem_In in Hde.
    exact (proj1 (forallb_forall _ _) versions_simple de Hde). }
  assert (E : snapshot_line theme de s
              = ("old_" ++ theme ++ "_" ++ de ++ ": " ++ s) ++ Str.nl).
  { unfold snapshot_line. now rewrite !append_assoc. }
  rewrite E at 1. rewrite append_assoc.
  rewrite (read_lines_line false acc
             (set_old (dict_set theme [(de, VStr s)] (old acc)) acc)
             ("old_" ++ theme ++ "_" ++ de ++ ": " ++ s)).
  - apply IH. exact H.
  - rewrite (all_chars_app inline "old_"), (all_chars_app inline theme),
      (all_chars_app inline "_"), (all_chars_app inline de),
      (all_chars_app inline ": "), (simple_name_inline _ Ht),
      (simple_name_inline _ Hd), (word_inline _ Hv).
    reflexivity.
  - rewrite <- E. now apply read_line_old.
Qed.

Lemma read_snapshot_lines (o : dict (dict pyval)) (acc : config)
  (rest : string) :
  forallb snapshot_plain o = true ->
  Config.read_lines false acc (Str.readlines (snapshot_lines o ++ rest))
  = Config.read_lines false (reread_old o acc) (Str.readlines rest).
Proof.
  unfold snapshot_lines. revert acc.
  induction o as [|[theme des] o IH]; intros acc H; [reflexivity |].
  cbn [forallb] in H. apply andb_true_iff in H. destruct H as [H1 H].
  unfold snapshot_plain in H1. cbn [fst snd] in H1.
  apply andb_true_iff in H1. destruct H1 as [Ht Hd].
  cbn [flat_map fst snd]. rewrite concat_nil_app, append_assoc.
  rewrite (read_desktop_lines theme des acc _ Ht Hd).
  unfold reread_old. cbn [fold_left fst snd]. fold (reread_old o).
  apply IH. exact H.
Qed.

(** *** The whole file *)

Lemma read_line_color (c : config) (col : string) :
  In col (dict_keys VARIANTS_color) ->
  all_chars inline ("color: " ++ col) = true /\
  Config.read_line false c (("color: " ++ col) ++ Str.nl)
  = Ok (set_color (Some col) c).
Proof.
  intros H. cbn in H.
  repeat (destruct H as [<-|H]; [split; reflexivity |]). contradiction.
Qed.

Lemma read_line_theme (c : config) (th : string) :
  In th (dict_keys VARIANTS_theme) ->
  all_chars inline ("theme: " ++ th) = true /\
  Config.read_line false c (("theme: " ++ th) ++ Str.nl)
  = Ok (set_theme (Some th) c).
Proof.
  intros H. cbn in H.
  repeat (destruct H as [<-|H]; [split; reflexivity |]). contradiction.
Qed.

Lemma read_line_gnome (c : config) (g : option de_version) :
  detectable "gnome" g ->
  all_chars inline ("gnome: " ++ str_version g) = true /\
  Config.read_line false c (("gnome: " ++ str_version g) ++ Str.nl)
  = Ok (set_old_gnome (Some (int_version g)) c).
Proof.
  intros H. destruct g as [x|]; [|split; reflexivity].
  destruct H as (l & Hl & Hx). cbn in Hl. injection Hl as <-.
  cbn in Hx.
  repeat (destruct Hx as [<-|Hx]; [split; reflexivity |]). contradiction.
Qed.

Lemma dict_mem_del_in (V : Type) (x k : string) (d : dict V) :
  dict_mem x (dict_del k d) = true -> dict_mem x d = true.
Proof.
  unfold dict_mem, dict_keys.
  induction d as [|[k0 v0] d IH]; cbn; [discriminate |].
  destruct (k =? k0); cbn.
  - intros H. rewrite H. apply orb_true_r.
  - destruct (x =? k0); [reflexivity | exact IH].
Qed.

(** An eligible part is one of the parts of [VARIANTS]. *)
Lemma eligible_known (h : host) (x : string) :
  dict_mem x (Config.get_enableable h) = true ->
  In x (dict_keys Config.all_parts).
Proof.
  intros H. apply mem_In. unfold Config.get_enableable in H.
  assert (D : forall ds (acc : dict string),
             dict_mem x
               (fold_left
                  (fun (acc : dict string)
                       (d : string * option de_version) =>
                     match snd d, Config.desktop_part (fst d) with
                     | None, Some part => dict_del part acc
                     | _, _ => acc
                     end) ds acc) = true ->
             dict_mem x acc = true).
  { induction ds as [|d ds IH]; intros acc Hx; [exact Hx |].
    cbn [fold_left] in Hx. apply IH in Hx.
    destruct (snd d); [exact Hx |].
    destruct (Config.desktop_part (fst d)); [|exact Hx].
    now apply dict_mem_del_in in Hx. }
  apply (D (h_desktops h)).
  repeat match type of H with
         | dict_mem _ (if ?b then _ else _) = true => destruct b
         | dict_mem _ (dict_del _ _) = true => apply dict_mem_del_in in H
         end;
  exact H.
Qed.

Lemma parts_are_words : forallb word (dict_keys Config.all_parts) = true.
Proof. reflexivity. Qed.

Lemma parts_keep_their_name (x : string) :
  In x (dict_keys Config.all_parts) -> Config.firefox_name x = x.
Proof.
  intros H. cbn in H.
  repeat (destruct H as [<-|H]; [reflexivity |]). contradiction.
Qed.

Lemma eligible_words (h : host) (en : list string) :
  forallb (fun x => dict_mem x (Config.get_enableable h)) en = true ->
  forallb word en = true /\ map Config.firefox_name en = en.
Proof.
  induction en as [|x en IH]; intros H; [split; reflexivity |].
  cbn [forallb] in H. apply andb_true_iff in H. destruct H as [Hx H].
  destruct (IH H) as [W M]. apply eligible_known in Hx.
  cbn [forallb map]. rewrite W, M, (parts_keep_their_name x Hx).
  rewrite (proj1 (forallb_forall _ _) parts_are_words x Hx).
  split; reflexivity.
Qed.

(** The enabled list that the line [enabled: ...] leaves. *)
Lemma eligible_listed (h : host) (en : list string) :
  forallb (fun x => dict_mem x (Config.get_enableable h)) en = true ->
  en <> [] ->
  match en with
  | [x] => Config.listed_of_str "enabled"
             (EDict (Config.get_enableable h)) x
  | _ => Config.listed_of_list "enabled"
           (EDict (Config.get_enableable h)) en
  end = en.
Proof.
  intros H Hne. destruct (eligible_words h en H) as [_ M].
  destruct en as [|x [|y l]]; [contradiction | |].
  - cbn [forallb] in H. rewrite andb_true_r in H.
    cbn [map] in M. injection M as M.
    unfold Config.listed_of_str. rewrite M.
    cbn [Config.in_enableable]. rewrite H. reflexivity.
  - rewrite listed_of_list_map. exact M.
Qed.

Lemma snapshots_are_strings (o : dict (dict pyval)) :
  forallb snapshot_plain o = true -> all_strings o = true.
Proof.
  unfold all_strings. induction o as [|[theme des] o IH]; intros H;
    [reflexivity |].
  cbn [forallb] in H. apply andb_true_iff in H. destruct H as [H1 H].
  cbn [forallb snd]. rewrite (IH H), andb_true_r.
  unfold snapshot_plain in H1. apply andb_true_iff in H1.
  destruct H1 as [_ H1]. cbn [snd] in H1. clear -H1.
  induction des as [|[de v] des IHd]; [reflexivity |].
  cbn [forallb fst snd] in *. apply andb_true_iff in H1.
  destruct H1 as [Hv H1]. apply andb_true_iff in Hv. destruct Hv as [_ Hv].
  rewrite (IHd H1), andb_true_r. destruct v; [reflexivity | discriminate].
Qed.

(** The file that [write] leaves for [c] is read on host [h] into the
    dictionary [reread h c ...]. *)
Lemma read_written (h : host) (c : config) (file : node) (col th : string)
  (en : list string) (g : option de_version) :
  reads_back h c col th en g ->
  Config.read false (fst (Config.write c file)) (Config.init h)
  = Ok (reread h c col th en g).
Proof.
  intros (Hc & Ht & He & Hg & Ic & It & Hne & El & Hd & Ff & Vs & Vp & Sp).
  assert (W : fst (Config.write c file)
              = RegFile (file_text c col th en g)).
  { rewrite write_plain.
    rewrite (@write_text_closed c col th en g Hc Ht He Hg
               (snapshots_are_strings _ Sp)).
    reflexivity. }
  rewrite W. unfold Config.read, reread, file_text.
  set (c0 := Config.read_reset (Config.init h)).
  destruct (eligible_words h en El) as [Ew _].
  (* the header *)
  refine (eq_trans
            (read_lines_line false c0 c0
               "This file is generated and used by the install script."
               _ eq_refl eq_refl) _).
  (* color *)
  destruct (read_line_color c0 col Ic) as [I1 L1].
  refine (eq_trans (read_lines_line false c0 _ ("color: " ++ col) _ I1 L1) _).
  (* theme *)
  destruct (read_line_theme (set_color (Some col) c0) th It) as [I2 L2].
  refine (eq_trans (read_lines_line false _ _ ("theme: " ++ th) _ I2 L2) _).
  (* enabled *)
  destruct (join_words en Hne Ew) as (_ & _ & I3 & _ & _).
  assert (L3 := read_line_enabled
                  (set_theme (Some th) (set_color (Some col) c0)) en Hne Ew).
  change (enableable (set_theme (Some th) (set_color (Some col) c0)))
    with (EDict (Config.get_enableable h)) in L3.
  rewrite (eligible_listed h en El Hne) in L3.
  refine (eq_trans
            (read_lines_line false _ _ ("enabled: " ++ Str.join " " en) _
               _ L3) _);
    [exact I3 |].
  (* the empty line *)
  refine (eq_trans (read_lines_line false _ _ "" _ eq_refl eq_refl) _).
  (* gnome *)
  destruct (read_line_gnome
              (set_enabled (Some en)
                 (set_theme (Some th) (set_color (Some col) c0))) g Hd)
    as [I4 L4].
  refine (eq_trans
            (read_lines_line false _ _ ("gnome: " ++ str_version g) _ I4 L4)
            _).
  (* firefox *)
  assert (L5 := read_line_firefox
                  (set_old_gnome (Some (int_version g))
                     (set_enabled (Some en)
                        (set_theme (Some th) (set_color (Some col) c0))))
                  en (firefox c) eq_refl Ff).
  fold (reread_firefox c en
          (set_old_gnome (Some (int_version g))
             (set_enabled (Some en)
                (set_theme (Some th) (set_color (Some col) c0))))) in L5.
  refine (eq_trans
            (read_lines_line false _ _
               ("firefox: " ++ Str.join " " (firefox c)) _ _ L5) _).
  { destruct (firefox c) as [|x fs] eqn:F; [reflexivity |].
    now destruct (join_words (x :: fs) ltac:(discriminate) Ff)
      as (_ & _ & I & _ & _). }
  (* vscode *)
  assert (L6 := read_line_vscode
                  (reread_firefox c en
                     (set_old_gnome (Some (int_version g))
                        (set_enabled (Some en)
                           (set_theme (Some th) (set_color (Some col) c0)))))
                  (vscode c) Vs).
  fold (reread_vscode c
          (reread_firefox c en
             (set_old_gnome (Some (int_version g))
                (set_enabled (Some en)
                   (set_theme (Some th) (set_color (Some col) c0)))))) in L6.
  refine (eq_trans
            (read_lines_line false _ _
               ("vscode: " ++ Str.join " " (vscode c)) _ _ L6) _).
  { destruct (vscode c) as [|x vs] eqn:F; [reflexivity |].
    now destruct (join_words (x :: vs) ltac:(discriminate) Vs)
      as (_ & _ & I & _ & _). }
  (* the empty line *)
  refine (eq_trans (read_lines_line false _ _ "" _ eq_refl eq_refl) _).
  (* the versions *)
  unfold version_lines.
  rewrite read_version_lines.
  - refine (eq_trans (read_lines_line false _ _ "" _ eq_refl eq_refl) _).
    rewrite <- (append_nil_r (snapshot_lines (old c))).
    rewrite (read_snapshot_lines _ _ "" Sp). reflexivity.
  - intros x Hx. exact Hx.
  - intros x v Hx Hv. unfold versions_plain in Vp.
    assert (P := proj1 (forallb_forall _ _) Vp x Hx). cbv beta in P.
    now rewrite Hv in P.
Qed.

(** *** What the sections leave of the dictionary *)

Lemma reread_versions_cons (c : config) (g : string)
  (groups : list string) (acc : config) :
  reread_versions c (g :: groups) acc
  = reread_versions c groups
      match dict_get (g ++ "_version") (versions c) with
      | Some v =>
          if v =? "" then acc
          else set_versions (dict_set (g ++ "_version") v (versions acc)) acc
      | None => acc
      end.
Proof. reflexivity. Qed.

Lemma reread_versions_only (c : config) (groups : list string)
  (acc : config) :
  reread_versions c groups acc
  = set_versions (versions (reread_versions c groups acc)) acc.
Proof.
  revert acc. induction groups as [|g groups IH]; intros acc.
  - now destruct acc.
  - rewrite reread_versions_cons.
    destruct (dict_get (g ++ "_version") (versions c)) as [v|];
      [|apply IH].
    destruct (v =? ""); [apply IH |].
    rewrite IH. reflexivity.
Qed.

Lemma reread_desktops_cons (theme : string) (dv : string * pyval)
  (des : dict pyval) (acc : config) :
  reread_desktops theme (dv :: des) acc
  = reread_desktops theme des
      match snd dv with
      | VStr s =>
          if genuine s
          then set_old (dict_set theme [(fst dv, VStr s)] (old acc)) acc
          else acc
      | VList _ => acc
      end.
Proof. reflexivity. Qed.

Lemma reread_old_cons (td : string * dict pyval) (o : dict (dict pyval))
  (acc : config) :
  reread_old (td :: o) acc
  = reread_old o (reread_desktops (fst td) (snd td) acc).
Proof. reflexivity. Qed.

Lemma reread_desktops_only (theme : string) (des : dict pyval)
  (acc : config) :
  reread_desktops theme des acc
  = set_old (old (reread_desktops theme des acc)) acc.
Proof.
  revert acc. induction des as [|[de v] des IH]; intros acc.
  - now destruct acc.
  - rewrite reread_desktops_cons. cbn [fst snd].
    destruct v as [s|l]; [|apply IH].
    destruct (genuine s); [|apply IH].
    rewrite IH. reflexivity.
Qed.

Lemma reread_old_only (o : dict (dict pyval)) (acc : config) :
  reread_old o acc = set_old (old (reread_old o acc)) acc.
Proof.
  revert acc. induction o as [|[theme des] o IH]; intros acc.
  - now destruct acc.
  - rewrite reread_old_cons. cbn [fst snd].
    transitivity
      (set_old (old (reread_old o (reread_desktops theme des acc)))
               (reread_desktops theme des acc)); [apply IH |].
    generalize (old (reread_old o (reread_desktops theme des acc))).
    intros x. rewrite (reread_desktops_only theme des acc). reflexivity.
Qed.

(** The keys of [reread] that the first lines of the file set. *)
Lemma reread_head (h : host) (c : config) (col th : string)
  (en : list string) (g : option de_version) :
  let c' := reread h c col th en g in
  color c' = Some col /\ theme c' = Some th /\
  old_gnome c' = Some (int_version g) /\
  old_firefox c' = map Config.firefox_name (firefox c) /\
  old_vscode c' = map Config.firefox_name (vscode c) /\
  enabled c' = Some match firefox c with
                    | [] => en
                    | _ => (en ++ ["firefox"])%list
                    end /\
  detected c' = detected (Config.init h).
Proof.
  cbv zeta. unfold reread.
  rewrite reread_old_only, reread_versions_only.
  unfold reread_vscode, reread_firefox.
  destruct (firefox c), (vscode c); repeat split; reflexivity.
Qed.

Lemma append_cancel_r (a b s : string) : a ++ s = b ++ s -> a = b.
Proof.
  revert b. induction a as [|x a IH]; intros [|y b] H.
  - reflexivity.
  - exfalso. apply (f_equal String.length) in H.
    cbn [append] in H. cbn [String.length] in H.
    rewrite length_append in H. lia.
  - exfalso. apply (f_equal String.length) in H.
    cbn [append] in H. cbn [String.length] in H.
    rewrite length_append in H. lia.
  - cbn [append] in H. injection H as -> H. now rewrite (IH b H).
Qed.

(** The version lines of other groups leave the version of [g]. *)
Lemma reread_versions_other (c : config) (groups : list string)
  (acc : config) (g : string) :
  ~ In g groups ->
  dict_get (g ++ "_version") (versions (reread_versions c groups acc))
  = dict_get (g ++ "_version") (versions acc).
Proof.
  revert acc. induction groups as [|g0 groups IH]; intros acc Hn;
    [reflexivity |].
  rewrite reread_versions_cons, IH by (intros H; apply Hn; now right).
  destruct (dict_get (g0 ++ "_version") (versions c)) as [v|];
    [|reflexivity].
  destruct (v =? ""); [reflexivity |].
  cbn [versions set_versions]. apply dict_get_set_other.
  intros E. apply append_cancel_r in E. apply Hn. now left.
Qed.

(** The version line of [g] sets the version of [g], unless it is
    empty. *)
Lemma reread_versions_get (c : config) (groups : list string)
  (acc : config) (g : string) :
  In g groups ->
  dict_get (g ++ "_version") (versions (reread_versions c groups acc))
  = match dict_get (g ++ "_version") (versions c) with
    | Some v => if v =? "" then dict_get (g ++ "_version") (versions acc)
                else Some v
    | None => dict_get (g ++ "_version") (versions acc)
    end.
Proof.
  revert acc. induction groups as [|g0 groups IH]; intros acc Hin;
    [contradiction |].
  rewrite reread_versions_cons.
  destruct (in_dec string_dec g groups) as [Hg|Hg].
  - rewrite (IH _ Hg).
    destruct (dict_get (g ++ "_version") (versions c)) as [v|] eqn:G.
    + destruct (v =? "") eqn:V; [|reflexivity].
      destruct (string_dec g0 g) as [->|Hne].
      * now rewrite G, V.
      * destruct (dict_get (g0 ++ "_version") (versions c)) as [v0|];
          [|reflexivity].
        destruct (v0 =? ""); [reflexivity |].
        cbn [versions set_versions]. apply dict_get_set_other.
        intros E. apply append_cancel_r in E. congruence.
    + destruct (string_dec g0 g) as [->|Hne].
      * now rewrite G.
      * destruct (dict_get (g0 ++ "_version") (versions c)) as [v0|];
          [|reflexivity].
        destruct (v0 =? ""); [reflexivity |].
        cbn [versions set_versions]. apply dict_get_set_other.
        intros E. apply append_cancel_r in E. congruence.
  - destruct Hin as [->|Hin]; [|contradiction].
    rewrite (reread_versions_other c groups _ g Hg).
    destruct (dict_get (g ++ "_version") (versions c)) as [v|];
      [|reflexivity].
    destruct (v =? ""); [reflexivity |].
    cbn [versions set_versions]. apply dict_get_set_same.
Qed.

(** The snapshots that the snapshot lines add to [old], when every
    theme has one desktop and no theme comes twice. *)
Lemma reread_old_single (o : dict (dict pyval)) (acc : config) :
  forallb (fun td => one_known_desktop (snd td)) o = true ->
  uniq (dict_keys o) = true ->
  (forall k, In k (dict_keys o) -> dict_get k (old acc) = None) ->
  old (reread_old o acc) = (old acc ++ filter written_snapshot o)%list.
Proof.
  revert acc. induction o as [|[theme des] o IH]; intros acc Hs Hu Hf.
  - cbn. now rewrite app_nil_r.
  - cbn [forallb snd] in Hs. apply andb_true_iff in Hs.
    destruct Hs as [H1 Hs].
    change (negb (Str.mem theme (dict_keys o)) && uniq (dict_keys o) = true)
      in Hu.
    apply andb_true_iff in Hu. destruct Hu as [Hk Hu].
    apply negb_true_iff in Hk.
    rewrite reread_old_cons. cbn [fst snd].
    destruct des as [|[de v] [|d2 des]]; try discriminate H1.
    unfold reread_desktops. cbn [fold_left fst snd filter].
    destruct v as [s|l].
    + change (written_snapshot (theme, [(de, VStr s)])) with (genuine s).
      destruct (genuine s).
      * rewrite IH; [| exact Hs | exact Hu |].
        -- cbn [old set_old].
           rewrite (dict_set_absent theme _ (old acc)
                      (Hf theme (or_introl eq_refl))).
           now rewrite <- app_assoc.
        -- intros k Hin. cbn [old set_old].
           rewrite dict_get_set_other.
           ++ apply Hf. now right.
           ++ intros ->. apply mem_In in Hin. unfold dict_keys in *.
              congruence.
      * apply IH; [exact Hs | exact Hu |].
        intros k Hin. apply Hf. now right.
    + change (written_snapshot (theme, [(de, VList l)])) with false.
      cbv iota. apply IH; [exact Hs | exact Hu |].
      intros k Hin. apply Hf. now right.
Qed.

(** ** The configuration file: written, then read *)

(** Proves [reads_back] of a sample by evaluation. *)
Ltac reads_back_by_evaluation :=
  unfold reads_back; repeat split;
  try reflexivity; try discriminate; try (vm_compute; tauto);
  try (eexists; split; [reflexivity | vm_compute; tauto]).

(** The file that [write] leaves is read without an exception on the
    next run, and the colour, the variant, the GNOME version and the
    Firefox and VS Code variants come back as they were written. *)
Theorem written_file_is_read_back (h : host) (c : config) (file : node)
  (col th : string) (en : list string) (g : option de_version) :
  reads_back h c col th en g ->
  exists c',
    Config.read false (fst (Config.write c file)) (Config.init h) = Ok c' /\
    color c' = Some col /\ theme c' = Some th /\
    old_gnome c' = Some (int_version g) /\
    old_firefox c' = map Config.firefox_name (firefox c) /\
    old_vscode c' = map Config.firefox_name (vscode c) /\
    detected c' = detected (Config.init h).
Proof.
  intros H. exists (reread h c col th en g).
  split; [now apply read_written |].
  destruct (reread_head h c col th en g) as (A & B & C & D & E & _ & F).
  repeat split; assumption.
Qed.

Lemma written_file_is_read_back_witness :
  exists c',
    Config.read false (fst (Config.write Sample.blue_dark Directory))
                (Config.init Sample.gnome_host) = Ok c' /\
    color c' = Some "blue" /\ theme c' = Some "dark" /\
    old_gnome c' = Some (Some 43%Z) /\
    old_firefox c' = [] /\
    old_vscode c' = ["code"] /\
    detected c' = detected (Config.init Sample.gnome_host).
Proof.
  apply (written_file_is_read_back Sample.gnome_host Sample.blue_dark
           Directory "blue" "dark" ["gtk3"; "icons"] (Some (VerInt 43))).
  reads_back_by_evaluation.
Defined.

(** When the file was written on a host with a Firefox directory, the
    enabled list that is read back ends with one more [firefox],
    whether Firefox was enabled or not: the line [firefox: ...] of the
    file lists the variants that were found, and [read] takes a
    non-empty one for the old way of enabling the theme. *)
Theorem read_back_enables_firefox (h : host) (c : config) (file : node)
  (col th : string) (en : list string) (g : option de_version) :
  reads_back h c col th en g ->
  exists c',
    Config.read false (fst (Config.write c file)) (Config.init h) = Ok c' /\
    enabled c' = Some match firefox c with
                      | [] => en
                      | _ => (en ++ ["firefox"])%list
                      end.
Proof.
  intros H. exists (reread h c col th en g).
  split; [now apply read_written |].
  now destruct (reread_head h c col th en g) as (_ & _ & _ & _ & _ & E & _).
Qed.

Lemma read_back_enables_firefox_witness :
  exists c',
    Config.read false (fst (Config.write with_firefox Absent))
                (Config.init Sample.firefox_host) = Ok c' /\
    enabled c' = Some ["gtk3"; "firefox"].
Proof.
  apply (read_back_enables_firefox Sample.firefox_host with_firefox Absent
           "blue" "dark" ["gtk3"] (Some (VerInt 43))).
  reads_back_by_evaluation.
Defined.

Lemma reread_recorded (h : host) (c : config)
  (col th : string) (en : list string) (g : option de_version)
  (group : string) :
  In group (dict_keys VARIANTS_enableable) ->
  group <> "qualia-gtk-theme-snap" ->
  dict_get (group ++ "_version") (versions (reread h c col th en g))
  = Some (recorded group c).
Proof.
  intros Hin Hne.
  unfold reread. rewrite reread_old_only. cbn [versions set_old].
  rewrite (reread_versions_get c _ _ group Hin).
  assert (V : dict_get (group ++ "_version")
                (versions
                   (reread_vscode c
                      (reread_firefox c en
                         (set_old_gnome (Some (int_version g))
                            (set_enabled (Some en)
                               (set_theme (Some th)
                                  (set_color (Some col)
                                     (Config.read_reset
                                        (Config.init h)))))))))
              = Some "").
  { unfold reread_vscode, reread_firefox. cbn in Hin.
    destruct (firefox c), (vscode c);
      repeat (destruct Hin as [<-|Hin];
              [first [reflexivity | contradiction] |]);
      contradiction. }
  rewrite V. unfold recorded.
  destruct (dict_get (group ++ "_version") (versions c)) as [v|];
    [|reflexivity].
  destruct (String.eqb_spec v "") as [->|_]; reflexivity.
Qed.

(** The version recorded for a group that is built from a repository
    is read back as it was written; a missing one is read as the empty
    string. *)
Theorem written_versions_are_read_back (h : host) (c : config)
  (file : node) (col th : string) (en : list string)
  (g : option de_version) (group : string) :
  reads_back h c col th en g ->
  In group (dict_keys VARIANTS_enableable) ->
  group <> "qualia-gtk-theme-snap" ->
  exists c',
    Config.read false (fst (Config.write c file)) (Config.init h) = Ok c' /\
    dict_get (group ++ "_version") (versions c') = Some (recorded group c).
Proof.
  intros H Hin Hne. exists (reread h c col th en g).
  split; [now apply read_written |].
  now apply reread_recorded.
Qed.

Lemma written_versions_are_read_back_witness :
  exists c',
    Config.read false (fst (Config.write Sample.blue_dark Absent))
                (Config.init Sample.gnome_host) = Ok c' /\
    dict_get "dg-yaru_version" (versions c') = Some Sample.token.
Proof.
  apply (written_versions_are_read_back Sample.gnome_host Sample.blue_dark
           Absent "blue" "dark" ["gtk3"; "icons"] (Some (VerInt 43))
           "dg-yaru").
  - reads_back_by_evaluation.
  - vm_compute. tauto.
  - discriminate.
Defined.

(** When every theme of the snapshot map holds one desktop, the map
    that is read back is the map that was written without the entries
    that [write] leaves out (the empty ones and the names of the theme
    itself), in the same order. *)
Theorem written_snapshots_are_read_back (h : host) (c : config)
  (file : node) (col th : string) (en : list string)
  (g : option de_version) :
  reads_back h c col th en g ->
  snapshots_single c = true ->
  uniq (dict_keys (old c)) = true ->
  exists c',
    Config.read false (fst (Config.write c file)) (Config.init h) = Ok c' /\
    old c' = filter written_snapshot (old c).
Proof.
  intros H Hs Hu. exists (reread h c col th en g).
  split; [now apply read_written |].
  unfold reread. rewrite (reread_old_single (old c) _ Hs Hu).
  - rewrite reread_versions_only. unfold reread_vscode, reread_firefox.
    destruct (firefox c), (vscode c); reflexivity.
  - intros k _. rewrite reread_versions_only.
    unfold reread_vscode, reread_firefox.
    destruct (firefox c), (vscode c); reflexivity.
Qed.

Lemma written_snapshots_are_read_back_witness :
  exists c',
    Config.read false (fst (Config.write Sample.blue_dark Absent))
                (Config.init Sample.gnome_host) = Ok c' /\
    old c' = [("gtk3", [("gnome", VStr "Adwaita")]);
              ("icons", [("gnome", VStr "Yaru")])].
Proof.
  apply (written_snapshots_are_read_back Sample.gnome_host Sample.blue_dark
           Absent "blue" "dark" ["gtk3"; "icons"] (Some (VerInt 43))).
  - reads_back_by_evaluation.
  - reflexivity.
  - reflexivity.
Defined.

(** ** The next run *)

Lemma variant_added_same (l : list string) :
  Install.variant_added l l = false.
Proof.
  unfold Install.variant_added.
  assert (G : forall l', (forall x, In x l' -> In x l) ->
                         existsb (fun v => negb (Str.mem v l)) l' = false).
  { induction l' as [|x l' IH]; intros Hsub; [reflexivity |].
    cbn [existsb].
    rewrite (proj2 (mem_In x l) (Hsub x (or_introl eq_refl))).
    apply IH. intros y Hy. apply Hsub. now right. }
  apply G. auto.
Qed.

Lemma detectable_same (g : option de_version) :
  detectable "gnome" g -> version_differs (int_version g) g = false.
Proof.
  intros H. destruct g as [x|]; [|reflexivity].
  destruct H as (l & Hl & Hx). cbn in Hl. injection Hl as <-.
  cbn in Hx.
  repeat (destruct Hx as [<-|Hx]; [reflexivity |]). contradiction.
Qed.

(** The run that follows another one on the same host, with no flag
    that asks for a rebuild: the installer of a group that is built from
    a repository rebuilds exactly when the commit it finds differs from
    the version recorded in the file.  A group that the run before has
    built at this commit is left alone; a group without a recorded
    version is built, whatever the commit. *)
Theorem next_run_rebuilds_on_new_commit_only (h : host) (c : config)
  (file : node) (col th : string) (en : list string)
  (g : option de_version) (f : flags) (group : string) :
  reads_back h c col th en g ->
  same_host h c ->
  quiet f = true ->
  In group (dict_keys VARIANTS_enableable) ->
  group <> "qualia-gtk-theme-snap" ->
  exists c',
    Config.read false (fst (Config.write c file)) (Config.init h) = Ok c' /\
    forall live,
      Install.rebuilds group f live c'
      = Ok (negb (live =? recorded group c)).
Proof.
  intros H (Hd & Hf & Hv) Hq Hin Hne.
  exists (reread h c col th en g).
  split; [now apply read_written |]. intros live.
  assert (Hg : dict_get "gnome" (desktop_versions c) = Some g)
    by (destruct H as (_ & _ & _ & Hg & _); exact Hg).
  assert (Dg : detectable "gnome" g)
    by (destruct H as (_ & _ & _ & _ & _ & _ & _ & _ & Dg & _); exact Dg).
  destruct (reread_head h c col th en g) as (_ & _ & G & F & V & _ & D).
  rewrite <- Hd in D. unfold detected in D. injection D as D1 D2 D3.
  assert (Ver : forall x, In x (dict_keys VARIANTS_enableable) ->
                          x <> "qualia-gtk-theme-snap" ->
                          Install.version_changed live
                            (x ++ "_version") (reread h c col th en g)
                          = Ok (negb (live =? recorded x c))).
  { intros x Hx Hxn.
    assert (E := reread_recorded h c col th en g x Hx Hxn).
    unfold Install.version_changed, dict_lookup. rewrite E. reflexivity. }
  unfold quiet in Hq. apply negb_true_iff in Hq.
  apply orb_false_iff in Hq. destruct Hq as [Hq Hsy].
  apply orb_false_iff in Hq. destruct Hq as [Hq Hse].
  apply orb_false_iff in Hq. destruct Hq as [Hq Hth].
  apply orb_false_iff in Hq. destruct Hq as [Hq Hco].
  apply orb_false_iff in Hq. destruct Hq as [Hca Hfo].
  unfold Install.rebuilds. cbn in Hin.
  repeat (destruct Hin as [<-|Hin];
          [cbn [String.eqb Ascii.eqb Bool.eqb] |]); try contradiction.
  - unfold Install.dg_adw_gtk3.
    assert (E := Ver "dg-adw-gtk3" ltac:(vm_compute; tauto) Hne).
    cbn [append] in E. rewrite E. cbn [bind].
    now rewrite Hca, Hfo, !orb_false_r.
  - unfold Install.dg_libadwaita.
    assert (E := Ver "dg-libadwaita" ltac:(vm_compute; tauto) Hne).
    cbn [append] in E. rewrite E. cbn [bind].
    now rewrite Hca, Hfo, Hco, Hth, !orb_false_r.
  - unfold Install.dg_yaru.
    assert (E := Ver "dg-yaru" ltac:(vm_compute; tauto) Hne).
    cbn [append] in E. rewrite E. cbn [bind].
    rewrite Hca, Hfo, !orb_false_r.
    destruct (negb (live =? recorded "dg-yaru" c)); [reflexivity |].
    rewrite G. cbn [Config.get bind].
    unfold dict_lookup. rewrite D1, Hg. cbn [bind].
    now rewrite (detectable_same g Dg).
  - unfold Install.dg_firefox_theme.
    assert (E := Ver "dg-firefox-theme" ltac:(vm_compute; tauto) Hne).
    cbn [append] in E. rewrite E. cbn [bind].
    rewrite Hca, Hfo, Hco, Hse.
    now rewrite D2, F, Hf, variant_added_same, !orb_false_r.
  - unfold Install.dg_vscode_adwaita.
    assert (E := Ver "dg-vscode-adwaita" ltac:(vm_compute; tauto) Hne).
    cbn [append] in E. rewrite E. cbn [bind].
    rewrite Hca, Hfo, Hsy.
    now rewrite D3, V, Hv, variant_added_same, !orb_false_r.
Qed.

Lemma next_run_rebuilds_on_new_commit_only_witness :
  exists c',
    Config.read false (fst (Config.write Sample.blue_dark Absent))
                (Config.init Sample.gnome_host) = Ok c' /\
    forall live,
      Install.rebuilds "dg-yaru" Sample.no_flags live c'
      = Ok (negb (live =? Sample.token)).
Proof.
  apply (next_run_rebuilds_on_new_commit_only Sample.gnome_host
           Sample.blue_dark Absent "blue" "dark" ["gtk3"; "icons"]
           (Some (VerInt 43)) Sample.no_flags "dg-yaru").
  - reads_back_by_evaluation.
  - repeat split.
  - reflexivity.
  - vm_compute. tauto.
  - discriminate.
Defined.

(** On a host with a Firefox directory the theme of Firefox, never
    enabled and never built, is enabled by the next [read] and built by
    the next run. *)
Example next_run_builds_firefox_theme :
  let c' :=
    read_to (Config.read false (fst (Config.write with_firefox Absent))
                         (Config.init Sample.firefox_host))
            with_firefox in
  enabled with_firefox = Some ["gtk3"] /\
  enabled c' = Some ["gtk3"; "firefox"] /\
  Install.rebuilds "dg-firefox-theme" Sample.no_flags Sample.token c'
  = Ok true.
Proof. vm_compute. repeat split. Qed.



(** ** A snapshot of several words *)

Lemma read_reset_keys (c : config) :
  old (Config.read_reset c) = [] /\
  keys_present (Config.read_reset c) = keys_present c.
Proof.
  unfold Config.read_reset.
  apply read_reset_versions with
    (q := fun x => old x = [] /\ keys_present x = keys_present c);
    [|split; reflexivity].
  intros x k Hx. exact Hx.
Qed.

(** With every key there, a snapshot that is a list stops [write]. *)
Lemma write_list_error (c : config) (file : node) :
  keys_present c = true -> all_strings (old c) = false ->
  snd (Config.write c file) = Some AttributeError.
Proof.
  intros Hk Hs. rewrite write_plain. cbn [snd].
  unfold keys_present in Hk. unfold Config.write_text.
  destruct (color c) as [col|]; [|discriminate Hk].
  destruct (theme c) as [th|]; [|discriminate Hk].
  destruct (enabled c) as [en|]; [|discriminate Hk].
  unfold Config.need, Config.get, dict_lookup. cbn [Config.emit snd fst].
  destruct (dict_get "gnome" (desktop_versions c)) as [g|] eqn:G.
  - rewrite write_versions_text. cbn [snd Config.emit].
    rewrite write_old_error. now rewrite Hs.
  - apply dict_mem_get in Hk. contradiction.
Qed.

(** A name of several words, as a desktop may have it for a theme,
    does not come back from the file as it was captured: the snapshot
    line is read as the list of the words, and the [write] that follows
    stops with [AttributeError], a list having no [startswith]. *)
Theorem snapshot_of_several_words_stops_write (c : config)
  (theme de w w' : string) (ws : list string) (file : node) :
  simple_name theme = true ->
  dict_mem de VERSIONS = true ->
  forallb word (w :: w' :: ws) = true ->
  keys_present c = true ->
  exists c',
    Config.read false
      (RegFile (snapshot_line theme de (Str.join " " (w :: w' :: ws)))) c
    = Ok c' /\
    snapshot theme de (old c') = Some (VList (w :: w' :: ws)) /\
    snd (Config.write c' file) = Some AttributeError.
Proof.
  intros Ht Hde Hw Hk.
  destruct (join_words (w :: w' :: ws) ltac:(discriminate) Hw)
    as (N & R & I & C & _).
  set (s := Str.join " " (w :: w' :: ws)) in *.
  destruct (read_reset_keys c) as [O K]. rewrite <- K in Hk. clear K.
  unfold Config.read. cbv zeta.
  generalize dependent (Config.read_reset c). intros c0 Hk O.
  exists (set_old [(theme, [(de, VList (w :: w' :: ws))])] c0).
  assert (Hd : simple_name de = true).
  { apply mem_In in Hde.
    exact (proj1 (forallb_forall _ _) versions_simple de Hde). }
  split; [|split].
  - assert (E : snapshot_line theme de s
                = ("old_" ++ theme ++ "_" ++ de ++ ": " ++ s) ++ Str.nl
                  ++ "").
    { unfold snapshot_line. now rewrite !append_assoc, append_nil_r. }
    rewrite E.
    rewrite (read_lines_line false c0
               (set_old [(theme, [(de, VList (w :: w' :: ws))])] c0)).
    + reflexivity.
    + rewrite (all_chars_app inline "old_"), (all_chars_app inline theme),
        (all_chars_app inline "_"), (all_chars_app inline de),
        (all_chars_app inline ": "), (simple_name_inline _ Ht),
        (simple_name_inline _ Hd), I.
      reflexivity.
    + replace (("old_" ++ theme ++ "_" ++ de ++ ": " ++ s) ++ Str.nl)
        with (snapshot_line theme de s)
        by (unfold snapshot_line; now rewrite !append_assoc).
      rewrite (read_line_snapshot c0 theme de s Ht Hde N R C).
      unfold s. rewrite (value_of_words w w' ws Hw), O. reflexivity.
  - unfold snapshot. cbn. rewrite String.eqb_refl. cbn.
    now rewrite String.eqb_refl.
  - apply (write_list_error
             (set_old [(theme, [(de, VList (w :: w' :: ws))])] c0) file).
    + exact Hk.
    + reflexivity.
Qed.

Lemma snapshot_of_several_words_stops_write_witness :
  exists c',
    Config.read false
      (RegFile (snapshot_line "gtk3" "gnome" (Str.join " " ["Yaru"; "dark"])))
      Sample.blue_dark
    = Ok c' /\
    snapshot "gtk3" "gnome" (old c') = Some (VList ["Yaru"; "dark"]) /\
    snd (Config.write c' Absent) = Some AttributeError.
Proof.
  apply (snapshot_of_several_words_stops_write Sample.blue_dark
           "gtk3" "gnome" "Yaru" "dark" [] Absent); reflexivity.
Defined.
